(** * Sehwag multi-leg breakout strategy: a shallow embedding of the core

    The strategy is a Python program.  Prices and percentages are Python
    floats, i.e. IEEE 754 binary64 numbers; they are embedded as Rocq's
    primitive floats, whose operations are the same binary64 operations.
    Dictionaries are finite maps keyed by strings, exceptions are an
    explicit error type, and every broker call is either an input of the
    function that makes it or an event in the trace it returns. *)

From Stdlib Require Import ZArith List String Ascii Bool Lia Floats.
From stdpp Require Import base option gmap strings.

Import ListNotations.
#[local] Set Warnings "-inexact-float".
Local Open Scope string_scope.

(** ** Python values and the exceptions the core can meet *)

Inductive exn : Type :=
| ZeroDivisionError
| TypeError
| ValueError
| OverflowError
| NameError
| KeyError
| OtherError.

(** A computation that either returns or raises. *)
Inductive result (A : Type) : Type :=
| Ret (a : A)
| Raise (e : exn).
Arguments Ret {A} a.
Arguments Raise {A} e.

#[global] Instance result_ret : MRet result := fun _ a => Ret a.
#[global] Instance result_bind : MBind result := fun _ _ k m =>
  match m with
  | Ret a => k a
  | Raise e => Raise e
  end.

Definition returns {A : Type} (m : result A) : bool :=
  match m with Ret _ => true | Raise _ => false end.

(** Values found in the YAML configuration and in broker answers. *)
Inductive pyval : Type :=
| PyNone
| PyBool (b : bool)
| PyInt (z : Z)
| PyFloat (f : float)
| PyStr (s : string).

Module Py.

(** [float(n)] for an integer: the correctly rounded binary64 value.
    Python raises OverflowError for integers outside the float range;
    every integer of this program (order quantities, interval counts,
    configured percentages) is far inside it. *)
Definition float_of_int (z : Z) : float :=
  SF2Prim (binary_normalize prec emax z 0 false).

(** [int(x)] for a float: truncation towards zero; NaN raises ValueError
    and an infinity raises OverflowError. *)
Definition int_of_float (x : float) : result Z :=
  match Prim2SF x with
  | S754_nan => Raise ValueError
  | S754_infinity _ => Raise OverflowError
  | S754_zero _ => Ret 0%Z
  | S754_finite s m e =>
      let mag := match e with
                 | Z0 => Zpos m
                 | Zpos p => Z.shiftl (Zpos m) (Zpos p)
                 | Zneg p => Z.shiftr (Zpos m) (Zpos p)
                 end in
      Ret (if s then Z.opp mag else mag)
  end.

(** [a / b] on floats: Python raises on a zero divisor instead of
    returning an infinity or NaN. *)
Definition truediv (a b : float) : result float :=
  if PrimFloat.eqb b 0 then Raise ZeroDivisionError else Ret (a / b)%float.

(** Truth value of a float: everything except the two zeros. *)
Definition truthy_float (x : float) : bool := negb (PrimFloat.eqb x 0).

Definition truthy (v : pyval) : bool :=
  match v with
  | PyNone => false
  | PyBool b => b
  | PyInt z => negb (Z.eqb z 0)
  | PyFloat f => truthy_float f
  | PyStr s => negb (String.eqb s "")
  end.

(** [x >= y] and [x > y] on floats. *)
Definition ge (x y : float) : bool := PrimFloat.leb y x.
Definition gt (x y : float) : bool := PrimFloat.ltb y x.

Section Conversions.
  (** [float(s)] on a string is Python's own parser: the number read, or
      [None] where it raises ValueError. *)
Variable float_of_str : string -> option float.

  (** [float(v)]. *)
Definition to_float (v : pyval) : result float :=
    match v with
    | PyNone => Raise TypeError
    | PyBool b => Ret (if b then 1 else 0)%float
    | PyInt z => Ret (float_of_int z)
    | PyFloat f => Ret f
    | PyStr s => match float_of_str s with
                 | Some f => Ret f
                 | None => Raise ValueError
                 end
    end.
End Conversions.

(** A value used as a number in float arithmetic. *)
Definition number (v : pyval) : result float :=
  match v with
  | PyBool b => Ret (if b then 1 else 0)%float
  | PyInt z => Ret (float_of_int z)
  | PyFloat f => Ret f
  | PyNone => Raise TypeError
  | PyStr _ => Raise TypeError
  end.

(** [f"{v:.2f}"], the number format of the log lines: a number is
    formatted; [None] has no such format (TypeError) and a string
    rejects the format code (ValueError). *)
Definition format_f (v : pyval) : result unit :=
  match v with
  | PyNone => Raise TypeError
  | PyStr _ => Raise ValueError
  | PyBool _ | PyInt _ | PyFloat _ => Ret tt
  end.

(** The same for an attribute that holds a float or [None]. *)
Definition format_opt (o : option float) : result unit :=
  match o with
  | Some _ => Ret tt
  | None => Raise TypeError
  end.

(** Truth value of an optional float ([None] is false). *)
Definition truthy_opt (o : option float) : bool :=
  match o with Some f => truthy_float f | None => false end.

(** ASCII part of [str.lower()]. *)
Definition lower_ascii (c : ascii) : ascii :=
  let n := nat_of_ascii c in
  if (Nat.leb 65 n && Nat.leb n 90)%bool then ascii_of_nat (n + 32) else c.

Fixpoint lower (s : string) : string :=
  match s with
  | EmptyString => EmptyString
  | String c r => String (lower_ascii c) (lower r)
  end.

(** [p in s] on strings. *)
Fixpoint contains (p s : string) : bool :=
  if String.prefix p s then true
  else match s with
       | EmptyString => false
       | String _ r => contains p r
       end.

End Py.

(** ** Clock values

    A [datetime] in the strategy's time zone: the day as Python's
    [date.toordinal()] and the time of day. *)

Record datetime : Type := mkDatetime {
  ordinal : Z;
  hour : Z;
  minute : Z;
  second : Z;
  microsecond : Z
}.

(** ** Leg state (strategy.py, class LegState) *)

(** The reason strings handed to the exit routine; the two formatted ones
    keep the number they are formatted from. *)
Inductive reason : Type :=
| SL_BREACH
| SL_EXECUTED_ON_BROKER
| TIME_EXIT
| AUTO_CLOSE_PCT (pct : float)
| TRAIL_EXIT_PCT (target : float)
| PROFIT_LOCK.

(** [exiting] and [profit_level_for_lock_increase] are the attributes the
    code adds on demand ([_exiting]); an absent attribute reads as
    [false] / [None].  Order ids are kept as Python values because the
    code tests their truth value, and so is the exit price: the exit
    routine stores whatever its caller hands it. *)
Record LegState : Type := mkLegState {
  leg_num : Z;
  config : gmap string pyval;
  strategy_defaults : gmap string pyval;
  entry_time : option datetime;
  exit_time : option datetime;
  symbol : option string;
  entry_price : pyval;
  quantity : Z;
  entry_order_id : pyval;
  sl_order_id : pyval;
  profit_target_order_id : pyval;
  initial_sl_pct : float;
  current_sl : option float;
  highest_price : option float;
  last_sl_trail_level : float;
  first_lock_achieved : bool;
  profit_exit_target : option float;
  last_trail_level : float;
  is_active : bool;
  exit_reason : option reason;
  exit_price : pyval;
  exiting : bool;
  profit_level_for_lock_increase : option float
}.

(** Field assignments [leg_state.f = v]. *)

Definition set_config (v : gmap string pyval) (leg : LegState) : LegState :=
  {| leg_num := leg_num leg;
     config := v;
     strategy_defaults := strategy_defaults leg;
     entry_time := entry_time leg;
     exit_time := exit_time leg;
     symbol := symbol leg;
     entry_price := entry_price leg;
     quantity := quantity leg;
     entry_order_id := entry_order_id leg;
     sl_order_id := sl_order_id leg;
     profit_target_order_id := profit_target_order_id leg;
     initial_sl_pct := initial_sl_pct leg;
     current_sl := current_sl leg;
     highest_price := highest_price leg;
     last_sl_trail_level := last_sl_trail_level leg;
     first_lock_achieved := first_lock_achieved leg;
     profit_exit_target := profit_exit_target leg;
     last_trail_level := last_trail_level leg;
     is_active := is_active leg;
     exit_reason := exit_reason leg;
     exit_price := exit_price leg;
     exiting := exiting leg;
     profit_level_for_lock_increase := profit_level_for_lock_increase leg |}.

Definition set_symbol (v : option string) (leg : LegState) : LegState :=
  {| leg_num := leg_num leg;
     config := config leg;
     strategy_defaults := strategy_defaults leg;
     entry_time := entry_time leg;
     exit_time := exit_time leg;
     symbol := v;
     entry_price := entry_price leg;
     quantity := quantity leg;
     entry_order_id := entry_order_id leg;
     sl_order_id := sl_order_id leg;
     profit_target_order_id := profit_target_order_id leg;
     initial_sl_pct := initial_sl_pct leg;
     current_sl := current_sl leg;
     highest_price := highest_price leg;
     last_sl_trail_level := last_sl_trail_level leg;
     first_lock_achieved := first_lock_achieved leg;
     profit_exit_target := profit_exit_target leg;
     last_trail_level := last_trail_level leg;
     is_active := is_active leg;
     exit_reason := exit_reason leg;
     exit_price := exit_price leg;
     exiting := exiting leg;
     profit_level_for_lock_increase := profit_level_for_lock_increase leg |}.

Definition set_entry_price (v : pyval) (leg : LegState) : LegState :=
  {| leg_num := leg_num leg;
     config := config leg;
     strategy_defaults := strategy_defaults leg;
     entry_time := entry_time leg;
     exit_time := exit_time leg;
     symbol := symbol leg;
     entry_price := v;
     quantity := quantity leg;
     entry_order_id := entry_order_id leg;
     sl_order_id := sl_order_id leg;
     profit_target_order_id := profit_target_order_id leg;
     initial_sl_pct := initial_sl_pct leg;
     current_sl := current_sl leg;
     highest_price := highest_price leg;
     last_sl_trail_level := last_sl_trail_level leg;
     first_lock_achieved := first_lock_achieved leg;
     profit_exit_target := profit_exit_target leg;
     last_trail_level := last_trail_level leg;
     is_active := is_active leg;
     exit_reason := exit_reason leg;
     exit_price := exit_price leg;
     exiting := exiting leg;
     profit_level_for_lock_increase := profit_level_for_lock_increase leg |}.

Definition set_entry_order_id (v : pyval) (leg : LegState) : LegState :=
  {| leg_num := leg_num leg;
     config := config leg;
     strategy_defaults := strategy_defaults leg;
     entry_time := entry_time leg;
     exit_time := exit_time leg;
     symbol := symbol leg;
     entry_price := entry_price leg;
     quantity := quantity leg;
     entry_order_id := v;
     sl_order_id := sl_order_id leg;
     profit_target_order_id := profit_target_order_id leg;
     initial_sl_pct := initial_sl_pct leg;
     current_sl := current_sl leg;
     highest_price := highest_price leg;
     last_sl_trail_level := last_sl_trail_level leg;
     first_lock_achieved := first_lock_achieved leg;
     profit_exit_target := profit_exit_target leg;
     last_trail_level := last_trail_level leg;
     is_active := is_active leg;
     exit_reason := exit_reason leg;
     exit_price := exit_price leg;
     exiting := exiting leg;
     profit_level_for_lock_increase := profit_level_for_lock_increase leg |}.

Definition set_sl_order_id (v : pyval) (leg : LegState) : LegState :=
  {| leg_num := leg_num leg;
     config := config leg;
     strategy_defaults := strategy_defaults leg;
     entry_time := entry_time leg;
     exit_time := exit_time leg;
     symbol := symbol leg;
     entry_price := entry_price leg;
     quantity := quantity leg;
     entry_order_id := entry_order_id leg;
     sl_order_id := v;
     profit_target_order_id := profit_target_order_id leg;
     initial_sl_pct := initial_sl_pct leg;
     current_sl := current_sl leg;
     highest_price := highest_price leg;
     last_sl_trail_level := last_sl_trail_level leg;
     first_lock_achieved := first_lock_achieved leg;
     profit_exit_target := profit_exit_target leg;
     last_trail_level := last_trail_level leg;
     is_active := is_active leg;
     exit_reason := exit_reason leg;
     exit_price := exit_price leg;
     exiting := exiting leg;
     profit_level_for_lock_increase := profit_level_for_lock_increase leg |}.

Definition set_profit_target_order_id (v : pyval) (leg : LegState) : LegState :=
  {| leg_num := leg_num leg;
     config := config leg;
     strategy_defaults := strategy_defaults leg;
     entry_time := entry_time leg;
     exit_time := exit_time leg;
     symbol := symbol leg;
     entry_price := entry_price leg;
     quantity := quantity leg;
     entry_order_id := entry_order_id leg;
     sl_order_id := sl_order_id leg;
     profit_target_order_id := v;
     initial_sl_pct := initial_sl_pct leg;
     current_sl := current_sl leg;
     highest_price := highest_price leg;
     last_sl_trail_level := last_sl_trail_level leg;
     first_lock_achieved := first_lock_achieved leg;
     profit_exit_target := profit_exit_target leg;
     last_trail_level := last_trail_level leg;
     is_active := is_active leg;
     exit_reason := exit_reason leg;
     exit_price := exit_price leg;
     exiting := exiting leg;
     profit_level_for_lock_increase := profit_level_for_lock_increase leg |}.

Definition set_current_sl (v : option float) (leg : LegState) : LegState :=
  {| leg_num := leg_num leg;
     config := config leg;
     strategy_defaults := strategy_defaults leg;
     entry_time := entry_time leg;
     exit_time := exit_time leg;
     symbol := symbol leg;
     entry_price := entry_price leg;
     quantity := quantity leg;
     entry_order_id := entry_order_id leg;
     sl_order_id := sl_order_id leg;
     profit_target_order_id := profit_target_order_id leg;
     initial_sl_pct := initial_sl_pct leg;
     current_sl := v;
     highest_price := highest_price leg;
     last_sl_trail_level := last_sl_trail_level leg;
     first_lock_achieved := first_lock_achieved leg;
     profit_exit_target := profit_exit_target leg;
     last_trail_level := last_trail_level leg;
     is_active := is_active leg;
     exit_reason := exit_reason leg;
     exit_price := exit_price leg;
     exiting := exiting leg;
     profit_level_for_lock_increase := profit_level_for_lock_increase leg |}.

Definition set_highest_price (v : option float) (leg : LegState) : LegState :=
  {| leg_num := leg_num leg;
     config := config leg;
     strategy_defaults := strategy_defaults leg;
     entry_time := entry_time leg;
     exit_time := exit_time leg;
     symbol := symbol leg;
     entry_price := entry_price leg;
     quantity := quantity leg;
     entry_order_id := entry_order_id leg;
     sl_order_id := sl_order_id leg;
     profit_target_order_id := profit_target_order_id leg;
     initial_sl_pct := initial_sl_pct leg;
     current_sl := current_sl leg;
     highest_price := v;
     last_sl_trail_level := last_sl_trail_level leg;
     first_lock_achieved := first_lock_achieved leg;
     profit_exit_target := profit_exit_target leg;
     last_trail_level := last_trail_level leg;
     is_active := is_active leg;
     exit_reason := exit_reason leg;
     exit_price := exit_price leg;
     exiting := exiting leg;
     profit_level_for_lock_increase := profit_level_for_lock_increase leg |}.

Definition set_last_sl_trail_level (v : float) (leg : LegState) : LegState :=
  {| leg_num := leg_num leg;
     config := config leg;
     strategy_defaults := strategy_defaults leg;
     entry_time := entry_time leg;
     exit_time := exit_time leg;
     symbol := symbol leg;
     entry_price := entry_price leg;
     quantity := quantity leg;
     entry_order_id := entry_order_id leg;
     sl_order_id := sl_order_id leg;
     profit_target_order_id := profit_target_order_id leg;
     initial_sl_pct := initial_sl_pct leg;
     current_sl := current_sl leg;
     highest_price := highest_price leg;
     last_sl_trail_level := v;
     first_lock_achieved := first_lock_achieved leg;
     profit_exit_target := profit_exit_target leg;
     last_trail_level := last_trail_level leg;
     is_active := is_active leg;
     exit_reason := exit_reason leg;
     exit_price := exit_price leg;
     exiting := exiting leg;
     profit_level_for_lock_increase := profit_level_for_lock_increase leg |}.

Definition set_first_lock_achieved (v : bool) (leg : LegState) : LegState :=
  {| leg_num := leg_num leg;
     config := config leg;
     strategy_defaults := strategy_defaults leg;
     entry_time := entry_time leg;
     exit_time := exit_time leg;
     symbol := symbol leg;
     entry_price := entry_price leg;
     quantity := quantity leg;
     entry_order_id := entry_order_id leg;
     sl_order_id := sl_order_id leg;
     profit_target_order_id := profit_target_order_id leg;
     initial_sl_pct := initial_sl_pct leg;
     current_sl := current_sl leg;
     highest_price := highest_price leg;
     last_sl_trail_level := last_sl_trail_level leg;
     first_lock_achieved := v;
     profit_exit_target := profit_exit_target leg;
     last_trail_level := last_trail_level leg;
     is_active := is_active leg;
     exit_reason := exit_reason leg;
     exit_price := exit_price leg;
     exiting := exiting leg;
     profit_level_for_lock_increase := profit_level_for_lock_increase leg |}.

Definition set_profit_exit_target (v : option float) (leg : LegState) : LegState :=
  {| leg_num := leg_num leg;
     config := config leg;
     strategy_defaults := strategy_defaults leg;
     entry_time := entry_time leg;
     exit_time := exit_time leg;
     symbol := symbol leg;
     entry_price := entry_price leg;
     quantity := quantity leg;
     entry_order_id := entry_order_id leg;
     sl_order_id := sl_order_id leg;
     profit_target_order_id := profit_target_order_id leg;
     initial_sl_pct := initial_sl_pct leg;
     current_sl := current_sl leg;
     highest_price := highest_price leg;
     last_sl_trail_level := last_sl_trail_level leg;
     first_lock_achieved := first_lock_achieved leg;
     profit_exit_target := v;
     last_trail_level := last_trail_level leg;
     is_active := is_active leg;
     exit_reason := exit_reason leg;
     exit_price := exit_price leg;
     exiting := exiting leg;
     profit_level_for_lock_increase := profit_level_for_lock_increase leg |}.

Definition set_last_trail_level (v : float) (leg : LegState) : LegState :=
  {| leg_num := leg_num leg;
     config := config leg;
     strategy_defaults := strategy_defaults leg;
     entry_time := entry_time leg;
     exit_time := exit_time leg;
     symbol := symbol leg;
     entry_price := entry_price leg;
     quantity := quantity leg;
     entry_order_id := entry_order_id leg;
     sl_order_id := sl_order_id leg;
     profit_target_order_id := profit_target_order_id leg;
     initial_sl_pct := initial_sl_pct leg;
     current_sl := current_sl leg;
     highest_price := highest_price leg;
     last_sl_trail_level := last_sl_trail_level leg;
     first_lock_achieved := first_lock_achieved leg;
     profit_exit_target := profit_exit_target leg;
     last_trail_level := v;
     is_active := is_active leg;
     exit_reason := exit_reason leg;
     exit_price := exit_price leg;
     exiting := exiting leg;
     profit_level_for_lock_increase := profit_level_for_lock_increase leg |}.

Definition set_is_active (v : bool) (leg : LegState) : LegState :=
  {| leg_num := leg_num leg;
     config := config leg;
     strategy_defaults := strategy_defaults leg;
     entry_time := entry_time leg;
     exit_time := exit_time leg;
     symbol := symbol leg;
     entry_price := entry_price leg;
     quantity := quantity leg;
     entry_order_id := entry_order_id leg;
     sl_order_id := sl_order_id leg;
     profit_target_order_id := profit_target_order_id leg;
     initial_sl_pct := initial_sl_pct leg;
     current_sl := current_sl leg;
     highest_price := highest_price leg;
     last_sl_trail_level := last_sl_trail_level leg;
     first_lock_achieved := first_lock_achieved leg;
     profit_exit_target := profit_exit_target leg;
     last_trail_level := last_trail_level leg;
     is_active := v;
     exit_reason := exit_reason leg;
     exit_price := exit_price leg;
     exiting := exiting leg;
     profit_level_for_lock_increase := profit_level_for_lock_increase leg |}.

Definition set_exit_reason (v : option reason) (leg : LegState) : LegState :=
  {| leg_num := leg_num leg;
     config := config leg;
     strategy_defaults := strategy_defaults leg;
     entry_time := entry_time leg;
     exit_time := exit_time leg;
     symbol := symbol leg;
     entry_price := entry_price leg;
     quantity := quantity leg;
     entry_order_id := entry_order_id leg;
     sl_order_id := sl_order_id leg;
     profit_target_order_id := profit_target_order_id leg;
     initial_sl_pct := initial_sl_pct leg;
     current_sl := current_sl leg;
     highest_price := highest_price leg;
     last_sl_trail_level := last_sl_trail_level leg;
     first_lock_achieved := first_lock_achieved leg;
     profit_exit_target := profit_exit_target leg;
     last_trail_level := last_trail_level leg;
     is_active := is_active leg;
     exit_reason := v;
     exit_price := exit_price leg;
     exiting := exiting leg;
     profit_level_for_lock_increase := profit_level_for_lock_increase leg |}.

Definition set_exit_price (v : pyval) (leg : LegState) : LegState :=
  {| leg_num := leg_num leg;
     config := config leg;
     strategy_defaults := strategy_defaults leg;
     entry_time := entry_time leg;
     exit_time := exit_time leg;
     symbol := symbol leg;
     entry_price := entry_price leg;
     quantity := quantity leg;
     entry_order_id := entry_order_id leg;
     sl_order_id := sl_order_id leg;
     profit_target_order_id := profit_target_order_id leg;
     initial_sl_pct := initial_sl_pct leg;
     current_sl := current_sl leg;
     highest_price := highest_price leg;
     last_sl_trail_level := last_sl_trail_level leg;
     first_lock_achieved := first_lock_achieved leg;
     profit_exit_target := profit_exit_target leg;
     last_trail_level := last_trail_level leg;
     is_active := is_active leg;
     exit_reason := exit_reason leg;
     exit_price := v;
     exiting := exiting leg;
     profit_level_for_lock_increase := profit_level_for_lock_increase leg |}.

Definition set_exiting (v : bool) (leg : LegState) : LegState :=
  {| leg_num := leg_num leg;
     config := config leg;
     strategy_defaults := strategy_defaults leg;
     entry_time := entry_time leg;
     exit_time := exit_time leg;
     symbol := symbol leg;
     entry_price := entry_price leg;
     quantity := quantity leg;
     entry_order_id := entry_order_id leg;
     sl_order_id := sl_order_id leg;
     profit_target_order_id := profit_target_order_id leg;
     initial_sl_pct := initial_sl_pct leg;
     current_sl := current_sl leg;
     highest_price := highest_price leg;
     last_sl_trail_level := last_sl_trail_level leg;
     first_lock_achieved := first_lock_achieved leg;
     profit_exit_target := profit_exit_target leg;
     last_trail_level := last_trail_level leg;
     is_active := is_active leg;
     exit_reason := exit_reason leg;
     exit_price := exit_price leg;
     exiting := v;
     profit_level_for_lock_increase := profit_level_for_lock_increase leg |}.

Definition set_profit_level_for_lock_increase (v : option float) (leg : LegState) : LegState :=
  {| leg_num := leg_num leg;
     config := config leg;
     strategy_defaults := strategy_defaults leg;
     entry_time := entry_time leg;
     exit_time := exit_time leg;
     symbol := symbol leg;
     entry_price := entry_price leg;
     quantity := quantity leg;
     entry_order_id := entry_order_id leg;
     sl_order_id := sl_order_id leg;
     profit_target_order_id := profit_target_order_id leg;
     initial_sl_pct := initial_sl_pct leg;
     current_sl := current_sl leg;
     highest_price := highest_price leg;
     last_sl_trail_level := last_sl_trail_level leg;
     first_lock_achieved := first_lock_achieved leg;
     profit_exit_target := profit_exit_target leg;
     last_trail_level := last_trail_level leg;
     is_active := is_active leg;
     exit_reason := exit_reason leg;
     exit_price := exit_price leg;
     exiting := exiting leg;
     profit_level_for_lock_increase := v |}.

Module Leg.
Local Open Scope float_scope.

Section Pnl.
(** Python's [float] on a string: the number read, or [None] where it
    raises ValueError. *)
Variable float_of_str : string -> option float.

(** [LegState.calculate_pnl].  The two conversions stand in the [try]
    block whose handler returns the safe default. *)
Definition calculate_pnl (leg : LegState) (current_price : pyval)
  : result (float * float) :=
  match entry_price leg with
  | PyNone => Ret (0, 0)
  | ep =>
      match Py.to_float float_of_str ep with
      | Raise _ => Ret (0, 0)
      | Ret entry =>
          match Py.to_float float_of_str current_price with
          | Raise _ => Ret (0, 0)
          | Ret exitp =>
              let qty := quantity leg in
              let price_change := exitp - entry in
              let pnl := price_change * Py.float_of_int qty in
              pnl_pct ← (if negb (PrimFloat.eqb entry 0)
                         then q ← Py.truediv price_change entry; Ret (q * 100)
                         else Ret 0);
              Ret (pnl, pnl_pct)
          end
      end
  end.

End Pnl.
End Leg.

(** ** Positions of the position manager (models.py, class LegPosition) *)

Record LegPosition : Type := mkLegPosition {
  lp_leg_id : Z;
  lp_symbol : string;
  lp_entry_price : float;
  lp_quantity : Z;
  lp_current_sl : float;
  lp_lock_profit_pct : float;
  lp_profit_level_for_lock_increase : float;
  lp_is_active : bool;
  lp_exit_price : option float;
  lp_exit_time : option string;
  lp_pnl : float;
  lp_pnl_pct : float
}.

Module Position.
Local Open Scope float_scope.

(** [LegPosition.calculate_pnl]; no guard on a zero entry price here. *)
Definition calculate_pnl (lp : LegPosition) (current_price : float)
  (entry_action : string) : result (float * float) :=
  if String.eqb entry_action "BUY" then
    let pnl := (current_price - lp_entry_price lp) * Py.float_of_int (lp_quantity lp) in
    q ← Py.truediv (current_price - lp_entry_price lp) (lp_entry_price lp);
    Ret (pnl, q * 100)
  else
    let pnl := (lp_entry_price lp - current_price) * Py.float_of_int (lp_quantity lp) in
    q ← Py.truediv (lp_entry_price lp - current_price) (lp_entry_price lp);
    Ret (pnl, q * 100).

End Position.
(** ** Order gateway (order_manager.py)

    The broker client is an input: each of its calls either raises or
    answers.  The calls a function makes are returned as a trace. *)

Inductive api_answer (A : Type) : Type :=
| Answered (a : A)
| Failed.
Arguments Answered {A} a.
Arguments Failed {A}.

(** Answer of [positionbook()]: a dict with its status and [data] list
    (an absent or [None] list reads as empty), or something else. *)
Inductive pb_response : Type :=
| PbNotDict
| PbDict (status : pyval) (data : list (gmap string pyval)).

(** Answer of [placeorder], [modifyorder] and [cancelorder]. *)
Inductive order_response : Type :=
| OrNotDict
| OrDict (fields : gmap string pyval).

Record Client : Type := mkClient {
  positionbook : api_answer pb_response;
  placeorder : string -> Z -> string -> api_answer order_response;
  modifyorder : pyval -> float -> float -> api_answer order_response;
  cancelorder : pyval -> api_answer order_response;
  (* [int(time.time())] as printed in simulated order ids *)
  clock_stamp : string
}.

Record OrderConfig : Type := mkOrderConfig {
  test_mode : bool;
  auto_place_orders : bool;
  entry_action : string;
  exit_action : string;
  place_sl_order_enabled : bool;
  sl_limit_buffer_percent : float
}.

Inductive log_level : Type := Info | Warning | Error.

Inductive call : Type :=
| CallPositionBook
| CallPlaceOrder (symbol : string) (qty : Z) (action : string)
| CallModifyOrder (order_id : pyval) (trigger limit : float)
| CallCancelOrder (order_id : pyval)
| Logged (lvl : log_level).

Module OrderManager.
Local Open Scope float_scope.

(** [d.get(k)]. *)
Definition dget (d : gmap string pyval) (k : string) : pyval :=
  default PyNone (d !! k).

(** [a or b]. *)
Definition py_or (a b : pyval) : pyval := if Py.truthy a then a else b.

(** [v == s] for a string [s]. *)
Definition eq_str (v : pyval) (s : string) : bool :=
  match v with PyStr t => String.eqb t s | _ => false end.

(** [round(x)]: nearest integer, ties to even. *)
Definition py_round (x : float) : result Z :=
  match Prim2SF x with
  | S754_nan => Raise ValueError
  | S754_infinity _ => Raise OverflowError
  | S754_zero _ => Ret 0%Z
  | S754_finite s m e =>
      let mag :=
        match e with
        | Z0 => Zpos m
        | Zpos p => Z.shiftl (Zpos m) (Zpos p)
        | Zneg p =>
            let q := Z.shiftr (Zpos m) (Zpos p) in
            let r := Z.land (Zpos m) (Z.ones (Zpos p)) in
            let half := Z.shiftl 1 (Zpos p - 1) in
            if (half <? r)%Z then (q + 1)%Z
            else if (r =? half)%Z && Z.odd q then (q + 1)%Z
            else q
        end in
      Ret (if s then Z.opp mag else mag)
  end.

(** [round_to_tick_size(price)] with the default tick of 0.05. *)
Definition round_to_tick_size (price : float) : result float :=
  n ← py_round (price / 0.05);
  Ret (Py.float_of_int n * 0.05).

Section Gateway.
(** Python's [int] on a string: the integer read, or [None] where it
    raises ValueError. *)
Variable int_of_str : string -> option Z.

(** [int(v)]. *)
Definition to_int (v : pyval) : result Z :=
  match v with
  | PyNone => Raise TypeError
  | PyBool b => Ret (if b then 1 else 0)%Z
  | PyInt z => Ret z
  | PyFloat f => Py.int_of_float f
  | PyStr s => match int_of_str s with
               | Some z => Ret z
               | None => Raise ValueError
               end
  end.

Definition pos_symbol (p : gmap string pyval) : pyval :=
  py_or (py_or (dget p "symbol") (dget p "tradingsymbol")) (dget p "Symbol").

(** The quantity of a position-book row; ValueError and TypeError of the
    conversion read as 0, any other exception leaves the loop. *)
Definition pos_quantity (p : gmap string pyval) : result Z :=
  let raw := py_or (py_or (py_or (dget p "quantity") (dget p "netqty"))
                          (dget p "Quantity")) (PyInt 0) in
  match to_int raw with
  | Ret z => Ret z
  | Raise ValueError => Ret 0%Z
  | Raise TypeError => Ret 0%Z
  | Raise e => Raise e
  end.

(** The loop over the position book. *)
Fixpoint scan_positions (symbol : string) (data : list (gmap string pyval))
  : result bool :=
  match data with
  | [] => Ret false
  | p :: rest =>
      q ← pos_quantity p;
      if eq_str (pos_symbol p) symbol && negb (q =? 0)%Z then Ret true
      else scan_positions symbol rest
  end.

(** [OrderManager.verify_position_exists]. *)
Definition verify_position_exists (cfg : OrderConfig) (c : Client)
  (symbol : string) : bool * list call :=
  if test_mode cfg || negb (auto_place_orders cfg) then (true, [])
  else
    match positionbook c with
    | Failed => (true, [CallPositionBook])
    | Answered PbNotDict => (true, [CallPositionBook])
    | Answered (PbDict status data) =>
        if negb (eq_str status "success") then (true, [CallPositionBook])
        else
          match data with
          | [] => (false, [CallPositionBook])
          | _ =>
              match scan_positions symbol data with
              | Ret b => (b, [CallPositionBook])
              | Raise _ => (true, [CallPositionBook])
              end
          end
    end.

(** [OrderManager.place_order]: the order id, or [None]. *)
Definition place_order (cfg : OrderConfig) (c : Client)
  (symbol : string) (qty : Z) (action : string) : pyval * list call :=
  let '(ok, t) :=
    if String.eqb action (exit_action cfg)
    then verify_position_exists cfg c symbol
    else (true, []) in
  if negb ok then (PyNone, t)
  else if test_mode cfg then
    (PyStr ("TEST_ORDER_" ++ symbol ++ "_" ++ clock_stamp c), t)
  else if negb (auto_place_orders cfg) then
    (PyStr ("SIM_ORDER_" ++ symbol ++ "_" ++ clock_stamp c), t)
  else
    let t' := (t ++ [CallPlaceOrder symbol qty action])%list in
    match placeorder c symbol qty action with
    | Failed => (PyNone, t')
    | Answered OrNotDict => (PyNone, t')
    | Answered (OrDict f) =>
        if eq_str (dget f "status") "success" then (dget f "orderid", t')
        else (PyNone, t')
    end.

End Gateway.

(** [response.get('message', 'Unknown error')]. *)
Definition error_message (f : gmap string pyval) : pyval :=
  default (PyStr "Unknown error") (f !! "message").

(** The test both stop-order operations apply to the error message;
    [.lower()] of anything but a string raises. *)
Definition already_executed (msg : pyval) : result bool :=
  match msg with
  | PyStr m =>
      Ret (Py.contains "not a pending order" (Py.lower m)
           || Py.contains "already executed" (Py.lower m))
  | _ => Raise OtherError
  end.

(** [OrderManager.modify_sl_order]. *)
Definition modify_sl_order (cfg : OrderConfig) (c : Client)
  (order_id : pyval) (new_stop_price : float) : bool * list call :=
  if negb (auto_place_orders cfg) || negb (place_sl_order_enabled cfg)
     || negb (Py.truthy order_id)
  then (false, [])
  else if test_mode cfg then (true, [])
  else
    let prices :=
      rounded_trigger ← round_to_tick_size new_stop_price;
      let buffer := rounded_trigger * sl_limit_buffer_percent cfg in
      rounded_limit ← round_to_tick_size (rounded_trigger - buffer);
      _ ← Py.truediv buffer rounded_trigger;
      Ret (rounded_trigger, rounded_limit) in
    match prices with
    | Raise _ => (false, [Logged Error])
    | Ret (rounded_trigger, rounded_limit) =>
        let t := [CallModifyOrder order_id rounded_trigger rounded_limit] in
        match modifyorder c order_id rounded_trigger rounded_limit with
        | Failed => (false, (t ++ [Logged Error])%list)
        | Answered OrNotDict => (false, (t ++ [Logged Error])%list)
        | Answered (OrDict f) =>
            if eq_str (dget f "status") "success" then (true, (t ++ [Logged Info])%list)
            else
              match already_executed (error_message f) with
              | Ret true => (false, (t ++ [Logged Info])%list)
              | Ret false => (false, (t ++ [Logged Error])%list)
              | Raise _ => (false, (t ++ [Logged Error])%list)
              end
        end
    end.

(** [OrderManager.cancel_sl_order]. *)
Definition cancel_sl_order (cfg : OrderConfig) (c : Client)
  (order_id : pyval) : bool * list call :=
  if negb (auto_place_orders cfg) || negb (place_sl_order_enabled cfg)
     || negb (Py.truthy order_id)
  then (false, [])
  else if test_mode cfg then (true, [])
  else
    let t := [CallCancelOrder order_id] in
    match cancelorder c order_id with
    | Failed => (false, (t ++ [Logged Error])%list)
    | Answered OrNotDict => (false, (t ++ [Logged Error])%list)
    | Answered (OrDict f) =>
        if eq_str (dget f "status") "success" then (true, (t ++ [Logged Info])%list)
        else
          match already_executed (error_message f) with
          | Ret true => (true, (t ++ [Logged Info])%list)
          | Ret false => (false, (t ++ [Logged Error])%list)
          | Raise _ => (false, (t ++ [Logged Error])%list)
          end
    end.

End OrderManager.
(** ** Order book and stop-order placement (order_manager.py) *)

(** A row of the order book: a dict, or something else. *)
Inductive ob_row : Type :=
| RowDict (order : gmap string pyval)
| RowOther.

(** The ['data'] entry of the order-book answer: absent, a dict (with
    its ['orders'] entry, a list or not, when it has one), a list of
    rows, or something else. *)
Inductive ob_orders : Type :=
| OrdersList (rows : list ob_row)
| OrdersOther.

Inductive ob_data : Type :=
| ObAbsent
| ObDict (orders : option ob_orders)
| ObList (rows : list ob_row)
| ObOther.

Inductive ob_response : Type :=
| ObNotDict
| ObAnswer (status : pyval) (data : ob_data).

(** The calls of the order-book functions. *)
Inductive ob_call : Type :=
| CallOrderBook
| CallPlaceStop (symbol : string) (qty : Z) (action : string) (trigger limit : float).

Module OrderBook.
Local Open Scope float_scope.

(** The dict returned for simulated orders. *)
Definition simulated (order_id : pyval) : gmap string pyval :=
  <["status" := PyStr "COMPLETE"]>
    (<["order_id" := order_id]>
       (<["filled_quantity" := PyInt 0]>
          {["average_price" := PyFloat 0]})).

(** The loop over the rows: the first dict whose [orderid] or
    [order_id] is the id asked for. *)
Fixpoint find_order (order_id : string) (rows : list ob_row)
  : option (gmap string pyval) :=
  match rows with
  | [] => None
  | RowDict order :: rest =>
      if OrderManager.eq_str (OrderManager.dget order "orderid") order_id
         || OrderManager.eq_str (OrderManager.dget order "order_id") order_id
      then Some order
      else find_order order_id rest
  | RowOther :: rest => find_order order_id rest
  end.

(** The list the loop runs over, or [None] when the ['orders'] entry is
    no list. *)
Definition orders_of (data : ob_data) : option (list ob_row) :=
  match data with
  | ObDict (Some (OrdersList rows)) => Some rows
  | ObDict (Some OrdersOther) => None
  | ObList rows => Some rows
  | _ => Some []
  end.

(** [OrderManager.get_order_status].  Outside test mode the id is asked
    for its prefix, which raises for an id that is no string; the
    handler returns [None]. *)
Definition get_order_status (cfg : OrderConfig) (orderbook : api_answer ob_response)
  (order_id : pyval) : option (gmap string pyval) * list ob_call :=
  if test_mode cfg then (Some (simulated order_id), [])
  else
    match order_id with
    | PyStr id =>
        if String.prefix "TEST_" id || String.prefix "SIM_" id
        then (Some (simulated order_id), [])
        else
          match orderbook with
          | Failed => (None, [CallOrderBook])
          | Answered ObNotDict => (None, [CallOrderBook])
          | Answered (ObAnswer status data) =>
              if OrderManager.eq_str status "success" then
                match orders_of data with
                | Some rows => (find_order id rows, [CallOrderBook])
                | None => (None, [CallOrderBook])
                end
              else (None, [CallOrderBook])
          end
    | _ => (None, [])
    end.

(** [OrderManager.check_order_status]: the first of the four status
    fields that is true, the last one otherwise. *)
Definition check_order_status (cfg : OrderConfig) (orderbook : api_answer ob_response)
  (order_id : pyval) : pyval * list ob_call :=
  let '(order_info, t) := get_order_status cfg orderbook order_id in
  match order_info with
  | Some info =>
      if bool_decide (info = ∅) then (PyNone, t)
      else
        (OrderManager.py_or
           (OrderManager.py_or
              (OrderManager.py_or (OrderManager.dget info "order_status")
                                  (OrderManager.dget info "orderstatus"))
              (OrderManager.dget info "status"))
           (OrderManager.dget info "Status"), t)
  | None => (PyNone, t)
  end.

(** [OrderManager.place_sl_order]; [place_stop] is what
    [client.placeorder] answers to the stop-limit order. *)
Definition place_sl_order (cfg : OrderConfig) (clock_stamp : string)
  (place_stop : string -> Z -> string -> float -> float -> api_answer order_response)
  (symbol : string) (quantity : Z) (stop_price : float) : pyval * list ob_call :=
  if negb (auto_place_orders cfg) || negb (place_sl_order_enabled cfg)
  then (PyNone, [])
  else if test_mode cfg then
    (PyStr ("TEST_SL_" ++ symbol ++ "_" ++ clock_stamp), [])
  else
    let prices :=
      rounded_trigger ← OrderManager.round_to_tick_size stop_price;
      let buffer := rounded_trigger * sl_limit_buffer_percent cfg in
      rounded_limit ← OrderManager.round_to_tick_size (rounded_trigger - buffer);
      _ ← Py.truediv buffer rounded_trigger;
      Ret (rounded_trigger, rounded_limit) in
    match prices with
    | Raise _ => (PyNone, [])
    | Ret (rounded_trigger, rounded_limit) =>
        let t := [CallPlaceStop symbol quantity (exit_action cfg)
                    rounded_trigger rounded_limit] in
        match place_stop symbol quantity (exit_action cfg)
                rounded_trigger rounded_limit with
        | Failed => (PyNone, t)
        | Answered OrNotDict => (PyNone, t)
        | Answered (OrDict f) =>
            if OrderManager.eq_str (OrderManager.dget f "status") "success"
            then (OrderManager.dget f "orderid", t)
            else (PyNone, t)
        end
    end.

End OrderBook.

(** ** The leg engine (strategy.py, class SehwagStrategy)

    What the engine asks of its collaborators is recorded as a trace of
    events; what they answer is an input.  Log lines are left out, except
    where evaluating their arguments raises before a step the engine has
    still to take (a division, an undefined name, a number format
    applied to a value that is no number). *)

Inductive event : Type :=
| PlaceOrder (sym : option string) (qty : Z) (action : string)
| GetFillPrice (order_id : pyval)
| PlaceSL (sym : option string) (qty : Z) (stop : float)
| ModifySL (order_id : pyval) (new_stop : float)
| CancelSL (order_id : pyval)
| CheckOrderStatus (order_id : pyval)
| RecordLegExit (leg : Z) (price : pyval) (r : reason) (pnl pnl_pct : float)
| LogEvent (kind : string)
| LogSlUpdate (leg : Z) (old_sl new_sl : float)
| ExitSummary (r : reason) (price : pyval) (pnl pnl_pct : float).

(** The collaborators of one strategy instance: whether the audit
    store is open ([self.persistence]), and the answers of the order
    manager and of the quote source. *)
Record Env : Type := mkEnv {
  env_persistence : bool;
  env_entry_action : string;
  env_exit_action : string;
  env_place_order : option string -> Z -> string -> pyval;
  env_get_fill_price : pyval -> option float;
  env_place_sl_order : option string -> Z -> float -> pyval;
  env_modify_sl_order : pyval -> float -> bool;
  env_check_order_status : pyval -> result pyval;
  env_get_quote : string -> option (gmap string pyval)
}.

(** Engine code runs on the leg it owns: it may change the leg, adds to
    the trace, and returns or raises; a raise keeps the changes made so
    far. *)
Definition M (A : Type) : Type := LegState -> LegState * list event * result A.

#[global] Instance M_ret : MRet M := fun _ a s => (s, [], Ret a).
#[global] Instance M_bind : MBind M := fun _ _ k m s =>
  match m s with
  | (s1, t1, Ret a) => let '(s2, t2, r) := k a s1 in (s2, (t1 ++ t2)%list, r)
  | (s1, t1, Raise e) => (s1, t1, Raise e)
  end.

Definition get : M LegState := fun s => (s, [], Ret s).
Definition modify (f : LegState -> LegState) : M unit := fun s => (f s, [], Ret tt).
Definition emit (e : event) : M unit := fun s => (s, [e], Ret tt).
Definition raise {A : Type} (e : exn) : M A := fun s => (s, [], Raise e).
Definition lift {A : Type} (r : result A) : M A := fun s => (s, [], r).

(** [try: m except Exception: h]. *)
Definition catch {A : Type} (m : M A) (h : exn -> M A) : M A := fun s =>
  match m s with
  | (s1, t1, Ret a) => (s1, t1, Ret a)
  | (s1, t1, Raise e) => let '(s2, t2, r) := h e s1 in (s2, (t1 ++ t2)%list, r)
  end.

Definition leg_of {A : Type} (x : LegState * list event * result A) : LegState :=
  fst (fst x).
Definition trace_of {A : Type} (x : LegState * list event * result A) : list event :=
  snd (fst x).
Definition outcome_of {A : Type} (x : LegState * list event * result A) : result A :=
  snd x.

Module Strategy.
Local Open Scope float_scope.

(** The lines of the exit summary that format a number, in the order
    they are logged: the entry price, the exit price, the price change
    [exit_price - entry_price], the initial stop
    [entry_price * (1 - initial_sl_pct / 100)], the final stop and the
    highest price.  The text goes to the log; what is kept is whether
    evaluating a line raises. *)
Definition exit_summary (leg : LegState) (exit_price : pyval) : result unit :=
  Py.format_f (entry_price leg);;
  Py.format_f exit_price;;
  _ ← (a ← Py.number exit_price; b ← Py.number (entry_price leg); Ret (a - b));
  _ ← (entry ← Py.number (entry_price leg); Ret (entry * (1 - initial_sl_pct leg / 100)));
  Py.format_opt (current_sl leg);;
  Py.format_opt (highest_price leg).
#[global] Arguments exit_summary : simpl never.

Section Engine.
Variable float_of_str : string -> option float.
Variable env : Env.

(** [SehwagStrategy._exit_leg_position].  The first two lines run under
    the state lock; the cancel and the closing order are best effort and
    their answers are only logged.  The exit price is what the caller
    has: a float from the price handlers, and from the exit-time check
    of the monitor whatever the last poll left, [None] when no source
    gave a price.  A summary line that raises ends the routine in its
    handler, before the audit record is written. *)
Definition exit_leg_position (exit_price : pyval) (r : reason) : M unit :=
  catch
    (leg ← get;
     if exiting leg || negb (is_active leg) then mret tt
     else
       modify (set_exiting true);;
       modify (set_is_active false);;
       let sl_id := sl_order_id leg in
       let pt_id := profit_target_order_id leg in
       p ← lift (Leg.calculate_pnl float_of_str leg exit_price);
       (if Py.truthy sl_id
        then emit (CancelSL sl_id);; modify (set_sl_order_id PyNone)
        else mret tt);;
       (if Py.truthy pt_id
        then modify (set_profit_target_order_id PyNone)
        else mret tt);;
       emit (PlaceOrder (symbol leg) (quantity leg) (env_exit_action env));;
       modify (set_exit_price exit_price);;
       modify (set_exit_reason (Some r));;
       leg1 ← get;
       lift (exit_summary leg1 exit_price);;
       emit (ExitSummary r exit_price (fst p) (snd p));;
       if env_persistence env
       then emit (RecordLegExit (leg_num leg) exit_price r (fst p) (snd p));;
            emit (LogEvent "POSITION_CLOSED")
       else mret tt)
    (fun _ => mret tt).

(** [SehwagStrategy._enter_leg_position]. *)
Definition enter_leg_position : M bool :=
  catch
    (leg ← get;
     match symbol leg with
     | None => mret false
     | Some sym =>
         if String.eqb sym "" then mret false
         else
           match env_get_quote env sym with
           | None => mret false
           | Some quote =>
               match quote !! "ltp" with
               | None => mret false
               | Some v =>
                   ltp_price ← lift (Py.to_float float_of_str v);
                   modify (set_entry_price (PyFloat ltp_price));;
                   emit (PlaceOrder (Some sym) (quantity leg) (env_entry_action env));;
                   let order_id :=
                     env_place_order env (Some sym) (quantity leg) (env_entry_action env) in
                   if Py.truthy order_id then
                     modify (set_entry_order_id order_id);;
                     emit (GetFillPrice order_id);;
                     (match env_get_fill_price env order_id with
                      | Some actual =>
                          if Py.truthy_float actual && Py.gt actual 0 then
                            _ ← lift (Py.truediv (actual - ltp_price) ltp_price);
                            modify (set_entry_price (PyFloat actual))
                          else mret tt
                      | None => mret tt
                      end);;
                     leg1 ← get;
                     entry ← lift (Py.number (entry_price leg1));
                     let stop := entry * (1 - initial_sl_pct leg1 / 100) in
                     modify (set_current_sl (Some stop));;
                     modify (set_is_active true);;
                     modify (set_highest_price (Some entry));;
                     emit (PlaceSL (Some sym) (quantity leg) stop);;
                     let sl_id := env_place_sl_order env (Some sym) (quantity leg) stop in
                     (if Py.truthy sl_id then
                        modify (set_sl_order_id sl_id);;
                        if env_persistence env then emit (LogEvent "SL_ORDER_PLACED")
                        else mret tt
                      else mret tt);;
                     mret true
                   else mret false
               end
           end
     end)
    (fun _ => mret false).

(** The test for a value that switches a parameter off: [None] or one of
    the strings YAML leaves for it. *)
Definition is_null (v : pyval) : bool :=
  match v with
  | PyNone => true
  | PyStr s =>
      let l := Py.lower s in
      String.eqb l "null" || String.eqb l "none" || String.eqb l ""
  | _ => false
  end.

(** [get_param(key, default, allow_strategy_fallback)]. *)
Definition get_param (leg : LegState) (key : string) (dflt : pyval)
  (allow_strategy_fallback : bool) : pyval :=
  match config leg !! key with
  | Some value => if is_null value then PyNone else value
  | None =>
      match (if allow_strategy_fallback then strategy_defaults leg !! key else None) with
      | Some value => if is_null value then PyNone else value
      | None => dflt
      end
  end.

(** [safe_float(value)]. *)
Definition safe_float (v : pyval) : option float :=
  match v with
  | PyNone => None
  | PyBool b => Some (if b then 1 else 0)
  | PyInt z => Some (Py.float_of_int z)
  | PyFloat f => Some f
  | PyStr s => if is_null (PyStr s) then None else float_of_str s
  end.

(** Part 1 of [_manage_position_unified]: the trailing stop.  The log
    line after a successful modification reads [sl_order_id], which is
    not defined in this function. *)
Definition trail_stop_loss (pnl_pct : float) : M unit :=
  leg ← get;
  let sl_trail_trigger := safe_float (get_param leg "sl_trail_trigger_pct" PyNone true) in
  let sl_trail_move := safe_float (get_param leg "sl_trail_move_pct" PyNone true) in
  match sl_trail_trigger, sl_trail_move with
  | Some trigger, Some move =>
      if Py.truthy_float trigger && Py.truthy_float move && Py.gt pnl_pct 0 then
        let profit_increase := pnl_pct - last_sl_trail_level leg in
        if Py.ge profit_increase trigger then
          q ← lift (Py.truediv profit_increase trigger);
          intervals_crossed ← lift (Py.int_of_float q);
          let sl_increase_pct := move * Py.float_of_int intervals_crossed in
          match current_sl leg with
          | None => raise TypeError
          | Some old_sl =>
              let new_sl_price := old_sl * (1 + sl_increase_pct / 100) in
              if Py.gt new_sl_price old_sl then
                modify (set_current_sl (Some new_sl_price));;
                modify (set_last_sl_trail_level pnl_pct);;
                (if Py.truthy (sl_order_id leg) then
                   emit (ModifySL (sl_order_id leg) new_sl_price);;
                   if env_modify_sl_order env (sl_order_id leg) new_sl_price
                   then raise NameError
                   else mret tt
                 else mret tt);;
                if env_persistence env
                then emit (LogSlUpdate (leg_num leg) old_sl new_sl_price)
                else mret tt
              else mret tt
          end
        else mret tt
      else mret tt
  | _, _ => mret tt
  end.

(** Stage 3 of the lock-then-trail mode: raise the exit target. *)
Definition trail_exit_target (pnl_pct trail_trigger_pct trail_move_pct target : float)
  : M unit :=
  leg ← get;
  let profit_increase := pnl_pct - last_trail_level leg in
  if Py.ge profit_increase trail_trigger_pct then
    q ← lift (Py.truediv profit_increase trail_trigger_pct);
    intervals_crossed ← lift (Py.int_of_float q);
    let new_target := target + trail_move_pct * Py.float_of_int intervals_crossed in
    let max_exit_target := pnl_pct - 0.5 in
    let new_target := if Py.gt new_target max_exit_target then max_exit_target
                      else new_target in
    modify (set_profit_exit_target (Some new_target));;
    modify (set_last_trail_level pnl_pct);;
    (if Py.truthy (sl_order_id leg) then
       entry ← lift (Py.number (entry_price leg));
       let new_sl_price := entry * (1 + new_target / 100) in
       modify (set_current_sl (Some new_sl_price));;
       emit (ModifySL (sl_order_id leg) new_sl_price)
     else mret tt);;
    if env_persistence env then emit (LogEvent "PROFIT_EXIT_TRAILED") else mret tt
  else mret tt.

(** Mode 2 of [_manage_position_unified]: lock once, then trail. *)
Definition lock_then_trail (current_price pnl_pct : float)
  (first_lock_pct trail_trigger_pct trail_move_pct : float) : M unit :=
  leg0 ← get;
  let lock_trigger_pct :=
    safe_float (get_param leg0 "lock_trigger_pct" (PyFloat first_lock_pct) true) in
  (match profit_exit_target leg0 with
   | None =>
       modify (set_profit_exit_target None);;
       modify (set_last_trail_level 0);;
       modify (set_first_lock_achieved false)
   | Some _ => mret tt
   end);;
  (* stage 1: the lock is triggered *)
  leg1 ← get;
  triggered ← (if first_lock_achieved leg1 then mret false
               else match lock_trigger_pct with
                    | Some t => mret (Py.ge pnl_pct t)
                    | None => raise TypeError
                    end);
  (if triggered : bool then
     modify (set_first_lock_achieved true);;
     modify (set_profit_exit_target (Some first_lock_pct));;
     modify (set_last_trail_level pnl_pct);;
     entry ← lift (Py.number (entry_price leg1));
     let profit_lock_price := entry * (1 + first_lock_pct / 100) in
     (if Py.truthy (sl_order_id leg1) then
        modify (set_current_sl (Some profit_lock_price));;
        emit (ModifySL (sl_order_id leg1) profit_lock_price);;
        if env_modify_sl_order env (sl_order_id leg1) profit_lock_price then
          match current_sl leg1 with
          | Some old_sl => _ ← lift (Py.truediv (old_sl - entry) entry); mret tt
          | None => mret tt
          end
        else mret tt
      else mret tt);;
     if env_persistence env then emit (LogEvent "PROFIT_LOCK_TRIGGERED") else mret tt
   else mret tt);;
  (* stage 2: profit fell back to the target; stage 3: trail the target *)
  leg2 ← get;
  match (if first_lock_achieved leg2 then profit_exit_target leg2 else None) with
  | Some target =>
      if PrimFloat.leb pnl_pct target
      then exit_leg_position (PyFloat current_price) (TRAIL_EXIT_PCT target)
      else trail_exit_target pnl_pct trail_trigger_pct trail_move_pct target
  | None => mret tt
  end.

(** Mode 3: progressive escalating lock. *)
Definition progressive_lock (current_price pnl_pct : float)
  (lock_profit_pct profit_lock_step profit_step_threshold : float) : M unit :=
  leg0 ← get;
  (match profit_level_for_lock_increase leg0 with
   | None => modify (set_profit_level_for_lock_increase
                       (Some (lock_profit_pct + profit_step_threshold)))
   | Some _ => mret tt
   end);;
  leg1 ← get;
  let level := default 0 (profit_level_for_lock_increase leg1) in
  lock ← (if Py.ge pnl_pct level then
            modify (set_profit_level_for_lock_increase
                      (Some (level + profit_step_threshold)));;
            modify (set_config (<["lock_profit_pct" := PyFloat (lock_profit_pct + profit_lock_step)]>
                                  (config leg1)));;
            mret (lock_profit_pct + profit_lock_step)
          else mret lock_profit_pct);
  if Py.ge pnl_pct lock then exit_leg_position (PyFloat current_price) PROFIT_LOCK
  else mret tt.

(** Part 3 of [_manage_position_unified]: the profit mode is chosen by
    the parameters the leg itself sets. *)
Definition profit_management (current_price pnl_pct : float) : M unit :=
  leg ← get;
  let own key := safe_float (get_param leg key PyNone false) in
  match own "first_lock_pct", own "trail_trigger_pct", own "trail_move_pct" with
  | Some first_lock_pct, Some trail_trigger_pct, Some trail_move_pct =>
      lock_then_trail current_price pnl_pct first_lock_pct trail_trigger_pct trail_move_pct
  | _, _, _ =>
      match own "profit_lock_step", own "profit_step_threshold", own "lock_profit_pct" with
      | Some step, Some threshold, Some lock_profit_pct =>
          progressive_lock current_price pnl_pct lock_profit_pct step threshold
      | _, _, _ =>
          match own "lock_profit_pct" with
          | Some lock_profit_pct =>
              if Py.ge pnl_pct lock_profit_pct
              then exit_leg_position (PyFloat current_price) PROFIT_LOCK
              else mret tt
          | None => mret tt
          end
      end
  end.

(** [SehwagStrategy._manage_position_unified]. *)
Definition manage_position_unified (current_price pnl_pct : float) : M unit :=
  trail_stop_loss pnl_pct;;
  leg ← get;
  match safe_float (get_param leg "auto_close_profit_pct" PyNone false) with
  | Some auto_close_pct =>
      if Py.ge pnl_pct auto_close_pct
      then exit_leg_position (PyFloat current_price) (AUTO_CLOSE_PCT auto_close_pct)
      else profit_management current_price pnl_pct
  | None => profit_management current_price pnl_pct
  end.

(** The status strings that mean the broker has filled the stop order. *)
Definition is_filled_status (status : pyval) : result bool :=
  if Py.truthy status then
    match status with
    | PyStr s =>
        let l := Py.lower s in
        Ret (String.eqb l "complete" || String.eqb l "filled" || String.eqb l "executed")
    | _ => Raise OtherError
    end
  else Ret false.

(** The stop-breach branch of [_handle_price_update]: when the broker
    reports the stop order filled, the leg is closed without a second
    sell order; otherwise the leg is exited by hand. *)
Definition stop_breached (current_price : float) : M unit :=
  leg ← get;
  filled ← (if Py.truthy (sl_order_id leg) then
              emit (CheckOrderStatus (sl_order_id leg));;
              match status ← env_check_order_status env (sl_order_id leg);
                    is_filled_status status with
              | Ret b => mret b
              | Raise _ => mret false
              end
            else mret false);
  if filled : bool then
    modify (set_exiting true);;
    modify (set_is_active false);;
    modify (set_sl_order_id PyNone);;
    modify (set_exit_price (PyFloat current_price));;
    modify (set_exit_reason (Some SL_EXECUTED_ON_BROKER));;
    if env_persistence env then
      p ← lift (Leg.calculate_pnl float_of_str leg (PyFloat current_price));
      emit (RecordLegExit (leg_num leg) (PyFloat current_price) SL_EXECUTED_ON_BROKER
              (fst p) (snd p))
    else mret tt
  else exit_leg_position (PyFloat current_price) SL_BREACH.

(** [SehwagStrategy._handle_price_update]. *)
Definition handle_price_update (current_price : float) : M unit :=
  leg ← get;
  if negb (is_active leg) || negb (Py.truthy_float current_price) then mret tt
  else if exiting leg then mret tt
  else
    match highest_price leg, current_sl leg with
    | Some highest, Some stop =>
        (if Py.gt current_price highest
         then modify (set_highest_price (Some current_price))
         else mret tt);;
        p ← lift (Leg.calculate_pnl float_of_str leg (PyFloat current_price));
        if PrimFloat.leb current_price stop
        then stop_breached current_price
        else manage_position_unified current_price (snd p)
    | _, _ => mret tt
    end.

End Engine.
End Strategy.
(** ** Strike selection (strategy.py, _calculate_strike_from_type) *)

Module PyStr.

(** ASCII part of [str.upper()]. *)
Definition upper_ascii (c : ascii) : ascii :=
  let n := nat_of_ascii c in
  if (Nat.leb 97 n && Nat.leb n 122)%bool then ascii_of_nat (n - 32) else c.

Fixpoint upper (s : string) : string :=
  match s with
  | EmptyString => EmptyString
  | String c r => String (upper_ascii c) (upper r)
  end.

(** [s.replace(old, '')] for a non-empty [old], read from the left;
    [skip] counts the characters of a found occurrence still to drop. *)
Fixpoint remove_from (old s : string) (skip : nat) : string :=
  match s with
  | EmptyString => EmptyString
  | String c r =>
      match skip with
      | S k => remove_from old r k
      | O =>
          if String.prefix old s then remove_from old r (String.length old - 1)
          else String c (remove_from old r 0)
      end
  end.

Definition remove (old s : string) : string := remove_from old s 0.

End PyStr.

Module Entry.
Local Open Scope float_scope.

Section Strike.
(** Python's [int] on a string. *)
Variable int_of_str : string -> option Z.

(** [round(spot / strike_diff) * strike_diff]; the strike difference is
    an integer of the configuration. *)
Definition nearest_strike (spot : float) (strike_diff : Z) : result Z :=
  q ← Py.truediv spot (Py.float_of_int strike_diff);
  n ← OrderManager.py_round q;
  Ret (n * strike_diff)%Z.

(** [SehwagStrategy._calculate_strike_from_type]; [spot] is what the
    fetch of the underlying price returned.  RuntimeError is raised as
    [OtherError]. *)
Definition calculate_strike_from_type (spot : option float) (strike_diff : Z)
  (direction strike_type : string) : result Z :=
  match spot with
  | None => Raise OtherError
  | Some spot =>
      if negb (Py.truthy_float spot) then Raise OtherError
      else
        let strike_type_upper := PyStr.upper strike_type in
        if String.eqb strike_type_upper "ATM" then nearest_strike spot strike_diff
        else if String.prefix "ITM" strike_type_upper then
          level ← OrderManager.to_int int_of_str
                    (PyStr (PyStr.remove "ITM" strike_type_upper));
          atm ← nearest_strike spot strike_diff;
          Ret (if String.eqb direction "CE"
               then atm - level * strike_diff
               else atm + level * strike_diff)%Z
        else if String.prefix "OTM" strike_type_upper then
          level ← OrderManager.to_int int_of_str
                    (PyStr (PyStr.remove "OTM" strike_type_upper));
          atm ← nearest_strike spot strike_diff;
          Ret (if String.eqb direction "CE"
               then atm + level * strike_diff
               else atm - level * strike_diff)%Z
        else Raise ValueError
  end.

End Strike.

End Entry.

(** ** Position manager (position_manager.py) *)

Definition set_lp_current_sl (v : float) (lp : LegPosition) : LegPosition :=
  {| lp_leg_id := lp_leg_id lp;
     lp_symbol := lp_symbol lp;
     lp_entry_price := lp_entry_price lp;
     lp_quantity := lp_quantity lp;
     lp_current_sl := v;
     lp_lock_profit_pct := lp_lock_profit_pct lp;
     lp_profit_level_for_lock_increase := lp_profit_level_for_lock_increase lp;
     lp_is_active := lp_is_active lp;
     lp_exit_price := lp_exit_price lp;
     lp_exit_time := lp_exit_time lp;
     lp_pnl := lp_pnl lp;
     lp_pnl_pct := lp_pnl_pct lp |}.

Definition set_lp_lock_profit_pct (v : float) (lp : LegPosition) : LegPosition :=
  {| lp_leg_id := lp_leg_id lp;
     lp_symbol := lp_symbol lp;
     lp_entry_price := lp_entry_price lp;
     lp_quantity := lp_quantity lp;
     lp_current_sl := lp_current_sl lp;
     lp_lock_profit_pct := v;
     lp_profit_level_for_lock_increase := lp_profit_level_for_lock_increase lp;
     lp_is_active := lp_is_active lp;
     lp_exit_price := lp_exit_price lp;
     lp_exit_time := lp_exit_time lp;
     lp_pnl := lp_pnl lp;
     lp_pnl_pct := lp_pnl_pct lp |}.

Definition set_lp_profit_level_for_lock_increase (v : float) (lp : LegPosition) : LegPosition :=
  {| lp_leg_id := lp_leg_id lp;
     lp_symbol := lp_symbol lp;
     lp_entry_price := lp_entry_price lp;
     lp_quantity := lp_quantity lp;
     lp_current_sl := lp_current_sl lp;
     lp_lock_profit_pct := lp_lock_profit_pct lp;
     lp_profit_level_for_lock_increase := v;
     lp_is_active := lp_is_active lp;
     lp_exit_price := lp_exit_price lp;
     lp_exit_time := lp_exit_time lp;
     lp_pnl := lp_pnl lp;
     lp_pnl_pct := lp_pnl_pct lp |}.

Definition set_lp_is_active (v : bool) (lp : LegPosition) : LegPosition :=
  {| lp_leg_id := lp_leg_id lp;
     lp_symbol := lp_symbol lp;
     lp_entry_price := lp_entry_price lp;
     lp_quantity := lp_quantity lp;
     lp_current_sl := lp_current_sl lp;
     lp_lock_profit_pct := lp_lock_profit_pct lp;
     lp_profit_level_for_lock_increase := lp_profit_level_for_lock_increase lp;
     lp_is_active := v;
     lp_exit_price := lp_exit_price lp;
     lp_exit_time := lp_exit_time lp;
     lp_pnl := lp_pnl lp;
     lp_pnl_pct := lp_pnl_pct lp |}.

Definition set_lp_exit_price (v : option float) (lp : LegPosition) : LegPosition :=
  {| lp_leg_id := lp_leg_id lp;
     lp_symbol := lp_symbol lp;
     lp_entry_price := lp_entry_price lp;
     lp_quantity := lp_quantity lp;
     lp_current_sl := lp_current_sl lp;
     lp_lock_profit_pct := lp_lock_profit_pct lp;
     lp_profit_level_for_lock_increase := lp_profit_level_for_lock_increase lp;
     lp_is_active := lp_is_active lp;
     lp_exit_price := v;
     lp_exit_time := lp_exit_time lp;
     lp_pnl := lp_pnl lp;
     lp_pnl_pct := lp_pnl_pct lp |}.

Definition set_lp_exit_time (v : option string) (lp : LegPosition) : LegPosition :=
  {| lp_leg_id := lp_leg_id lp;
     lp_symbol := lp_symbol lp;
     lp_entry_price := lp_entry_price lp;
     lp_quantity := lp_quantity lp;
     lp_current_sl := lp_current_sl lp;
     lp_lock_profit_pct := lp_lock_profit_pct lp;
     lp_profit_level_for_lock_increase := lp_profit_level_for_lock_increase lp;
     lp_is_active := lp_is_active lp;
     lp_exit_price := lp_exit_price lp;
     lp_exit_time := v;
     lp_pnl := lp_pnl lp;
     lp_pnl_pct := lp_pnl_pct lp |}.

Definition set_lp_pnl (v : float) (lp : LegPosition) : LegPosition :=
  {| lp_leg_id := lp_leg_id lp;
     lp_symbol := lp_symbol lp;
     lp_entry_price := lp_entry_price lp;
     lp_quantity := lp_quantity lp;
     lp_current_sl := lp_current_sl lp;
     lp_lock_profit_pct := lp_lock_profit_pct lp;
     lp_profit_level_for_lock_increase := lp_profit_level_for_lock_increase lp;
     lp_is_active := lp_is_active lp;
     lp_exit_price := lp_exit_price lp;
     lp_exit_time := lp_exit_time lp;
     lp_pnl := v;
     lp_pnl_pct := lp_pnl_pct lp |}.

Definition set_lp_pnl_pct (v : float) (lp : LegPosition) : LegPosition :=
  {| lp_leg_id := lp_leg_id lp;
     lp_symbol := lp_symbol lp;
     lp_entry_price := lp_entry_price lp;
     lp_quantity := lp_quantity lp;
     lp_current_sl := lp_current_sl lp;
     lp_lock_profit_pct := lp_lock_profit_pct lp;
     lp_profit_level_for_lock_increase := lp_profit_level_for_lock_increase lp;
     lp_is_active := lp_is_active lp;
     lp_exit_price := lp_exit_price lp;
     lp_exit_time := lp_exit_time lp;
     lp_pnl := lp_pnl lp;
     lp_pnl_pct := v |}.

(** The order manager as the position manager sees it, the configured
    sides, and the clock string written as exit time. *)
Record PmEnv : Type := mkPmEnv {
  pm_entry_action : string;
  pm_exit_action : string;
  pm_place_order : string -> Z -> string -> pyval;
  pm_now : string
}.

Inductive pm_event : Type :=
| PmPlaceOrder (sym : string) (qty : Z) (action : string).

Module PositionManager.
Local Open Scope float_scope.

Section Manager.
Variable env : PmEnv.

(** [PositionManager.exit_position]: both answers of the order manager
    lead to the same record of the exit. *)
Definition exit_position (lp : LegPosition) (exit_price : float)
  : LegPosition * list pm_event * result unit :=
  if negb (lp_is_active lp) then (lp, [], Ret tt)
  else
    let ev := PmPlaceOrder (lp_symbol lp) (lp_quantity lp) (pm_exit_action env) in
    let lp1 := set_lp_exit_time (Some (pm_now env))
                 (set_lp_exit_price (Some exit_price)
                    (set_lp_is_active false lp)) in
    match Position.calculate_pnl lp1 exit_price (pm_entry_action env) with
    | Ret (pnl, pnl_pct) => (set_lp_pnl_pct pnl_pct (set_lp_pnl pnl lp1), [ev], Ret tt)
    | Raise e => (lp1, [ev], Raise e)
    end.

(** [PositionManager.manage_position] on the leg's position; the
    configuration values are used as they are. *)
Definition manage_position (leg_config : gmap string pyval)
  (lp : LegPosition) (current_price : float)
  : LegPosition * list pm_event * result unit :=
  if negb (lp_is_active lp) then (lp, [], Ret tt)
  else
    match Position.calculate_pnl lp current_price (pm_entry_action env) with
    | Raise e => (lp, [], Raise e)
    | Ret (_, pnl_pct) =>
        (* 1. trailing stop *)
        let sl_trail_pct := OrderManager.dget leg_config "sl_trail_pct" in
        let trailed : result LegPosition :=
          if Py.truthy sl_trail_pct && Py.gt pnl_pct 0 then
            pct ← Py.number sl_trail_pct;
            let new_sl := current_price * (1 - pct / 100) in
            Ret (if Py.gt new_sl (lp_current_sl lp)
                 then set_lp_current_sl new_sl lp else lp)
          else Ret lp in
        match trailed with
        | Raise e => (lp, [], Raise e)
        | Ret lp1 =>
            (* 2. stop breach *)
            if PrimFloat.leb current_price (lp_current_sl lp1)
            then exit_position lp1 current_price
            else
              (* 3. escalating lock *)
              let step := OrderManager.dget leg_config "profit_lock_step" in
              let threshold := OrderManager.dget leg_config "profit_step_threshold" in
              let escalated : result LegPosition :=
                if Py.truthy step && Py.truthy threshold then
                  if Py.ge pnl_pct (lp_lock_profit_pct lp1)
                     && Py.ge pnl_pct (lp_profit_level_for_lock_increase lp1) then
                    s ← Py.number step;
                    t ← Py.number threshold;
                    Ret (set_lp_profit_level_for_lock_increase
                           (lp_profit_level_for_lock_increase lp1 + t)
                           (set_lp_lock_profit_pct (lp_lock_profit_pct lp1 + s) lp1))
                  else Ret lp1
                else Ret lp1 in
              match escalated with
              | Raise e => (lp1, [], Raise e)
              | Ret lp2 =>
                  (* 4. auto close, 5. profit lock *)
                  let auto_close_pct := OrderManager.dget leg_config "auto_close_profit_pct" in
                  let closes : result bool :=
                    if Py.truthy auto_close_pct then
                      a ← Py.number auto_close_pct; Ret (Py.ge pnl_pct a)
                    else Ret false in
                  match closes with
                  | Raise e => (lp2, [], Raise e)
                  | Ret true => exit_position lp2 current_price
                  | Ret false =>
                      if Py.ge pnl_pct (lp_lock_profit_pct lp2)
                      then exit_position lp2 current_price
                      else (lp2, [], Ret tt)
                  end
              end
        end
    end.

End Manager.
End PositionManager.
(** ** Strategy state (models.py, class StrategyState)

    The two dicts keyed by leg number keep their insertion order, which
    is the order the totals are summed in. *)

Module PyDict.

(** [d.get(k)]. *)
Fixpoint get {V : Type} (d : list (Z * V)) (k : Z) : option V :=
  match d with
  | [] => None
  | (k', v) :: rest => if (k =? k')%Z then Some v else get rest k
  end.

(** [d[k] = v]: an existing key keeps its place, a new one goes last. *)
Fixpoint set {V : Type} (d : list (Z * V)) (k : Z) (v : V) : list (Z * V) :=
  match d with
  | [] => [(k, v)]
  | (k', v') :: rest =>
      if (k =? k')%Z then (k', v) :: rest else (k', v') :: set rest k v
  end.

End PyDict.

Record StrategyState : Type := mkStrategyState {
  entry_signal_active : bool;
  entry_confirmed : bool;
  entry_direction : option string;
  state_reference_price : float;
  reference_time : option string;
  legs_entered : list (Z * bool);
  leg_positions : list (Z * option LegPosition);
  leg_configs : list (Z * gmap string pyval);
  total_pnl : float
}.

Module State.
Local Open Scope float_scope.

(** [StrategyState.get_position]. *)
Definition get_position (s : StrategyState) (leg_num : Z) : option LegPosition :=
  match PyDict.get (leg_positions s) leg_num with
  | Some p => p
  | None => None
  end.

(** [StrategyState.set_position]. *)
Definition set_position (s : StrategyState) (leg_num : Z) (position : LegPosition)
  : StrategyState :=
  {| entry_signal_active := entry_signal_active s;
     entry_confirmed := entry_confirmed s;
     entry_direction := entry_direction s;
     state_reference_price := state_reference_price s;
     reference_time := reference_time s;
     legs_entered := PyDict.set (legs_entered s) leg_num true;
     leg_positions := PyDict.set (leg_positions s) leg_num (Some position);
     leg_configs := leg_configs s;
     total_pnl := total_pnl s |}.

(** [StrategyState.is_leg_entered]. *)
Definition is_leg_entered (s : StrategyState) (leg_num : Z) : bool :=
  match PyDict.get (legs_entered s) leg_num with
  | Some b => b
  | None => false
  end.

(** [StrategyState.get_all_active_positions]. *)
Fixpoint active_items (d : list (Z * option LegPosition)) : list (Z * LegPosition) :=
  match d with
  | [] => []
  | (num, Some pos) :: rest =>
      if lp_is_active pos then (num, pos) :: active_items rest else active_items rest
  | (_, None) :: rest => active_items rest
  end.

Definition get_all_active_positions (s : StrategyState) : list (Z * LegPosition) :=
  active_items (leg_positions s).

(** [StrategyState.get_total_pnl]: the sums over the closed positions,
    taken in the order of the dict. *)
Fixpoint sum_closed (d : list (Z * option LegPosition)) (total_pnl total_pnl_pct : float)
  : float * float :=
  match d with
  | [] => (total_pnl, total_pnl_pct)
  | (_, Some pos) :: rest =>
      if negb (lp_is_active pos)
      then sum_closed rest (total_pnl + lp_pnl pos) (total_pnl_pct + lp_pnl_pct pos)
      else sum_closed rest total_pnl total_pnl_pct
  | (_, None) :: rest => sum_closed rest total_pnl total_pnl_pct
  end.

Definition get_total_pnl (s : StrategyState) : float * float :=
  sum_closed (leg_positions s) 0 0.

End State.

(** ** Entry confirmation (strategy.py, _wait_for_trade_confirmation)

    The polling loop is run over the observations it makes: one tick per
    iteration, with the price each source delivers and whether the
    timeout has elapsed when the iteration checks it. *)

Record WtConfig : Type := mkWtConfig {
  threshold_pct : float;
  reset_enabled : bool;
  reset_drop_pct : option float
}.

Record WtState : Type := mkWtState {
  reference_price : float;
  target_price : float;
  highest_since_reference : float;
  reset_count : nat
}.

Record Tick : Type := mkTick {
  (* price from the websocket cache; [None] without a client or a price *)
  ws_price : option float;
  (* answer of the REST quote, asked only when the websocket gave nothing *)
  rest_quote : option (gmap string pyval);
  (* (time.time() - start_time) > timeout at the end of the iteration *)
  timed_out : bool
}.

Inductive wt_verdict : Type :=
| Reached
| TimedOut
| KeepWaiting.

(** How a run over finitely many ticks ends: the function has returned
    True, returned False, or is still in its loop. *)
Inductive wt_outcome : Type :=
| Confirmed (st : WtState)
| Rejected (st : option WtState)
| StillWaiting (st : WtState).

Module WaitTrade.
Local Open Scope float_scope.

Section Confirmation.
Variable float_of_str : string -> option float.
Variable cfg : WtConfig.

(** The state after the initial quote, or [None] when there is no price. *)
Definition start (initial_quote : option (gmap string pyval)) : result (option WtState) :=
  match initial_quote with
  | None => Ret None
  | Some q =>
      match q !! "ltp" with
      | None => Ret None
      | Some v =>
          reference ← Py.to_float float_of_str v;
          Ret (Some {| reference_price := reference;
                       target_price := reference * (1 + threshold_pct cfg / 100);
                       highest_since_reference := reference;
                       reset_count := 0 |})
      end
  end.

(** The price an iteration works with: websocket first, REST otherwise. *)
Definition poll_price (t : Tick) : result (option float) :=
  if Py.truthy_opt (ws_price t) then Ret (ws_price t)
  else
    match rest_quote t with
    | Some q =>
        match q !! "ltp" with
        | Some v => p ← Py.to_float float_of_str v; Ret (Some p)
        | None => Ret (ws_price t)
        end
    | None => Ret (ws_price t)
    end.

(** What one iteration does with a price that is there. *)
Definition observe (st : WtState) (current_price : float) : result (WtState * bool) :=
  let highest := if Py.gt current_price (highest_since_reference st)
                 then current_price else highest_since_reference st in
  _ ← Py.truediv (current_price - reference_price st) (reference_price st);
  if Py.ge current_price (target_price st) then
    Ret ({| reference_price := reference_price st;
            target_price := target_price st;
            highest_since_reference := highest;
            reset_count := reset_count st |}, true)
  else
    match (if reset_enabled cfg then reset_drop_pct cfg else None) with
    | Some drop_pct =>
        if Py.truthy_float drop_pct then
          q ← Py.truediv (highest - current_price) highest;
          let drop_from_peak := q * 100 in
          if Py.ge drop_from_peak drop_pct then
            Ret ({| reference_price := current_price;
                    target_price := current_price * (1 + threshold_pct cfg / 100);
                    highest_since_reference := current_price;
                    reset_count := S (reset_count st) |}, false)
          else
            Ret ({| reference_price := reference_price st;
                    target_price := target_price st;
                    highest_since_reference := highest;
                    reset_count := reset_count st |}, false)
        else
          Ret ({| reference_price := reference_price st;
                  target_price := target_price st;
                  highest_since_reference := highest;
                  reset_count := reset_count st |}, false)
    | None =>
        Ret ({| reference_price := reference_price st;
                target_price := target_price st;
                highest_since_reference := highest;
                reset_count := reset_count st |}, false)
    end.

(** One iteration of the loop. *)
Definition step (st : WtState) (t : Tick) : result (WtState * wt_verdict) :=
  price ← poll_price t;
  r ← (match price with
       | Some p => if Py.truthy_float p then observe st p else Ret (st, false)
       | None => Ret (st, false)
       end);
  if snd r : bool then Ret (fst r, Reached)
  else if timed_out t then Ret (fst r, TimedOut)
  else Ret (fst r, KeepWaiting).

Fixpoint run (st : WtState) (ticks : list Tick) : result wt_outcome :=
  match ticks with
  | [] => Ret (StillWaiting st)
  | t :: rest =>
      r ← step st t;
      match snd r with
      | Reached => Ret (Confirmed (fst r))
      | TimedOut => Ret (Rejected (Some (fst r)))
      | KeepWaiting => run (fst r) rest
      end
  end.

(** [_wait_for_trade_confirmation] over the ticks of its loop. *)
Definition wait_for_trade_confirmation
  (initial_quote : option (gmap string pyval)) (ticks : list Tick) : result wt_outcome :=
  st0 ← start initial_quote;
  match st0 with
  | None => Ret (Rejected None)
  | Some st => run st ticks
  end.

End Confirmation.
End WaitTrade.
(** ** Quote source (market_data.py)

    The REST client is an input: the answer it gives to the n-th call of
    one fetch.  The fetch returns its value together with the pauses it
    slept and the number of calls it made. *)

(** The ['data'] entry of a quote answer. *)
Inductive quote_data : Type :=
| DataAbsent
| DataDict (d : gmap string pyval)
| DataList (l : list (gmap string pyval))
| DataOther.

(** What [client.quotes] does: raise (a KeyError or something else), or
    answer with a dict (its scalar entries and its ['data']) or with a
    value that is no dict. *)
Inductive quote_response : Type :=
| QRaiseKey
| QRaise
| QNotDict
| QDict (fields : gmap string pyval) (data : quote_data).

(** One pass through the retry loop either returns or sleeps and goes on. *)
Inductive turn (A : Type) : Type :=
| Return (v : A)
| Continue (pause : float).
Arguments Return {A} v.
Arguments Continue {A} pause.

Record fetch (A : Type) : Type := mkFetch {
  fetched : A;
  pauses : list float;
  calls : nat
}.
Arguments mkFetch {A} fetched pauses calls.
Arguments fetched {A} f.
Arguments pauses {A} f.
Arguments calls {A} f.

Module MarketData.
Local Open Scope float_scope.

(** The error messages the fetch retries on. *)
Definition is_transient (error_msg : string) : bool :=
  Py.contains "WinError 10035" error_msg
  || Py.contains "HTTP 500" error_msg
  || Py.contains "timeout" (Py.lower error_msg).

(** [q.get('status') == 'error'] and the message that goes with it. *)
Definition is_error (fields : gmap string pyval) : bool :=
  OrderManager.eq_str (OrderManager.dget fields "status") "error".

(** The linear backoff [(attempt + 1) * 0.5]. *)
Definition backoff (attempt : nat) : float :=
  Py.float_of_int (Z.of_nat attempt + 1) * 0.5.

Section Retry.
Variable max_retries : nat.

Definition last_attempt (attempt : nat) : bool :=
  negb (Nat.ltb attempt (max_retries - 1)%nat).

(** The branch taken on an error answer; a message that is no string
    makes the [in] test raise, which the general handler retries. *)
Definition on_error {A : Type} (attempt : nat) (fields : gmap string pyval)
  : turn (result (option A)) :=
  match OrderManager.error_message fields with
  | PyStr error_msg =>
      if is_transient error_msg then
        if last_attempt attempt then Return (Ret None)
        else Continue (backoff attempt)
      else Return (Ret None)
  | _ =>
      if last_attempt attempt then Return (Raise TypeError)
      else Continue (backoff attempt)
  end.

(** One pass of the loop of [get_quote]; its handlers return [None] on
    the last attempt. *)
Definition quote_attempt (attempt : nat) (r : quote_response)
  : turn (option (gmap string pyval)) :=
  let give_up_or pause :=
    if last_attempt attempt then Return None else Continue pause in
  match r with
  | QRaiseKey => give_up_or 0.5
  | QRaise => give_up_or (backoff attempt)
  | QNotDict => give_up_or 0.5
  | QDict fields data =>
      if is_error fields then
        match @on_error (gmap string pyval) attempt fields with
        | Return (Ret v) => Return v
        | Return (Raise _) => Return None
        | Continue pause => Continue pause
        end
      else
        match data with
        | DataDict d =>
            if bool_decide (is_Some (d !! "ltp")) then Return (Some d)
            else if bool_decide (is_Some (fields !! "ltp")) then Return (Some fields)
            else give_up_or 0.5
        | DataList l =>
            if bool_decide (is_Some (fields !! "ltp")) then Return (Some fields)
            else match l with
                 | d :: _ => Return (Some d)
                 | [] => give_up_or 0.5
                 end
        | _ =>
            if bool_decide (is_Some (fields !! "ltp")) then Return (Some fields)
            else give_up_or 0.5
        end
  end.

Section Underlying.
Variable float_of_str : string -> option float.

(** [float(ltp)] when [ltp] is there and true. *)
Definition ltp_of (d : gmap string pyval) : option (result float) :=
  let ltp := OrderManager.dget d "ltp" in
  if Py.truthy ltp then Some (Py.to_float float_of_str ltp) else None.

(** One pass of the loop of [get_underlying_price]; on the last attempt
    its inner handler re-raises. *)
Definition underlying_attempt (attempt : nat) (r : quote_response)
  : turn (result (option float)) :=
  let retry_or (last : result (option float)) pause :=
    if last_attempt attempt then Return last else Continue pause in
  let converted (c : result float) :=
    match c with
    | Ret f => Return (Ret (Some f))
    | Raise e => retry_or (Raise e) (backoff attempt)
    end in
  match r with
  | QRaiseKey => retry_or (Raise KeyError) (backoff attempt)
  | QRaise => retry_or (Raise OtherError) (backoff attempt)
  | QNotDict => retry_or (Ret None) 0.5
  | QDict fields data =>
      if is_error fields then on_error attempt fields
      else
        match data with
        | DataDict d =>
            match ltp_of d with
            | Some c => converted c
            | None => retry_or (Ret None) 0.5
            end
        | DataList l =>
            match fields !! "ltp" with
            | Some v => converted (Py.to_float float_of_str v)
            | None =>
                match l with
                | d :: _ =>
                    match ltp_of d with
                    | Some c => converted c
                    | None => retry_or (Ret None) 0.5
                    end
                | [] => retry_or (Ret None) 0.5
                end
            end
        | _ =>
            match fields !! "ltp" with
            | Some v => converted (Py.to_float float_of_str v)
            | None => retry_or (Ret None) 0.5
            end
        end
  end.

End Underlying.

(** [for attempt in range(max_retries)] over a pass [body]; falling out
    of the loop gives [dflt]. *)
Fixpoint retry_loop {A : Type} (body : nat -> quote_response -> turn A)
  (quotes : nat -> quote_response) (dflt : A) (attempt remaining : nat) : fetch A :=
  match remaining with
  | O => mkFetch dflt [] 0%nat
  | S remaining' =>
      match body attempt (quotes attempt) with
      | Return v => mkFetch v [] 1%nat
      | Continue pause =>
          let f := retry_loop body quotes dflt (S attempt) remaining' in
          mkFetch (fetched f) (pause :: pauses f) (S (calls f))
      end
  end.

End Retry.

(** [MarketDataManager.get_quote].  [ws] is the price of the websocket
    path when that path is open ([None] otherwise); the REST loop makes
    three attempts. *)
Definition get_quote (ws : option float) (quotes : nat -> quote_response)
  : fetch (result (option (gmap string pyval))) :=
  match ws with
  | Some ws_price =>
      if Py.truthy_float ws_price
      then mkFetch (Ret (Some {["ltp" := PyFloat ws_price]})) [] 0%nat
      else
        let f := retry_loop (quote_attempt 3%nat) quotes None 0%nat 3%nat in
        mkFetch (Ret (fetched f)) (pauses f) (calls f)
  | None =>
      let f := retry_loop (quote_attempt 3%nat) quotes None 0%nat 3%nat in
      mkFetch (Ret (fetched f)) (pauses f) (calls f)
  end.

(** [MarketDataManager.get_underlying_price(max_retries)]; the outer
    handler turns whatever is raised into [None]. *)
Definition get_underlying_price (float_of_str : string -> option float)
  (max_retries : nat) (ws : option float) (quotes : nat -> quote_response)
  : fetch (result (option float)) :=
  let rest :=
    let f := retry_loop (underlying_attempt max_retries float_of_str)
               quotes (Ret None) 0%nat max_retries in
    mkFetch (match fetched f with
             | Ret v => Ret v
             | Raise _ => Ret None
             end) (pauses f) (calls f) in
  match ws with
  | Some ws_price =>
      if Py.truthy_float ws_price then mkFetch (Ret (Some ws_price)) [] 0%nat else rest
  | None => rest
  end.

End MarketData.
(** ** The WAITING state (strategy.py, is_market_open and _run_leg_thread) *)

Module Clock.

(** [now.replace(hour=h, minute=m, second=s, microsecond=0)]. *)
Definition replace_time (now : datetime) (h m s : Z) : datetime :=
  {| ordinal := ordinal now; hour := h; minute := m; second := s; microsecond := 0 |}.

(** The time of day as one number of microseconds. *)
Definition time_of_day (d : datetime) : Z :=
  ((hour d * 60 + minute d) * 60 + second d) * 1000000 + microsecond d.

(** [a >= b] on datetimes of one time zone. *)
Definition ge (a b : datetime) : bool :=
  (ordinal b <? ordinal a)%Z
  || ((ordinal a =? ordinal b)%Z && (time_of_day b <=? time_of_day a)%Z).

(** [d.weekday()]: Monday is 0, Saturday 5, Sunday 6. *)
Definition weekday (d : datetime) : Z := ((ordinal d + 6) mod 7)%Z.

End Clock.

Module Waiting.

(** The market-hours test written in [is_market_open]: false on a
    weekend, otherwise whether the time lies in 09:15 to 15:30. *)
Definition market_hours_test (now : datetime) : bool :=
  let current_time := Clock.time_of_day now in
  let market_open := Clock.time_of_day (Clock.replace_time now 9 15 0) in
  let market_close := Clock.time_of_day (Clock.replace_time now 15 30 0) in
  if (5 <=? Clock.weekday now)%Z then false
  else (market_open <=? current_time)%Z && (current_time <=? market_close)%Z.

(** [is_market_open]: its first statement is [return True]; the
    market-hours test stands after it and is never run. *)
Definition is_market_open (now : datetime) : bool := true.

(** How [_run_leg_thread] leaves the WAITING state. *)
Inductive waiting_exit : Type :=
| SkipExitTimePassed
| SkipMarketClosed
| CheckBreakout.

(** The checks of [_run_leg_thread] between the wait for the entry time
    and the breakout check.  [now] is the clock read after the wait,
    [now'] the one [is_market_open] reads. *)
Definition leave_waiting (end_hour end_minute : Z) (leg : LegState)
  (now now' : datetime) : waiting_exit :=
  let exit_passed :=
    match exit_time leg with
    | None => Clock.ge now (Clock.replace_time now end_hour end_minute 0)
    | Some t => Clock.ge now t
    end in
  if exit_passed then SkipExitTimePassed
  else if negb (is_market_open now') then SkipMarketClosed
  else CheckBreakout.

End Waiting.
(** ** Repeated exit attempts

    The monitor loop, the price callback and the exit-time check may all
    ask for the exit of one leg; the attempts are run one after another,
    as the state lock serialises them. *)

Module Attempts.

Section Runs.
Variable float_of_str : string -> option float.
Variable env : Env.

(** The legs after each attempt, the first leg in front. *)
Fixpoint exit_states (reqs : list (pyval * reason)) (leg : LegState) : list LegState :=
  leg :: match reqs with
         | [] => []
         | (p, r) :: rest =>
             exit_states rest
               (leg_of (Strategy.exit_leg_position float_of_str env p r leg))
         end.

(** The leg after all attempts and everything they asked of the
    collaborators. *)
Fixpoint exit_attempts (reqs : list (pyval * reason)) (leg : LegState)
  : LegState * list event :=
  match reqs with
  | [] => (leg, [])
  | (p, r) :: rest =>
      let x := Strategy.exit_leg_position float_of_str env p r leg in
      let y := exit_attempts rest (leg_of x) in
      (fst y, (trace_of x ++ snd y)%list)
  end.

(** The legs after each of a series of price updates. *)
Fixpoint price_updates (prices : list float) (leg : LegState) : list LegState :=
  match prices with
  | [] => []
  | p :: rest =>
      let leg' := leg_of (Strategy.handle_price_update float_of_str env p leg) in
      leg' :: price_updates rest leg'
  end.

End Runs.

(** The same for the position manager. *)
Fixpoint pm_exit_attempts (env : PmEnv) (prices : list float) (lp : LegPosition)
  : LegPosition * list pm_event :=
  match prices with
  | [] => (lp, [])
  | p :: rest =>
      let x := PositionManager.exit_position env lp p in
      let y := pm_exit_attempts env rest (fst (fst x)) in
      (fst y, (snd (fst x) ++ snd y)%list)
  end.

(** How often a list of legs goes from active to not active. *)
Fixpoint deactivations (legs : list LegState) : nat :=
  match legs with
  | a :: ((b :: _) as rest) =>
      (if is_active a && negb (is_active b) then 1 else 0) + deactivations rest
  | _ => 0
  end.

Definition is_exit_order (action : string) (e : event) : bool :=
  match e with PlaceOrder _ _ a => String.eqb a action | _ => false end.

Definition is_pnl_summary (e : event) : bool :=
  match e with ExitSummary _ _ _ _ => true | _ => false end.

Definition is_pnl_record (e : event) : bool :=
  match e with RecordLegExit _ _ _ _ _ => true | _ => false end.

Fixpoint count (f : event -> bool) (t : list event) : nat :=
  match t with
  | [] => 0
  | e :: rest => (if f e then 1 else 0) + count f rest
  end.

End Attempts.
(** ** The calls made on one leg (strategy.py, _monitor_leg_position)

    The monitor loop and the websocket callback hand prices to
    [_handle_price_update]; the loop also asks for the exit when the exit
    time has come, at the price its pass has: a float, or the value that
    was no price ([None] when no source answered).  Whatever a call
    raises is caught by its caller, so the calls that follow are made
    all the same.  The calls are taken one after another. *)

Inductive request : Type :=
| PriceUpdate (price : float)
| ExitRequest (price : pyval) (r : reason).

Module Monitor.

Section Serve.
Variable float_of_str : string -> option float.
Variable env : Env.

Definition serve_one (q : request) : M unit :=
  match q with
  | PriceUpdate p => Strategy.handle_price_update float_of_str env p
  | ExitRequest p r => Strategy.exit_leg_position float_of_str env p r
  end.

(** The leg after all calls and everything they asked of the
    collaborators. *)
Fixpoint serve (reqs : list request) (leg : LegState) : LegState * list event :=
  match reqs with
  | [] => (leg, [])
  | q :: rest =>
      let x := serve_one q leg in
      let y := serve rest (leg_of x) in
      (fst y, (trace_of x ++ snd y)%list)
  end.

End Serve.

(** An order sent to the broker, whatever its side. *)
Definition is_order (e : event) : bool :=
  match e with PlaceOrder _ _ _ => true | _ => false end.

End Monitor.
(** ** Example data

    Concrete legs and collaborators on which the statements below are
    run. *)

Module Example.
Local Open Scope float_scope.

(** A leg as the constructor leaves it: lot size 75, one lot. *)
Definition fresh_leg (cfg : gmap string pyval) (entry : pyval) (sl_pct : float)
  : LegState :=
  {| leg_num := 1; config := cfg; strategy_defaults := ∅;
     entry_time := None; exit_time := None;
     symbol := None; entry_price := entry; quantity := 75;
     entry_order_id := PyNone; sl_order_id := PyNone;
     profit_target_order_id := PyNone;
     initial_sl_pct := sl_pct; current_sl := None; highest_price := None;
     last_sl_trail_level := 0; first_lock_achieved := false;
     profit_exit_target := None; last_trail_level := 0;
     is_active := false; exit_reason := None; exit_price := PyNone;
     exiting := false; profit_level_for_lock_increase := None |}.

(** No string is a number: the simplest admissible parser. *)
Definition no_parse (s : string) : option float := None.

(** Collaborators that answer every request: the audit store is open
    or not, the option trades at [ltp], orders fill at [fill], and the
    broker keeps a stop order that is still pending. *)
Definition broker (audit : bool) (ltp fill : float) : Env :=
  {| env_persistence := audit;
     env_entry_action := "BUY";
     env_exit_action := "SELL";
     env_place_order := fun _ _ _ => PyStr "ORD-1";
     env_get_fill_price := fun _ => Some fill;
     env_place_sl_order := fun _ _ _ => PyStr "SL-1";
     env_modify_sl_order := fun _ _ => false;
     env_check_order_status := fun _ => Ret (PyStr "open");
     env_get_quote := fun _ => Some {["ltp" := PyFloat ltp]} |}.

(** The leg after [_enter_leg_position] with that broker. *)
Definition entered_leg (cfg : gmap string pyval) (sl_pct ltp fill : float) : LegState :=
  leg_of (Strategy.enter_leg_position no_parse (broker true ltp fill)
            (set_symbol (Some "NIFTY02DEC2524500CE") (fresh_leg cfg PyNone sl_pct))).

(** The lock-then-trail parameters of the scenario: lock triggered at 4%
    profit, first target 2%, then 1% more for every 2% gained. *)
Definition lock_trail_cfg : gmap string pyval :=
  <["lock_trigger_pct" := PyInt 4]>
    (<["first_lock_pct" := PyInt 2]>
       (<["trail_trigger_pct" := PyInt 2]>
          (<["trail_move_pct" := PyInt 1]> ∅))).

(** A trailing stop: 1% up for every 2% of profit gained. *)
Definition trail_cfg : gmap string pyval :=
  <["sl_trail_trigger_pct" := PyInt 2]> (<["sl_trail_move_pct" := PyInt 1]> ∅).

(** A position of the position manager: entered at 100, stop at 93. *)
Definition position : LegPosition :=
  {| lp_leg_id := 1; lp_symbol := "NIFTY02DEC2524500CE";
     lp_entry_price := 100; lp_quantity := 75; lp_current_sl := 93;
     lp_lock_profit_pct := 50; lp_profit_level_for_lock_increase := 50;
     lp_is_active := true; lp_exit_price := None; lp_exit_time := None;
     lp_pnl := 0; lp_pnl_pct := 0 |}.

Definition pm_env : PmEnv :=
  {| pm_entry_action := "BUY"; pm_exit_action := "SELL";
     pm_place_order := fun _ _ _ => PyStr "ORD-2";
     pm_now := "2025-12-02 10:00:00" |}.

(** Wait and trade: 3% threshold, reset on a 2% drop from the peak. *)
Definition wt_cfg : WtConfig :=
  {| threshold_pct := 3; reset_enabled := true; reset_drop_pct := Some 2 |}.

(** A poll that gets [p] from the REST quote before the timeout. *)
Definition rest_tick (p : float) : Tick :=
  {| ws_price := None; rest_quote := Some {["ltp" := PyFloat p]}; timed_out := false |}.

(** The order manager in live mode. *)
Definition live_cfg : OrderConfig :=
  {| test_mode := false; auto_place_orders := true;
     entry_action := "BUY"; exit_action := "SELL";
     place_sl_order_enabled := true; sl_limit_buffer_percent := 0.015 |}.

Definition no_int (s : string) : option Z := None.

(** A broker whose position book is [book] and which answers every
    stop-order request with the error message [msg]. *)
Definition client_with (book : api_answer pb_response) (msg : string) : Client :=
  {| positionbook := book;
     placeorder := fun _ _ _ =>
       Answered (OrDict (<["status" := PyStr "success"]> {["orderid" := PyStr "ORD-7"]}));
     modifyorder := fun _ _ _ =>
       Answered (OrDict (<["status" := PyStr "error"]> {["message" := PyStr msg]}));
     cancelorder := fun _ =>
       Answered (OrDict (<["status" := PyStr "error"]> {["message" := PyStr msg]}));
     clock_stamp := "1764649800" |}.

(** A position book that holds another symbol and a closed row of ours. *)
Definition book_without_us : list (gmap string pyval) :=
  [ <["symbol" := PyStr "NIFTY02DEC2524600PE"]> {["quantity" := PyInt 75]};
    <["tradingsymbol" := PyStr "NIFTY02DEC2524500CE"]> {["netqty" := PyInt 0]} ].

(** A REST client that answers every quote request with the error
    message [msg]. *)
Definition failing_quotes (msg : string) (attempt : nat) : quote_response :=
  QDict (<["status" := PyStr "error"]> {["message" := PyStr msg]}) DataAbsent.

(** Saturday 6 December 2025 and Tuesday 2 December 2025, at a given
    time of day. *)
Definition saturday (h m : Z) : datetime :=
  {| ordinal := 739591; hour := h; minute := m; second := 0; microsecond := 0 |}.

Definition tuesday (h m : Z) : datetime :=
  {| ordinal := 739587; hour := h; minute := m; second := 0; microsecond := 0 |}.

End Example.
(** ** More example data *)

Module Example2.
Local Open Scope float_scope.

(** The leg with other strategy-level defaults. *)
Definition with_defaults (d : gmap string pyval) (leg : LegState) : LegState :=
  {| leg_num := leg_num leg; config := config leg; strategy_defaults := d;
     entry_time := entry_time leg; exit_time := exit_time leg;
     symbol := symbol leg; entry_price := entry_price leg;
     quantity := quantity leg;
     entry_order_id := entry_order_id leg; sl_order_id := sl_order_id leg;
     profit_target_order_id := profit_target_order_id leg;
     initial_sl_pct := initial_sl_pct leg; current_sl := current_sl leg;
     highest_price := highest_price leg;
     last_sl_trail_level := last_sl_trail_level leg;
     first_lock_achieved := first_lock_achieved leg;
     profit_exit_target := profit_exit_target leg;
     last_trail_level := last_trail_level leg;
     is_active := is_active leg; exit_reason := exit_reason leg;
     exit_price := exit_price leg; exiting := exiting leg;
     profit_level_for_lock_increase := profit_level_for_lock_increase leg |}.

(** Strategy-level profit rules: lock at 2%, close at 5%. *)
Definition strategy_rules : gmap string pyval :=
  <["lock_profit_pct" := PyInt 2]>
    (<["auto_close_profit_pct" := PyInt 5]>
       (<["first_lock_pct" := PyInt 2]>
          (<["trail_trigger_pct" := PyInt 2]>
             (<["trail_move_pct" := PyInt 1]> ∅)))).

(** A leg entered at 100 that switches its own profit lock off while
    the strategy sets profit rules. *)
Definition opted_out_leg : LegState :=
  with_defaults strategy_rules
    (set_config {["lock_profit_pct" := PyStr "null"]}
       (Example.entered_leg ∅ 7 100 100)).

(** A broker that accepts every modification of the stop order. *)
Definition accepting_broker : Env :=
  {| env_persistence := true;
     env_entry_action := "BUY";
     env_exit_action := "SELL";
     env_place_order := fun _ _ _ => PyStr "ORD-1";
     env_get_fill_price := fun _ => Some 100;
     env_place_sl_order := fun _ _ _ => PyStr "SL-1";
     env_modify_sl_order := fun _ _ => true;
     env_check_order_status := fun _ => Ret (PyStr "open");
     env_get_quote := fun _ => Some {["ltp" := PyFloat 100]} |}.

(** The order manager in test mode. *)
Definition test_cfg : OrderConfig :=
  {| test_mode := true; auto_place_orders := true;
     entry_action := "BUY"; exit_action := "SELL";
     place_sl_order_enabled := true; sl_limit_buffer_percent := 0.015 |}.

(** The collaborators of an engine whose order manager runs in test
    mode: the status of an order is what that order manager answers. *)
Definition paper_broker : Env :=
  {| env_persistence := true;
     env_entry_action := "BUY";
     env_exit_action := "SELL";
     env_place_order := fun _ _ _ => PyStr "TEST_ORDER_NIFTY02DEC2524500CE_1764649800";
     env_get_fill_price := fun _ => None;
     env_place_sl_order := fun _ _ _ => PyStr "TEST_SL_NIFTY02DEC2524500CE_1764649800";
     env_modify_sl_order := fun _ _ => true;
     env_check_order_status := fun id =>
       Ret (fst (OrderBook.check_order_status test_cfg Failed id));
     env_get_quote := fun _ => Some {["ltp" := PyFloat 100]} |}.

(** An order book with a row that is no dict, the entry order and the
    stop order of a leg. *)
Definition order_rows : list ob_row :=
  [ RowOther;
    RowDict (<["orderid" := PyStr "ORD-1"]> {["order_status" := PyStr "complete"]});
    RowDict (<["order_id" := PyStr "SL-1"]> {["status" := PyStr "trigger pending"]}) ].

Definition order_book : api_answer ob_response :=
  Answered (ObAnswer (PyStr "success") (ObDict (Some (OrdersList order_rows)))).

(** A reader of decimal digit strings, the part of [int] the examples
    need. *)
Fixpoint decimal_from (acc : Z) (s : string) : option Z :=
  match s with
  | EmptyString => Some acc
  | String c r =>
      let n := nat_of_ascii c in
      if (Nat.leb 48 n && Nat.leb n 57)%bool
      then decimal_from (10 * acc + Z.of_nat (n - 48))%Z r
      else None
  end.

Definition decimal (s : string) : option Z :=
  match s with
  | EmptyString => None
  | _ => decimal_from 0 s
  end.

End Example2.
(** ** Order facts on binary64 numbers

  The comparisons of primitive floats are specified by [SFcompare] on
  their decoded form; the facts below are the ones the stop and target
  tests rely on. *)

Module FloatOrder.
Local Open Scope float_scope.

Lemma SFcompare_antisym (x y : spec_float) (c : comparison) :
  SFcompare x y = Some c -> SFcompare y x = Some (CompOpp c).
Proof.
  destruct x as [s1|s1| |s1 m1 e1], y as [s2|s2| |s2 m2 e2]; simpl;
    try discriminate;
    try (destruct s1); try (destruct s2);
    intros H; inversion H; subst; clear H; simpl; try reflexivity.
  - rewrite (Z.compare_antisym e1 e2).
    destruct (e1 ?= e2)%Z; simpl; try reflexivity.
    now rewrite (Pos.compare_cont_antisym m1 m2 Eq).
  - rewrite (Z.compare_antisym e1 e2).
    destruct (e1 ?= e2)%Z; simpl; try reflexivity.
    now rewrite (Pos.compare_cont_antisym m1 m2 Eq).
Qed.

(** A number is at most itself. *)
Lemma leb_refl (x : float) : is_nan x = false -> (x <=? x) = true.
Proof.
  unfold is_nan. rewrite FloatAxioms.eqb_spec, FloatAxioms.leb_spec. unfold SFeqb, SFleb.
  destruct (SFcompare (Prim2SF x) (Prim2SF x)) as [[]|]; simpl; congruence.
Qed.

(** Strictly above excludes at-or-below. *)
Lemma ltb_leb_false (x y : float) : (x <? y) = true -> (y <=? x) = false.
Proof.
  rewrite FloatAxioms.ltb_spec, FloatAxioms.leb_spec. unfold SFltb, SFleb.
  destruct (SFcompare (Prim2SF x) (Prim2SF y)) as [c|] eqn:E; try discriminate.
  rewrite (SFcompare_antisym _ _ _ E).
  destruct c; simpl; congruence.
Qed.

Lemma leb_ltb_false (x y : float) : (x <=? y) = true -> (y <? x) = false.
Proof.
  intros H. destruct (y <? x) eqn:E; [|reflexivity].
  apply ltb_leb_false in E. congruence.
Qed.

(** The comparisons with NaN are all false. *)
Lemma SFcompare_refl (x : spec_float) :
  x <> S754_nan -> SFcompare x x = Some Eq.
Proof.
  destruct x as [s|s| |s m e]; simpl; try congruence; intros _.
  - now destruct s.
  - destruct s; now rewrite Z.compare_refl, Pos.compare_cont_refl.
Qed.

Lemma is_nan_spec (x : float) : is_nan x = true -> Prim2SF x = S754_nan.
Proof.
  unfold is_nan. rewrite FloatAxioms.eqb_spec. unfold SFeqb. intros H.
  destruct (Prim2SF x) eqn:E; try reflexivity;
    rewrite SFcompare_refl in H by discriminate; discriminate.
Qed.

Lemma leb_nan_l (x y : float) : is_nan x = true -> (x <=? y) = false.
Proof.
  intros H. rewrite FloatAxioms.leb_spec, (is_nan_spec _ H). reflexivity.
Qed.

Lemma leb_nan_r (x y : float) : is_nan y = true -> (x <=? y) = false.
Proof.
  intros H. rewrite FloatAxioms.leb_spec, (is_nan_spec _ H). unfold SFleb.
  now destruct (Prim2SF x).
Qed.

End FloatOrder.

(** ** Running engine code symbolically

    [run_m] exposes the state passing of the engine monad; [case_match]
    splits on an innermost test the code makes, [on_summary] on the
    lines of the exit summary. *)

Ltac run_m :=
  unfold mbind, M_bind, mret, M_ret, get, modify, emit, lift, raise, catch; simpl.

Ltac case_match :=
  match goal with
  | |- context [match ?x with _ => _ end] =>
      lazymatch x with
      | context [match _ with _ => _ end] => fail
      | _ => destruct x eqn:?
      end
  end.

(** Splits on whether the exit summary is printed to its end. *)
Ltac on_summary :=
  match goal with
  | |- context [Strategy.exit_summary ?l ?q] =>
      destruct (Strategy.exit_summary l q) as [[]|?]; simpl
  end.


(** ** P&L of a leg *)

Module PnlFacts.
Local Open Scope float_scope.

(** The guarded division of [calculate_pnl] returns. *)
Lemma guarded_division_returns (a entry : float) :
  exists pct,
    (if negb (PrimFloat.eqb entry 0)
     then q ← Py.truediv a entry; Ret (q * 100)
     else Ret 0) = Ret pct
    /\ (PrimFloat.eqb entry 0 = true -> pct = 0).
Proof.
  unfold Py.truediv. destruct (PrimFloat.eqb entry 0) eqn:E; simpl.
  - exists 0. split; reflexivity.
  - exists (a / entry * 100). split; [reflexivity | discriminate].
Qed.

Lemma calculate_pnl_entry_none fos leg price :
  entry_price leg = PyNone -> Leg.calculate_pnl fos leg price = Ret (0, 0).
Proof. unfold Leg.calculate_pnl. now intros ->. Qed.

Lemma calculate_pnl_bad_entry fos leg price :
  returns (Py.to_float fos (entry_price leg)) = false ->
  Leg.calculate_pnl fos leg price = Ret (0, 0).
Proof.
  unfold Leg.calculate_pnl. intros H.
  destruct (entry_price leg) as [| | | |s]; simpl in *;
    try reflexivity; try discriminate.
  destruct (fos s); [discriminate | reflexivity].
Qed.

Lemma calculate_pnl_bad_price fos leg price :
  returns (Py.to_float fos price) = false ->
  Leg.calculate_pnl fos leg price = Ret (0, 0).
Proof.
  unfold Leg.calculate_pnl. intros H.
  destruct (Py.to_float fos price); [discriminate|].
  destruct (entry_price leg) as [| | | |s]; simpl; try reflexivity.
  destruct (fos s); reflexivity.
Qed.

(** The value [calculate_pnl] returns when both prices convert. *)
Lemma calculate_pnl_numbers fos leg price entry exitp :
  Py.to_float fos (entry_price leg) = Ret entry ->
  Py.to_float fos price = Ret exitp ->
  Leg.calculate_pnl fos leg price =
    Ret ((exitp - entry) * Py.float_of_int (quantity leg),
         if PrimFloat.eqb entry 0 then 0 else (exitp - entry) / entry * 100).
Proof.
  unfold Leg.calculate_pnl. intros He Hp.
  destruct (entry_price leg) eqn:E; try (simpl in He; discriminate);
    rewrite He, Hp; unfold Py.truediv;
    destruct (PrimFloat.eqb entry 0); reflexivity.
Qed.

(** C10.  [LegState.calculate_pnl] returns a pair for every leg and every
    current price, whatever Python value the price is, and never takes
    the zero-division exit: without an entry price, or when either price
    fails the float conversion, the pair is (0.0, 0.0), and with an entry
    price equal to zero the percentage returned is 0.0. *)
Theorem calculate_pnl_total fos (leg : LegState) (price : pyval) :
  (exists pnl pnl_pct, Leg.calculate_pnl fos leg price = Ret (pnl, pnl_pct))
  /\ (entry_price leg = PyNone ->
      Leg.calculate_pnl fos leg price = Ret (0, 0))
  /\ (returns (Py.to_float fos (entry_price leg)) = false
      \/ returns (Py.to_float fos price) = false ->
      Leg.calculate_pnl fos leg price = Ret (0, 0))
  /\ (forall entry, Py.to_float fos (entry_price leg) = Ret entry ->
      PrimFloat.eqb entry 0 = true ->
      exists pnl, Leg.calculate_pnl fos leg price = Ret (pnl, 0)).
Proof.
  repeat split.
  - destruct (Py.to_float fos (entry_price leg)) as [entry|e] eqn:He.
    + destruct (Py.to_float fos price) as [exitp|e] eqn:Hp.
      * rewrite (calculate_pnl_numbers _ _ _ _ _ He Hp). eauto.
      * rewrite calculate_pnl_bad_price by now rewrite Hp. eauto.
    + rewrite calculate_pnl_bad_entry by now rewrite He. eauto.
  - apply calculate_pnl_entry_none.
  - intros [H|H]; [now apply calculate_pnl_bad_entry | now apply calculate_pnl_bad_price].
  - intros entry He Hz.
    destruct (Py.to_float fos price) as [exitp|e] eqn:Hp.
    + rewrite (calculate_pnl_numbers _ _ _ _ _ He Hp), Hz. eauto.
    + rewrite calculate_pnl_bad_price by now rewrite Hp. eauto.
Qed.

(** The theorem at a leg entered at 0.0 and a price of 105.0, and at a
    leg whose current price is no number. *)
Lemma calculate_pnl_total_witness :
  (exists pnl, Leg.calculate_pnl Example.no_parse (Example.fresh_leg ∅ (PyFloat 0) 7) (PyFloat 105)
               = Ret (pnl, 0))
  /\ Leg.calculate_pnl Example.no_parse (Example.fresh_leg ∅ (PyFloat 100) 7) (PyStr "n/a") = Ret (0, 0).
Proof.
  split.
  - apply (proj2 (proj2 (proj2
      (calculate_pnl_total Example.no_parse (Example.fresh_leg ∅ (PyFloat 0) 7) (PyFloat 105)))) 0);
      reflexivity.
  - apply (proj1 (proj2 (proj2
      (calculate_pnl_total Example.no_parse (Example.fresh_leg ∅ (PyFloat 100) 7) (PyStr "n/a"))))).
    right. reflexivity.
Defined.

End PnlFacts.

(** ** The exit of a leg happens once *)

Module ExitFacts.
Local Open Scope float_scope.

Lemma calculate_pnl_returns fos leg price :
  exists p, Leg.calculate_pnl fos leg price = Ret p.
Proof.
  destruct (Py.to_float fos (entry_price leg)) as [entry|e] eqn:He.
  - destruct (Py.to_float fos price) as [exitp|e] eqn:Hp.
    + rewrite (PnlFacts.calculate_pnl_numbers _ _ _ _ _ He Hp). eauto.
    + rewrite PnlFacts.calculate_pnl_bad_price by now rewrite Hp. eauto.
  - rewrite PnlFacts.calculate_pnl_bad_entry by now rewrite He. eauto.
Qed.

(** A value the number format of the summary accepts. *)
Definition is_number (v : pyval) : bool :=
  match v with
  | PyNone | PyStr _ => false
  | PyBool _ | PyInt _ | PyFloat _ => true
  end.

(** The exit summary is printed to its end: the entry price and the
    exit price are numbers and the leg has a stop and a highest price. *)
Definition summary_printed (leg : LegState) (p : pyval) : bool :=
  returns (Strategy.exit_summary leg p).

Lemma summary_printed_iff leg p :
  summary_printed leg p
  = is_number (entry_price leg) && is_number p
    && bool_decide (is_Some (current_sl leg))
    && bool_decide (is_Some (highest_price leg)).
Proof.
  unfold summary_printed, Strategy.exit_summary.
  destruct (entry_price leg), p, (current_sl leg), (highest_price leg); reflexivity.
Qed.

Lemma summary_needs_price leg : summary_printed leg PyNone = false.
Proof.
  rewrite summary_printed_iff. cbn [is_number]. now rewrite andb_false_r.
Qed.

(** The summary reads the entry price, the initial stop percentage, the
    stop and the highest price of the leg, and nothing else. *)
Lemma exit_summary_fields l l' p :
  entry_price l = entry_price l' -> initial_sl_pct l = initial_sl_pct l' ->
  current_sl l = current_sl l' -> highest_price l = highest_price l' ->
  Strategy.exit_summary l p = Strategy.exit_summary l' p.
Proof.
  unfold Strategy.exit_summary. now intros -> -> -> ->.
Qed.

(** A leg that is closing or closed is left alone. *)
Lemma exit_closed fos env p r leg :
  exiting leg = true \/ is_active leg = false ->
  Strategy.exit_leg_position fos env p r leg = (leg, [], Ret tt).
Proof.
  intros H. unfold Strategy.exit_leg_position, catch, mbind, M_bind, get. simpl.
  destruct H as [-> | ->]; [reflexivity | now rewrite orb_true_r].
Qed.

Lemma exit_open fos env p r leg :
  is_active leg = true -> exiting leg = false ->
  exists leg' t,
    Strategy.exit_leg_position fos env p r leg = (leg', t, Ret tt)
    /\ is_active leg' = false /\ exiting leg' = true
    /\ exit_price leg' = p /\ exit_reason leg' = Some r
    /\ Attempts.count (Attempts.is_exit_order (env_exit_action env)) t = 1%nat
    /\ Attempts.count Attempts.is_pnl_summary t
       = (if summary_printed leg p then 1 else 0)%nat
    /\ Attempts.count Attempts.is_pnl_record t
       = (if summary_printed leg p && env_persistence env then 1 else 0)%nat.
Proof.
  intros Ha He.
  destruct (calculate_pnl_returns fos leg p) as [[pnl pct] Hp].
  unfold summary_printed.
  unfold Strategy.exit_leg_position, catch, mbind, M_bind, mret, M_ret, get, modify, emit, lift.
  simpl. rewrite Ha, He. simpl. rewrite Hp. simpl.
  destruct (Py.truthy (sl_order_id leg)), (Py.truthy (profit_target_order_id leg));
    simpl; rewrite (exit_summary_fields _ leg p) by reflexivity;
    destruct (Strategy.exit_summary leg p) as [[]|e]; simpl;
    destruct (env_persistence env); simpl;
    do 2 eexists; (split; [reflexivity|]); simpl;
    rewrite ?String.eqb_refl; tauto.
Qed.

Definition closed (leg : LegState) : Prop :=
  exiting leg = true \/ is_active leg = false.

Lemma closed_or_open leg :
  closed leg \/ (is_active leg = true /\ exiting leg = false).
Proof.
  unfold closed. destruct (is_active leg), (exiting leg); auto.
Qed.

Lemma attempts_closed fos env reqs leg :
  closed leg -> Attempts.exit_attempts fos env reqs leg = (leg, []).
Proof.
  intros H. induction reqs as [|[p r] rest IH]; [reflexivity|].
  simpl. rewrite (exit_closed fos env p r leg H). unfold leg_of, trace_of. simpl.
  now rewrite IH.
Qed.

Lemma states_head fos env reqs leg :
  exists rest, Attempts.exit_states fos env reqs leg = leg :: rest.
Proof. destruct reqs as [|[p r] rest]; simpl; eauto. Qed.

Lemma deactivations_cons a b tl :
  Attempts.deactivations (a :: b :: tl)
  = ((if is_active a && negb (is_active b) then 1 else 0)
     + Attempts.deactivations (b :: tl))%nat.
Proof. reflexivity. Qed.

Lemma deactivations_closed fos env reqs leg :
  closed leg -> Attempts.deactivations (Attempts.exit_states fos env reqs leg) = 0%nat.
Proof.
  intros H. induction reqs as [|[p r] rest IH]; [reflexivity|].
  cbn [Attempts.exit_states]. rewrite (exit_closed fos env p r leg H).
  unfold leg_of. cbn [fst].
  destruct (states_head fos env rest leg) as [tl Htl].
  rewrite Htl in *. rewrite deactivations_cons, IH.
  now destruct (is_active leg).
Qed.

(** The active flag of a leg goes down at most once, however many exit
    attempts follow. *)
Lemma deactivated_once fos env reqs leg :
  (Attempts.deactivations (Attempts.exit_states fos env reqs leg) <= 1)%nat.
Proof.
  destruct (closed_or_open leg) as [H | [Ha He]].
  - rewrite deactivations_closed by assumption. lia.
  - destruct reqs as [|[p r] rest]; [simpl; lia|].
    cbn [Attempts.exit_states].
    destruct (exit_open fos env p r leg Ha He) as (leg' & t & Hx & Hi & Hc & _).
    rewrite Hx. unfold leg_of. cbn [fst].
    destruct (states_head fos env rest leg') as [tl Htl].
    pose proof (deactivations_closed fos env rest leg' (or_introl Hc)) as Hz.
    rewrite Htl in *. rewrite deactivations_cons, Hz, Ha, Hi. simpl. lia.
Qed.

Lemma pm_exit_closed env lp p :
  lp_is_active lp = false ->
  PositionManager.exit_position env lp p = (lp, [], Ret tt).
Proof. unfold PositionManager.exit_position. now intros ->. Qed.

Lemma pm_attempts_closed env prices lp :
  lp_is_active lp = false -> Attempts.pm_exit_attempts env prices lp = (lp, []).
Proof.
  intros H. induction prices as [|p rest IH]; [reflexivity|].
  simpl. rewrite (pm_exit_closed env lp p H). simpl. now rewrite IH.
Qed.

Lemma pm_exit_open env lp p :
  lp_is_active lp = true ->
  exists lp' out,
    PositionManager.exit_position env lp p
      = (lp', [PmPlaceOrder (lp_symbol lp) (lp_quantity lp) (pm_exit_action env)], out)
    /\ lp_is_active lp' = false /\ lp_exit_price lp' = Some p
    /\ lp_exit_time lp' = Some (pm_now env).
Proof.
  intros H. unfold PositionManager.exit_position. rewrite H. simpl.
  destruct (Position.calculate_pnl _ _ _) as [[pnl pct]|e];
    do 2 eexists; (split; [reflexivity|]); simpl; auto.
Qed.

(** C1.  The exit of a leg runs once, but its P&L record can be lost.
    A call of the exit routine on a leg that is closing ([_exiting] set)
    or closed ([is_active] false) changes nothing and asks nothing of
    the broker or the audit store; the same holds for the position
    manager's exit on a position that is not active.  Over any series of
    exit attempts the active flag goes from true to false at most once;
    and from an open leg, the first attempt followed by any further ones
    leaves the leg closed with the price and reason of the first attempt
    and one closing order placed.  The final P&L is summarised once, and
    its audit record written once when the audit store is open, exactly
    when the summary is printed to its end: the entry price and the exit
    price are numbers and the leg has a stop and a highest price.  With
    the exit price [None], which the exit-time check of the monitor
    hands over when no source gave a price, the closing order is placed
    and neither the summary nor the audit record is written, by the
    first attempt or by any later one. *)
Theorem exit_idempotent fos (env : Env) :
  (forall leg p r, exiting leg = true \/ is_active leg = false ->
     Strategy.exit_leg_position fos env p r leg = (leg, [], Ret tt))
  /\ (forall pm lp p, lp_is_active lp = false ->
     PositionManager.exit_position pm lp p = (lp, [], Ret tt))
  /\ (forall leg reqs,
     (Attempts.deactivations (Attempts.exit_states fos env reqs leg) <= 1)%nat)
  /\ (forall leg p r reqs, is_active leg = true -> exiting leg = false ->
     let x := Attempts.exit_attempts fos env ((p, r) :: reqs) leg in
     is_active (fst x) = false
     /\ exit_price (fst x) = p /\ exit_reason (fst x) = Some r
     /\ Attempts.count (Attempts.is_exit_order (env_exit_action env)) (snd x) = 1%nat
     /\ Attempts.count Attempts.is_pnl_summary (snd x)
        = (if summary_printed leg p then 1 else 0)%nat
     /\ Attempts.count Attempts.is_pnl_record (snd x)
        = (if summary_printed leg p && env_persistence env then 1 else 0)%nat)
  /\ (forall leg p,
     summary_printed leg p
     = is_number (entry_price leg) && is_number p
       && bool_decide (is_Some (current_sl leg))
       && bool_decide (is_Some (highest_price leg)))
  /\ (forall leg r reqs, is_active leg = true -> exiting leg = false ->
     let x := Attempts.exit_attempts fos env ((PyNone, r) :: reqs) leg in
     is_active (fst x) = false
     /\ Attempts.count (Attempts.is_exit_order (env_exit_action env)) (snd x) = 1%nat
     /\ Attempts.count Attempts.is_pnl_summary (snd x) = 0%nat
     /\ Attempts.count Attempts.is_pnl_record (snd x) = 0%nat)
  /\ (forall pm lp p prices, lp_is_active lp = true ->
     let first := PositionManager.exit_position pm lp p in
     Attempts.pm_exit_attempts pm (p :: prices) lp
       = (fst (fst first),
          [PmPlaceOrder (lp_symbol lp) (lp_quantity lp) (pm_exit_action pm)])
     /\ lp_is_active (fst (fst first)) = false).
Proof.
  assert (Hfirst : forall leg p r reqs, is_active leg = true -> exiting leg = false ->
     let x := Attempts.exit_attempts fos env ((p, r) :: reqs) leg in
     is_active (fst x) = false
     /\ exit_price (fst x) = p /\ exit_reason (fst x) = Some r
     /\ Attempts.count (Attempts.is_exit_order (env_exit_action env)) (snd x) = 1%nat
     /\ Attempts.count Attempts.is_pnl_summary (snd x)
        = (if summary_printed leg p then 1 else 0)%nat
     /\ Attempts.count Attempts.is_pnl_record (snd x)
        = (if summary_printed leg p && env_persistence env then 1 else 0)%nat).
  { intros leg p r reqs Ha He.
    destruct (exit_open fos env p r leg Ha He)
      as (leg' & t & Hx & Hi & Hc & Hp & Hr & Ho & Hs & Hd).
    cbn [Attempts.exit_attempts]. rewrite Hx. unfold leg_of, trace_of. cbn [fst snd].
    rewrite (attempts_closed fos env reqs leg' (or_introl Hc)). cbn [fst snd].
    rewrite app_nil_r. auto 10. }
  split; [|split; [|split; [|split; [|split; [|split]]]]].
  - intros. now apply exit_closed.
  - intros. now apply pm_exit_closed.
  - intros. apply deactivated_once.
  - exact Hfirst.
  - intros. apply summary_printed_iff.
  - intros leg r reqs Ha He.
    destruct (Hfirst leg PyNone r reqs Ha He) as (Hi & _ & _ & Ho & Hs & Hd).
    rewrite summary_needs_price in Hs, Hd. auto.
  - intros pm lp p prices Ha.
    destruct (pm_exit_open pm lp p Ha) as (lp' & out & Hx & Hi & _).
    cbn [Attempts.pm_exit_attempts]. rewrite Hx. cbn [fst snd].
    rewrite (pm_attempts_closed pm prices lp' Hi). cbn [fst snd]. auto.
Qed.

(** A leg entered at 100 with a 7% stop, the audit store open.  The
    exit time comes in a pass of the monitor in which no source gave a
    price: the first attempt closes the leg with one SELL order and
    writes neither summary nor audit record, and the two attempts that
    follow change nothing. *)
Lemma exit_idempotent_witness :
  let x := Attempts.exit_attempts Example.no_parse (Example.broker true 100 100)
             [(PyNone, TIME_EXIT); (PyFloat 95, TIME_EXIT); (PyFloat 90, SL_BREACH)]
             (Example.entered_leg ∅ 7 100 100) in
  is_active (fst x) = false
  /\ Attempts.count (Attempts.is_exit_order "SELL") (snd x) = 1%nat
  /\ Attempts.count Attempts.is_pnl_summary (snd x) = 0%nat
  /\ Attempts.count Attempts.is_pnl_record (snd x) = 0%nat.
Proof.
  apply (proj1 (proj2 (proj2 (proj2 (proj2 (proj2
    (exit_idempotent Example.no_parse (Example.broker true 100 100)))))))
    (Example.entered_leg ∅ 7 100 100) TIME_EXIT
    [(PyFloat 95, TIME_EXIT); (PyFloat 90, SL_BREACH)]); reflexivity.
Defined.

End ExitFacts.

(** ** The initial stop and its breach *)

Module StopFacts.
Local Open Scope float_scope.

(** A float equal to zero decodes to one of the two zeros. *)
Lemma eqb_zero_spec (x : float) :
  PrimFloat.eqb x 0 = true -> exists s, Prim2SF x = S754_zero s.
Proof.
  rewrite FloatAxioms.eqb_spec.
  replace (Prim2SF 0) with (S754_zero false) by reflexivity.
  unfold SFeqb. destruct (Prim2SF x) as [s|s| |s m e]; simpl; eauto;
    try discriminate; destruct s; discriminate.
Qed.

(** A price above a positive stop is a price the engine looks at. *)
Lemma above_93_truthy (p : float) : Py.gt p 93 = true -> Py.truthy_float p = true.
Proof.
  unfold Py.gt, Py.truthy_float. intros H.
  destruct (PrimFloat.eqb p 0) eqn:E; [|reflexivity].
  destruct (eqb_zero_spec _ E) as [s Hs].
  rewrite FloatAxioms.ltb_spec, Hs in H. vm_compute in H. discriminate.
Qed.

Section Engine.
Variable fos : string -> option float.
Variable env : Env.

(** What a successful entry leaves in the leg. *)
Lemma enter_success leg leg' t :
  Strategy.enter_leg_position fos env leg = (leg', t, Ret true) ->
  exists E,
    entry_price leg' = PyFloat E
    /\ current_sl leg' = Some (E * (1 - initial_sl_pct leg / 100))
    /\ highest_price leg' = Some E
    /\ is_active leg' = true
    /\ exiting leg' = exiting leg.
Proof.
  unfold Strategy.enter_leg_position. run_m.
  repeat (case_match; simpl; try discriminate);
    intros H; inversion H; subst; clear H; simpl; eauto 10.
Qed.

(** The stop-breach branch closes an open leg at the given price. *)
Lemma stop_breached_closes leg p :
  is_active leg = true -> exiting leg = false ->
  let leg' := leg_of (Strategy.stop_breached fos env p leg) in
  is_active leg' = false /\ exit_price leg' = PyFloat p
  /\ (exit_reason leg' = Some SL_BREACH
      \/ exit_reason leg' = Some SL_EXECUTED_ON_BROKER).
Proof.
  intros Ha He.
  destruct (ExitFacts.exit_open fos env (PyFloat p) SL_BREACH leg Ha He)
    as (leg1 & t1 & Hx & Hi & _ & Hp & Hr & _).
  destruct (ExitFacts.calculate_pnl_returns fos leg (PyFloat p)) as [pnl Hpnl].
  unfold Strategy.stop_breached. run_m. unfold leg_of.
  repeat (case_match; simpl; rewrite ?Hx, ?Hpnl; simpl; auto).
Qed.

(** Feeding a stop price that is a non-zero number back as the current
    price closes the leg. *)
Lemma handle_at_stop leg stop highest :
  is_active leg = true -> exiting leg = false ->
  current_sl leg = Some stop -> highest_price leg = Some highest ->
  is_nan stop = false -> PrimFloat.eqb stop 0 = false ->
  let leg' := leg_of (Strategy.handle_price_update fos env stop leg) in
  is_active leg' = false /\ exit_price leg' = PyFloat stop
  /\ (exit_reason leg' = Some SL_BREACH
      \/ exit_reason leg' = Some SL_EXECUTED_ON_BROKER).
Proof.
  intros Ha He Hs Hh Hn Hz.
  destruct (ExitFacts.calculate_pnl_returns fos leg (PyFloat stop)) as [pnl Hpnl].
  unfold Strategy.handle_price_update. run_m.
  unfold Py.truthy_float. rewrite Ha, He, Hz, Hs, Hh, Hpnl. simpl.
  rewrite (FloatOrder.leb_refl _ Hn).
  destruct (Py.gt stop highest); simpl.
  - pose proof (stop_breached_closes (set_highest_price (Some stop) leg) stop Ha He) as H.
    unfold leg_of in *. simpl in H.
    destruct (Strategy.stop_breached fos env stop _) as [[l t] [[]|e]]; exact H.
  - pose proof (stop_breached_closes leg stop Ha He) as H.
    unfold leg_of in *. simpl in H.
    destruct (Strategy.stop_breached fos env stop leg) as [[l t] [[]|e]]; exact H.
Qed.

(** A leg that configures no profit rule is left alone by the risk
    manager. *)
Lemma manage_without_rules leg current_price pnl_pct :
  config leg = ∅ -> strategy_defaults leg = ∅ ->
  Strategy.manage_position_unified fos env current_price pnl_pct leg = (leg, [], Ret tt).
Proof.
  intros Hc Hd.
  unfold Strategy.manage_position_unified, Strategy.trail_stop_loss,
    Strategy.profit_management, Strategy.get_param.
  run_m. repeat (rewrite ?Hc, ?Hd, ?lookup_empty; simpl). reflexivity.
Qed.

(** Above the stop such a leg stays open. *)
Lemma handle_above_stop leg stop highest p :
  is_active leg = true -> current_sl leg = Some stop ->
  highest_price leg = Some highest ->
  config leg = ∅ -> strategy_defaults leg = ∅ ->
  Py.gt p stop = true ->
  is_active (leg_of (Strategy.handle_price_update fos env p leg)) = true.
Proof.
  intros Ha Hs Hh Hc Hd Hgt.
  destruct (ExitFacts.calculate_pnl_returns fos leg (PyFloat p)) as [pnl Hpnl].
  unfold Strategy.handle_price_update. run_m.
  rewrite Ha, Hs, Hh, Hpnl. simpl.
  rewrite (FloatOrder.ltb_leb_false _ _ Hgt).
  destruct (Py.truthy_float p), (exiting leg), (Py.gt p highest); simpl;
    try assumption;
    rewrite manage_without_rules by assumption; simpl; assumption.
Qed.

End Engine.

(** C2, as the code has it.  A successful entry sets the stop to exactly
    E * (1 - S/100) for the entry price E it keeps (the fill price, or the
    quoted price when no fill price is known) and the leg's stop
    percentage S; feeding that stop back as the current price closes the
    leg as a stop breach whenever the stop is a number other than zero
    (a price of zero is read as "no price" and dropped).  A leg entered at
    100 with S = 7 has the stop 93.0: it is closed at 93.0 and stays open
    at every higher price. *)
Theorem stop_round_trip :
  (forall fos env leg leg' t,
     exiting leg = false ->
     Strategy.enter_leg_position fos env leg = (leg', t, Ret true) ->
     exists E,
       entry_price leg' = PyFloat E
       /\ current_sl leg' = Some (E * (1 - initial_sl_pct leg / 100))
       /\ (is_nan (E * (1 - initial_sl_pct leg / 100)) = false ->
           PrimFloat.eqb (E * (1 - initial_sl_pct leg / 100)) 0 = false ->
           let closed :=
             leg_of (Strategy.handle_price_update fos env
                       (E * (1 - initial_sl_pct leg / 100)) leg') in
           is_active closed = false
           /\ exit_price closed = PyFloat (E * (1 - initial_sl_pct leg / 100))
           /\ (exit_reason closed = Some SL_BREACH
               \/ exit_reason closed = Some SL_EXECUTED_ON_BROKER)))
  /\ (let env := Example.broker true 100 100 in
      let leg := Example.entered_leg ∅ 7 100 100 in
      entry_price leg = PyFloat 100
      /\ current_sl leg = Some 93
      /\ is_active (leg_of (Strategy.handle_price_update Example.no_parse env 93 leg)) = false
      /\ forall p, Py.gt p 93 = true ->
           is_active (leg_of (Strategy.handle_price_update Example.no_parse env p leg)) = true).
Proof.
  split.
  - intros fos env leg leg' t He Hx.
    destruct (enter_success fos env leg leg' t Hx) as (E & HE & Hs & Hh & Ha & He').
    exists E. split; [exact HE|]. split; [exact Hs|].
    intros Hn Hz. apply (handle_at_stop fos env leg' _ E); try assumption.
    congruence.
  - cbv zeta. split; [reflexivity|]. split; [reflexivity|].
    split; [vm_compute; reflexivity|].
    intros p Hp.
    apply (handle_above_stop Example.no_parse _ _ 93 100 p); try reflexivity.
    exact Hp.
Qed.

(** The theorem at the entry of a fresh leg with a 7% stop at a quote
    and fill of 100. *)
Lemma stop_round_trip_witness :
  let env := Example.broker true 100 100 in
  let leg := set_symbol (Some "NIFTY02DEC2524500CE") (Example.fresh_leg ∅ PyNone 7) in
  let leg' := leg_of (Strategy.enter_leg_position Example.no_parse env leg) in
  current_sl leg' = Some 93
  /\ is_active (leg_of (Strategy.handle_price_update Example.no_parse env 93 leg')) = false.
Proof.
  cbv zeta.
  destruct (proj1 stop_round_trip Example.no_parse (Example.broker true 100 100)
              (set_symbol (Some "NIFTY02DEC2524500CE") (Example.fresh_leg ∅ PyNone 7))
              (leg_of (Strategy.enter_leg_position Example.no_parse (Example.broker true 100 100)
                 (set_symbol (Some "NIFTY02DEC2524500CE") (Example.fresh_leg ∅ PyNone 7))))
              (trace_of (Strategy.enter_leg_position Example.no_parse (Example.broker true 100 100)
                 (set_symbol (Some "NIFTY02DEC2524500CE") (Example.fresh_leg ∅ PyNone 7))))
              eq_refl eq_refl)
    as (E & HE & Hs & Hclose).
  assert (E = 100) as -> by (vm_compute in HE; congruence).
  split; [exact Hs|].
  exact (proj1 (Hclose eq_refl eq_refl)).
Defined.

(** The claim as stated fails where the stop percentage is 100: the
    entry at 100 sets the stop 100 * (1 - 100/100) = 0.0, and a current
    price of 0.0 is dropped before the stop test; the leg stays as it
    is, open. *)
Lemma stop_round_trip_fails_at_zero_stop :
  let env := Example.broker true 100 100 in
  let leg := Example.entered_leg ∅ 100 100 100 in
  Py.gt 100 0 = true
  /\ entry_price leg = PyFloat 100
  /\ current_sl leg = Some (100 * (1 - 100 / 100))
  /\ is_active leg = true
  /\ Strategy.handle_price_update Example.no_parse env (100 * (1 - 100 / 100)) leg
     = (leg, [], Ret tt).
Proof. vm_compute. repeat split; reflexivity. Qed.

End StopFacts.

(** ** Lock-then-trail profit capture *)

Module LockTrailFacts.
Local Open Scope float_scope.

Lemma ltb_irrefl (x : float) : (x <? x) = false.
Proof.
  destruct (x <? x) eqn:E; [|reflexivity].
  pose proof (FloatOrder.ltb_leb_false _ _ E) as H.
  rewrite FloatAxioms.ltb_spec in E. rewrite FloatAxioms.leb_spec in H.
  unfold SFltb in E. unfold SFleb in H.
  destruct (SFcompare (Prim2SF x) (Prim2SF x)) as [[]|]; discriminate.
Qed.

(** The leg of the scenario after its profit path 0%, 4%, 6%, 8%. *)
Definition leg_at_8 : LegState :=
  let env := Example.broker true 100 100 in
  let leg0 := Example.entered_leg Example.lock_trail_cfg 7 100 100 in
  let leg1 := leg_of (Strategy.handle_price_update Example.no_parse env 100 leg0) in
  let leg2 := leg_of (Strategy.handle_price_update Example.no_parse env 104 leg1) in
  let leg3 := leg_of (Strategy.handle_price_update Example.no_parse env 106 leg2) in
  leg_of (Strategy.handle_price_update Example.no_parse env 108 leg3).

(** The cap of stage 3: a new target never lies above the current
    profit less half a percent. *)
Lemma capped_below_profit (new_target pnl_pct : float) :
  Py.gt (if Py.gt new_target (pnl_pct - 0.5) then pnl_pct - 0.5 else new_target)
        (pnl_pct - 0.5) = false.
Proof.
  destruct (Py.gt new_target (pnl_pct - 0.5)) eqn:E; [|exact E].
  unfold Py.gt. apply ltb_irrefl.
Qed.

Section Mode.
Variable fos : string -> option float.
Variable env : Env.

(** Stage 3 keeps the leg open. *)
Lemma trail_exit_target_keeps_open pnl_pct trigger move target leg :
  is_active (leg_of (Strategy.trail_exit_target env pnl_pct trigger move target leg))
  = is_active leg.
Proof.
  unfold Strategy.trail_exit_target. run_m. unfold leg_of.
  repeat (case_match; simpl; try reflexivity).
Qed.

(** Stage 3 either leaves the target or sets a capped one. *)
Lemma trail_exit_target_capped pnl_pct trigger move target leg :
  let leg' := leg_of (Strategy.trail_exit_target env pnl_pct trigger move target leg) in
  profit_exit_target leg' = profit_exit_target leg
  \/ exists t, profit_exit_target leg' = Some t /\ Py.gt t (pnl_pct - 0.5) = false.
Proof.
  unfold Strategy.trail_exit_target. run_m. unfold leg_of.
  repeat (case_match; simpl; auto);
    right; eexists; (split; [reflexivity|]);
    first [assumption | unfold Py.gt; apply ltb_irrefl | apply capped_below_profit].
Qed.

(** In lock-then-trail mode with the lock set, and neither a trailing
    stop nor an auto-close configured, the risk manager exits exactly
    when profit is at or below the target. *)
Lemma lock_exit_iff leg (current_price pnl_pct fl trigger move target : float) :
  Strategy.safe_float fos (Strategy.get_param leg "sl_trail_trigger_pct" PyNone true) = None ->
  Strategy.safe_float fos (Strategy.get_param leg "auto_close_profit_pct" PyNone false) = None ->
  Strategy.safe_float fos (Strategy.get_param leg "first_lock_pct" PyNone false) = Some fl ->
  Strategy.safe_float fos (Strategy.get_param leg "trail_trigger_pct" PyNone false) = Some trigger ->
  Strategy.safe_float fos (Strategy.get_param leg "trail_move_pct" PyNone false) = Some move ->
  first_lock_achieved leg = true -> profit_exit_target leg = Some target ->
  is_active leg = true -> exiting leg = false ->
  is_active (leg_of (Strategy.manage_position_unified fos env current_price pnl_pct leg))
  = negb (pnl_pct <=? target).
Proof.
  intros H1 H2 H3 H4 H5 H6 H7 H8 H9.
  unfold Strategy.manage_position_unified, Strategy.trail_stop_loss.
  run_m. rewrite H1. simpl. rewrite H2.
  unfold Strategy.profit_management. run_m. rewrite H3, H4, H5.
  unfold Strategy.lock_then_trail. run_m. rewrite H7. simpl. rewrite H6. simpl.
  rewrite H6, H7.
  destruct (pnl_pct <=? target) eqn:E.
  - destruct (ExitFacts.exit_open fos env (PyFloat current_price) (TRAIL_EXIT_PCT target) leg H8 H9)
      as (leg' & t & Hx & Hi & _).
    rewrite Hx. simpl. exact Hi.
  - pose proof (trail_exit_target_keeps_open pnl_pct trigger move target leg) as Hk.
    unfold leg_of in *.
    destruct (Strategy.trail_exit_target env pnl_pct trigger move target leg)
      as [[leg' t] [[]|e]]; simpl in *; congruence.
Qed.

End Mode.

(** C3.  Lock-then-trail with lock trigger 4%, first lock 2%, trail
    trigger 2% and trail move 1%, on a leg entered at 100: the prices
    100, 104, 106, 108 (profits 0%, 4%, 6%, 8%) leave the profit-exit
    targets None, 2%, 3%, 4% and the leg open; every target the trail
    sets is capped at the current profit less 0.5%; and afterwards the
    risk manager closes the leg exactly when the profit it is given is
    at or below the last target, 4%. *)
Theorem lock_then_trail_scenario :
  let env := Example.broker true 100 100 in
  let legs := Attempts.price_updates Example.no_parse env [100; 104; 106; 108]
                (Example.entered_leg Example.lock_trail_cfg 7 100 100) in
  map profit_exit_target legs = [None; Some 2; Some 3; Some 4]
  /\ map is_active legs = [true; true; true; true]
  /\ last legs = Some leg_at_8
  /\ (forall env' pnl_pct trigger move target leg,
       let leg' := leg_of (Strategy.trail_exit_target env' pnl_pct trigger move target leg) in
       profit_exit_target leg' = profit_exit_target leg
       \/ exists t, profit_exit_target leg' = Some t /\ Py.gt t (pnl_pct - 0.5) = false)
  /\ (forall current_price pnl_pct,
       is_active (leg_of (Strategy.manage_position_unified Example.no_parse env
                            current_price pnl_pct leg_at_8))
       = negb (pnl_pct <=? 4)).
Proof.
  split; [vm_compute; reflexivity|].
  split; [vm_compute; reflexivity|].
  split; [vm_compute; reflexivity|].
  split; [intros; apply trail_exit_target_capped|].
  intros current_price pnl_pct.
  apply (lock_exit_iff Example.no_parse (Example.broker true 100 100) leg_at_8
           current_price pnl_pct 2 2 1 4); vm_compute; reflexivity.
Qed.

End LockTrailFacts.

(** ** What the stop and target prices are derived from *)

Module AnchorFacts.
Local Open Scope float_scope.

Section Engine.
Variable fos : string -> option float.
Variable env : Env.

(** The exit routine leaves prices, stop and target as they are. *)
Lemma exit_keeps_prices p r leg leg' t out :
  Strategy.exit_leg_position fos env p r leg = (leg', t, out) ->
  current_sl leg' = current_sl leg
  /\ profit_exit_target leg' = profit_exit_target leg
  /\ entry_price leg' = entry_price leg.
Proof.
  unfold Strategy.exit_leg_position. run_m.
  repeat (case_match; simpl; auto);
    intros H; inversion H; subst; simpl; auto.
Qed.

(** A trailing-stop update multiplies the stop the leg has by
    1 + move * intervals / 100. *)
Lemma trailing_stop_from_previous pnl_pct leg old_sl :
  current_sl leg = Some old_sl ->
  let leg' := leg_of (Strategy.trail_stop_loss fos env pnl_pct leg) in
  current_sl leg' = Some old_sl
  \/ exists move intervals,
       Strategy.safe_float fos (Strategy.get_param leg "sl_trail_move_pct" PyNone true)
         = Some move
       /\ current_sl leg' = Some (old_sl * (1 + move * Py.float_of_int intervals / 100)).
Proof.
  intros Hs. unfold Strategy.trail_stop_loss. run_m. unfold leg_of. rewrite Hs.
  repeat (case_match; simpl; auto); right; eauto.
Qed.

(** Stage 3 of lock-then-trail derives the stop from the entry price
    and the target it sets. *)
Lemma trail_exit_target_anchored pnl_pct trigger move target leg E leg' t out :
  Py.number (entry_price leg) = Ret E ->
  Strategy.trail_exit_target env pnl_pct trigger move target leg = (leg', t, out) ->
  (current_sl leg' = current_sl leg
   /\ (profit_exit_target leg' = profit_exit_target leg
       \/ Py.truthy (sl_order_id leg) = false))
  \/ exists tg, profit_exit_target leg' = Some tg
                /\ current_sl leg' = Some (E * (1 + tg / 100)).
Proof.
  intros HE. unfold Strategy.trail_exit_target. run_m. rewrite HE.
  repeat (case_match; simpl; auto);
    intros H; inversion H; subst; simpl; auto; right; eauto.
Qed.

(** The lock-then-trail mode either leaves the stop or derives it from
    the entry price and the target it leaves. *)
Lemma lock_then_trail_anchored current_price pnl_pct fl trigger move leg E :
  Py.number (entry_price leg) = Ret E ->
  let leg' := leg_of (Strategy.lock_then_trail fos env current_price pnl_pct
                        fl trigger move leg) in
  current_sl leg' = current_sl leg
  \/ exists t, profit_exit_target leg' = Some t
               /\ current_sl leg' = Some (E * (1 + t / 100)).
Proof.
  intros HE. unfold Strategy.lock_then_trail. run_m. unfold leg_of. rewrite ?HE.
  repeat (case_match; simpl; rewrite ?HE; simpl; auto);
    repeat match goal with
      | H : Strategy.exit_leg_position _ _ _ _ _ = (_, _, _) |- _ =>
          let K := fresh "K" in
          pose proof (exit_keeps_prices _ _ _ _ _ _ H) as K;
          cbn [current_sl profit_exit_target entry_price sl_order_id
               set_current_sl set_profit_exit_target set_last_trail_level
               set_first_lock_achieved] in K;
          destruct K as (? & ? & ?); clear H
      | H : Strategy.trail_exit_target _ _ _ _ _ ?x = (_, _, _) |- _ =>
          let K := fresh "K" in
          assert (Py.number (entry_price x) = Ret E) as K by exact HE;
          apply (trail_exit_target_anchored _ _ _ _ _ _ _ _ _ K) in H;
          cbn [current_sl profit_exit_target entry_price sl_order_id
               set_current_sl set_profit_exit_target set_last_trail_level
               set_first_lock_achieved] in H;
          clear K
      end;
    try match goal with
      | K : _ \/ _ |- _ => destruct K as [[K [K1 | K1]] | (t' & K1 & K2)]
      end;
    first [ left; congruence
          | right; eexists; split; [eassumption | congruence]
          | right; eexists; split; congruence
          | right; eexists; split; reflexivity ].
Qed.

End Engine.

(** The position manager's trailing stop is taken from the current
    market price. *)
Lemma pm_trailing_from_market env cfg lp price :
  let lp' := fst (fst (PositionManager.manage_position env cfg lp price)) in
  lp_current_sl lp' = lp_current_sl lp
  \/ exists pct, Py.number (OrderManager.dget cfg "sl_trail_pct") = Ret pct
                 /\ lp_current_sl lp' = price * (1 - pct / 100).
Proof.
  unfold PositionManager.manage_position, PositionManager.exit_position,
    mbind, result_bind.
  simpl. repeat (case_match; simpl; auto); right; eauto.
Qed.

Lemma position_pnl_pct lp price :
  PrimFloat.eqb (lp_entry_price lp) 0 = false ->
  exists pnl,
    Position.calculate_pnl lp price "BUY"
    = Ret (pnl, (price - lp_entry_price lp) / lp_entry_price lp * 100).
Proof.
  intros H. unfold Position.calculate_pnl, Py.truediv. simpl. rewrite H. simpl. eauto.
Qed.

(** C5, as the code has it.  The initial stop is entry * (1 - S/100);
    the stop a profit lock sets or trails is entry * (1 + target/100) for
    the target it leaves; the profit percentage is
    (price - entry) / entry * 100.  A trailing-stop update is not anchored
    to the entry price: it multiplies the stop the leg has by
    1 + move * intervals / 100, and the position manager's trailing stop
    is current price * (1 - pct/100). *)
Theorem stop_price_derivation :
  (forall fos env leg leg' t,
     Strategy.enter_leg_position fos env leg = (leg', t, Ret true) ->
     exists E, entry_price leg' = PyFloat E
               /\ current_sl leg' = Some (E * (1 - initial_sl_pct leg / 100)))
  /\ (forall fos env current_price pnl_pct first_lock trigger move leg E,
     Py.number (entry_price leg) = Ret E ->
     let leg' := leg_of (Strategy.lock_then_trail fos env current_price pnl_pct
                           first_lock trigger move leg) in
     current_sl leg' = current_sl leg
     \/ exists t, profit_exit_target leg' = Some t
                  /\ current_sl leg' = Some (E * (1 + t / 100)))
  /\ (forall fos leg price entry exitp,
     Py.to_float fos (entry_price leg) = Ret entry ->
     Py.to_float fos price = Ret exitp ->
     PrimFloat.eqb entry 0 = false ->
     exists pnl, Leg.calculate_pnl fos leg price
                 = Ret (pnl, (exitp - entry) / entry * 100))
  /\ (forall lp price,
     PrimFloat.eqb (lp_entry_price lp) 0 = false ->
     exists pnl, Position.calculate_pnl lp price "BUY"
                 = Ret (pnl, (price - lp_entry_price lp) / lp_entry_price lp * 100))
  /\ (forall fos env pnl_pct leg old_sl,
     current_sl leg = Some old_sl ->
     let leg' := leg_of (Strategy.trail_stop_loss fos env pnl_pct leg) in
     current_sl leg' = Some old_sl
     \/ exists move intervals,
          Strategy.safe_float fos (Strategy.get_param leg "sl_trail_move_pct" PyNone true)
            = Some move
          /\ current_sl leg' = Some (old_sl * (1 + move * Py.float_of_int intervals / 100)))
  /\ (forall env cfg lp price,
     let lp' := fst (fst (PositionManager.manage_position env cfg lp price)) in
     lp_current_sl lp' = lp_current_sl lp
     \/ exists pct, Py.number (OrderManager.dget cfg "sl_trail_pct") = Ret pct
                    /\ lp_current_sl lp' = price * (1 - pct / 100)).
Proof.
  split; [|split; [|split; [|split; [|split]]]].
  - intros fos env leg leg' t Hx.
    destruct (StopFacts.enter_success fos env leg leg' t Hx) as (E & HE & Hs & _).
    eauto.
  - intros. now apply lock_then_trail_anchored.
  - intros fos leg price entry exitp He Hp Hz.
    rewrite (PnlFacts.calculate_pnl_numbers fos leg price entry exitp He Hp), Hz. eauto.
  - intros. now apply position_pnl_pct.
  - intros. now apply trailing_stop_from_previous.
  - intros. apply pm_trailing_from_market.
Qed.

(** The theorem at the entry of a leg with a 7% stop at 100, and at a
    price of 105 for that leg. *)
Lemma stop_price_derivation_witness :
  let env := Example.broker true 100 100 in
  let leg := Example.entered_leg ∅ 7 100 100 in
  current_sl leg = Some (100 * (1 - 7 / 100))
  /\ exists pnl, Leg.calculate_pnl Example.no_parse leg (PyFloat 105)
                 = Ret (pnl, (105 - 100) / 100 * 100).
Proof.
  cbv zeta. split.
  - destruct (proj1 stop_price_derivation Example.no_parse (Example.broker true 100 100)
                (set_symbol (Some "NIFTY02DEC2524500CE") (Example.fresh_leg ∅ PyNone 7))
                (Example.entered_leg ∅ 7 100 100)
                (trace_of (Strategy.enter_leg_position Example.no_parse
                             (Example.broker true 100 100)
                             (set_symbol (Some "NIFTY02DEC2524500CE")
                                (Example.fresh_leg ∅ PyNone 7))))
                eq_refl) as (E & HE & Hs).
    assert (E = 100) as -> by (vm_compute in HE; congruence).
    exact Hs.
  - apply (proj1 (proj2 (proj2 stop_price_derivation)) Example.no_parse
             (Example.entered_leg ∅ 7 100 100) (PyFloat 105) 100 105);
      reflexivity.
Defined.

(** The claim as stated fails at the trailing stop.  Two legs entered at
    100 with the same trailing rule (1% for every 2% of profit) see the
    same price 102, one holding the stop 93 and the other the stop 95:
    the update gives 93 * 1.01 and 95 * 1.01, so the new stop follows
    the previous stop, and neither is 100 * (1 - 6/100).  The position
    manager's trailing stop at 5% follows the market: 110 * 0.95 at a
    price of 110, 120 * 0.95 at 120, for the same entry price. *)
Lemma trailing_stop_compounds :
  let env := Example.broker true 100 100 in
  let leg93 := Example.entered_leg Example.trail_cfg 7 100 100 in
  let leg95 := set_current_sl (Some 95) leg93 in
  let after leg := leg_of (Strategy.handle_price_update Example.no_parse env 102 leg) in
  let cfg : gmap string pyval := {["sl_trail_pct" := PyInt 5]} in
  let pm_after price :=
    fst (fst (PositionManager.manage_position Example.pm_env cfg Example.position price)) in
  entry_price leg93 = PyFloat 100 /\ entry_price leg95 = PyFloat 100
  /\ current_sl leg93 = Some 93
  /\ current_sl (after leg93) = Some (93 * (1 + 1 * 1 / 100))
  /\ current_sl (after leg95) = Some (95 * (1 + 1 * 1 / 100))
  /\ PrimFloat.eqb (93 * (1 + 1 * 1 / 100)) (95 * (1 + 1 * 1 / 100)) = false
  /\ PrimFloat.eqb (93 * (1 + 1 * 1 / 100)) (100 * (1 - (7 - 1) / 100)) = false
  /\ lp_entry_price Example.position = 100
  /\ lp_current_sl (pm_after 110) = 110 * (1 - 5 / 100)
  /\ lp_current_sl (pm_after 120) = 120 * (1 - 5 / 100)
  /\ PrimFloat.eqb (110 * (1 - 5 / 100)) (120 * (1 - 5 / 100)) = false.
Proof. vm_compute. repeat split; reflexivity. Qed.

End AnchorFacts.

(** ** Wait and trade: threshold and reset *)

Module WaitTradeFacts.
Local Open Scope float_scope.



Section Confirmation.
Variable fos : string -> option float.
Variable cfg : WtConfig.



End Confirmation.




End WaitTradeFacts.

(** ** Order gateway: the position guard and the stop-order answers *)

Module GatewayFacts.

(** The gateway in live mode: real orders, no simulation. *)
Definition live (cfg : OrderConfig) : Prop :=
  test_mode cfg = false /\ auto_place_orders cfg = true.

(** The position-book query has failed: the call raised, or its answer
    is no dict or has a status other than 'success'. *)
Definition query_failed (a : api_answer pb_response) : Prop :=
  match a with
  | Failed => True
  | Answered PbNotDict => True
  | Answered (PbDict status _) => OrderManager.eq_str status "success" = false
  end.

(** What [place_order] returns once [placeorder] has been called. *)
Definition placed_id (a : api_answer order_response) : pyval :=
  match a with
  | Answered (OrDict f) =>
      if OrderManager.eq_str (OrderManager.dget f "status") "success"
      then OrderManager.dget f "orderid" else PyNone
  | _ => PyNone
  end.

Section Guard.
Variable int_of_str : string -> option Z.

(** A row is no open position in [symbol]: it is for another symbol,
    or its quantity is zero. *)
Definition not_held (symbol : string) (p : gmap string pyval) : Prop :=
  exists q, OrderManager.pos_quantity int_of_str p = Ret q
            /\ (OrderManager.eq_str (OrderManager.pos_symbol p) symbol = false \/ q = 0%Z).

Lemma scan_absent symbol data :
  Forall (not_held symbol) data ->
  OrderManager.scan_positions int_of_str symbol data = Ret false.
Proof.
  induction 1 as [|p rest (q & Hq & Hp) _ IH]; [reflexivity|].
  simpl. rewrite Hq. simpl.
  destruct Hp as [-> | ->]; simpl; [exact IH|].
  rewrite andb_false_r. exact IH.
Qed.

Lemma verify_absent cfg c symbol data :
  live cfg ->
  positionbook c = Answered (PbDict (PyStr "success") data) ->
  Forall (not_held symbol) data ->
  OrderManager.verify_position_exists int_of_str cfg c symbol = (false, [CallPositionBook]).
Proof.
  intros [Ht Ha] Hb Hd. unfold OrderManager.verify_position_exists.
  rewrite Ht, Ha, Hb. simpl.
  destruct data as [|p rest]; [reflexivity|].
  now rewrite (scan_absent symbol (p :: rest) Hd).
Qed.

Lemma verify_fail_open cfg c symbol :
  live cfg -> query_failed (positionbook c) ->
  OrderManager.verify_position_exists int_of_str cfg c symbol = (true, [CallPositionBook]).
Proof.
  intros [Ht Ha] Hq. unfold OrderManager.verify_position_exists.
  rewrite Ht, Ha. simpl.
  destruct (positionbook c) as [[|status data]|]; simpl in *; try reflexivity.
  now rewrite Hq.
Qed.

(** C6.  In live mode an exit-side order is preceded by a look at the
    broker's position book.  When the query answers with success and no
    row is an open position in the symbol (no rows, other symbols, or a
    zero quantity), the exit order is skipped: [placeorder] is not
    called and [place_order] returns None.  When the query itself
    fails (it raises, answers with something that is no dict, or with a
    status other than success), the check returns True and the exit
    order is placed: [placeorder] is called and its answer decides the
    order id. *)
Theorem exit_guard_fail_open (cfg : OrderConfig) (c : Client) (symbol : string) (qty : Z) :
  live cfg ->
  (forall data,
     positionbook c = Answered (PbDict (PyStr "success") data) ->
     Forall (not_held symbol) data ->
     OrderManager.place_order int_of_str cfg c symbol qty (exit_action cfg)
     = (PyNone, [CallPositionBook]))
  /\ (query_failed (positionbook c) ->
      OrderManager.verify_position_exists int_of_str cfg c symbol
      = (true, [CallPositionBook])
      /\ OrderManager.place_order int_of_str cfg c symbol qty (exit_action cfg)
         = (placed_id (placeorder c symbol qty (exit_action cfg)),
            [CallPositionBook; CallPlaceOrder symbol qty (exit_action cfg)])).
Proof.
  intros Hl. split.
  - intros data Hb Hd. unfold OrderManager.place_order.
    rewrite String.eqb_refl, (verify_absent cfg c symbol data Hl Hb Hd). reflexivity.
  - intros Hq. split; [now apply verify_fail_open|].
    unfold OrderManager.place_order.
    rewrite String.eqb_refl, (verify_fail_open cfg c symbol Hl Hq).
    destruct Hl as [-> ->]. simpl. unfold placed_id.
    destruct (placeorder c symbol qty (exit_action cfg)) as [[|f]|]; try reflexivity.
    now destruct (OrderManager.eq_str _ _).
Qed.

End Guard.

(** The theorem at a position book without an open position of ours,
    and at a position book whose query raises. *)
Lemma exit_guard_fail_open_witness :
  OrderManager.place_order Example.no_int Example.live_cfg
    (Example.client_with (Answered (PbDict (PyStr "success") Example.book_without_us)) "")
    "NIFTY02DEC2524500CE" 75 "SELL"
  = (PyNone, [CallPositionBook])
  /\ OrderManager.place_order Example.no_int Example.live_cfg
       (Example.client_with Failed "") "NIFTY02DEC2524500CE" 75 "SELL"
     = (PyStr "ORD-7",
        [CallPositionBook; CallPlaceOrder "NIFTY02DEC2524500CE" 75 "SELL"]).
Proof.
  split.
  - apply (proj1 (exit_guard_fail_open Example.no_int Example.live_cfg
             (Example.client_with (Answered (PbDict (PyStr "success") Example.book_without_us)) "")
             "NIFTY02DEC2524500CE" 75 (conj eq_refl eq_refl))
             Example.book_without_us eq_refl).
    repeat constructor.
    + exists 75%Z. split; [reflexivity | left; reflexivity].
    + exists 0%Z. split; [reflexivity | right; reflexivity].
  - apply (proj2 (proj2 (exit_guard_fail_open Example.no_int Example.live_cfg
             (Example.client_with Failed "")
             "NIFTY02DEC2524500CE" 75 (conj eq_refl eq_refl)) I)).
Defined.

End GatewayFacts.

(** ** Stop-order answers that say the order is no longer pending *)

Module StopOrderFacts.

Lemma prefix_app (p s : string) : String.prefix p (p ++ s) = true.
Proof.
  induction p as [|a p IH]; simpl.
  - now destruct s.
  - destruct (ascii_dec a a); [exact IH | congruence].
Qed.

Lemma contains_prefix (p s : string) :
  String.prefix p s = true -> Py.contains p s = true.
Proof. intros H. destruct s; cbn [Py.contains]; now rewrite H. Qed.

(** [p in s] holds when [s] is [p] between two other strings. *)
Lemma contains_intro (p pre post : string) :
  Py.contains p (pre ++ p ++ post) = true.
Proof.
  induction pre as [|a pre IH].
  - change ("" ++ p ++ post)%string with (p ++ post)%string.
    apply contains_prefix, prefix_app.
  - change (String a pre ++ p ++ post)%string with (String a (pre ++ p ++ post)).
    cbn [Py.contains]. rewrite IH.
    now destruct (String.prefix p (String a (pre ++ p ++ post))).
Qed.

Lemma lower_app (s t : string) : Py.lower (s ++ t) = (Py.lower s ++ Py.lower t)%string.
Proof. induction s as [|a s IH]; simpl; [reflexivity | now rewrite IH]. Qed.

(** The message names one of the two phrases, as written. *)
Definition says_not_pending (m : string) : Prop :=
  (exists pre post, m = pre ++ "not a pending order" ++ post)
  \/ (exists pre post, m = pre ++ "already executed" ++ post).

Lemma already_executed_says (m : string) :
  says_not_pending m -> OrderManager.already_executed (PyStr m) = Ret true.
Proof.
  unfold OrderManager.already_executed.
  intros [(pre & post & ->) | (pre & post & ->)]; rewrite !lower_app.
  - change (Py.lower "not a pending order") with "not a pending order".
    now rewrite contains_intro.
  - change (Py.lower "already executed") with "already executed".
    rewrite contains_intro. now rewrite orb_true_r.
Qed.

(** The stop-order operations reach the broker: orders are placed for
    real, stop orders are switched on, and there is an order id. *)
Definition reaches_broker (cfg : OrderConfig) (order_id : pyval) : Prop :=
  auto_place_orders cfg = true /\ place_sl_order_enabled cfg = true
  /\ test_mode cfg = false /\ Py.truthy order_id = true.

(** The trigger and limit prices [modify_sl_order] sends. *)
Definition stop_prices (cfg : OrderConfig) (new_stop_price : float)
  : result (float * float) :=
  rounded_trigger ← OrderManager.round_to_tick_size new_stop_price;
  rounded_limit ← OrderManager.round_to_tick_size
                    (rounded_trigger - rounded_trigger * sl_limit_buffer_percent cfg)%float;
  _ ← Py.truediv (rounded_trigger * sl_limit_buffer_percent cfg)%float rounded_trigger;
  Ret (rounded_trigger, rounded_limit).

(** C7, as the code has it.  When the broker's answer to a cancel of the
    stop order carries a message with 'not a pending order' or 'already
    executed', the cancel returns True and logs at info level, whatever
    the status of the answer.  For a modify with such a message and a
    status other than success, the answer is logged at info level, not
    as an error, but the operation returns False, the value it also
    returns when a modification fails. *)
Theorem not_pending_answers (cfg : OrderConfig) (c : Client) (order_id : pyval)
  (f : gmap string pyval) (m : string) :
  reaches_broker cfg order_id ->
  f !! "message" = Some (PyStr m) ->
  says_not_pending m ->
  (cancelorder c order_id = Answered (OrDict f) ->
   OrderManager.cancel_sl_order cfg c order_id
   = (true, [CallCancelOrder order_id; Logged Info]))
  /\ (forall new_stop trigger limit,
      stop_prices cfg new_stop = Ret (trigger, limit) ->
      modifyorder c order_id trigger limit = Answered (OrDict f) ->
      OrderManager.eq_str (OrderManager.dget f "status") "success" = false ->
      OrderManager.modify_sl_order cfg c order_id new_stop
      = (false, [CallModifyOrder order_id trigger limit; Logged Info])).
Proof.
  intros (Ha & Hs & Ht & Ho) Hm Hsays.
  pose proof (already_executed_says m Hsays) as Hex.
  split.
  - intros Hc. unfold OrderManager.cancel_sl_order.
    rewrite Ha, Hs, Ht, Ho, Hc.
    unfold OrderManager.error_message. rewrite Hm.
    cbn -[OrderManager.already_executed]. rewrite Hex.
    now destruct (OrderManager.eq_str _ _).
  - intros new_stop trigger limit Hp Hc Hst.
    unfold OrderManager.modify_sl_order. rewrite Ha, Hs, Ht, Ho.
    unfold stop_prices in Hp. cbn [negb orb]. rewrite Hp, Hc, Hst.
    unfold OrderManager.error_message. rewrite Hm.
    cbn -[OrderManager.already_executed]. now rewrite Hex.
Qed.

(** The theorem at a live gateway whose broker answers every stop-order
    request with "Order is not a pending order": a cancel, and a modify
    to a stop of 93.93. *)
Lemma not_pending_answers_witness :
  let c := Example.client_with Failed "Order is not a pending order" in
  OrderManager.cancel_sl_order Example.live_cfg c (PyStr "SL-1")
  = (true, [CallCancelOrder (PyStr "SL-1"); Logged Info])
  /\ fst (OrderManager.modify_sl_order Example.live_cfg c (PyStr "SL-1") 93.93%float) = false.
Proof.
  pose proof (not_pending_answers Example.live_cfg
                (Example.client_with Failed "Order is not a pending order")
                (PyStr "SL-1")
                (<["status" := PyStr "error"]>
                   {["message" := PyStr "Order is not a pending order"]})
                "Order is not a pending order"
                (conj eq_refl (conj eq_refl (conj eq_refl eq_refl)))
                eq_refl
                (or_introl (ex_intro _ "Order is " (ex_intro _ "" eq_refl)))) as [Hc Hm].
  split.
  - exact (Hc eq_refl).
  - destruct (stop_prices Example.live_cfg 93.93%float) as [[trigger limit]|e] eqn:E;
      [|vm_compute in E; discriminate].
    now rewrite (Hm 93.93%float trigger limit E eq_refl eq_refl).
Defined.

(** The claim as stated fails for the modify: the broker answers a
    modify of a live stop order with the error "Order is not a pending
    order", and [modify_sl_order] returns False, as it does for the
    error "Insufficient margin"; only the cancel returns True. *)
Lemma modify_not_pending_returns_false :
  let not_pending := Example.client_with Failed "Order is not a pending order" in
  let rejected := Example.client_with Failed "Insufficient margin" in
  fst (OrderManager.modify_sl_order Example.live_cfg not_pending (PyStr "SL-1") 93.93%float) = false
  /\ fst (OrderManager.modify_sl_order Example.live_cfg rejected (PyStr "SL-1") 93.93%float) = false
  /\ fst (OrderManager.cancel_sl_order Example.live_cfg not_pending (PyStr "SL-1")) = true
  /\ fst (OrderManager.cancel_sl_order Example.live_cfg rejected (PyStr "SL-1")) = false.
Proof. vm_compute. repeat split; reflexivity. Qed.

End StopOrderFacts.

(** ** Quote fetch: bounded retry, then "unavailable" *)

Module QuoteFacts.
Local Open Scope float_scope.

(** An error answer whose message the fetch classifies as transient. *)
Definition transient_error (r : quote_response) : Prop :=
  exists fields data msg,
    r = QDict fields data /\ MarketData.is_error fields = true
    /\ OrderManager.error_message fields = PyStr msg
    /\ MarketData.is_transient msg = true.


(** The websocket path gives no price. *)
Definition no_ws_price (ws : option float) : Prop := Py.truthy_opt ws = false.

Lemma quote_attempt_transient n attempt r :
  transient_error r ->
  MarketData.quote_attempt n attempt r
  = if MarketData.last_attempt n attempt then Return None
    else Continue (MarketData.backoff attempt).
Proof.
  intros (f & d & msg & -> & He & Hm & Ht).
  unfold MarketData.quote_attempt, MarketData.on_error. rewrite He, Hm, Ht.
  now destruct (MarketData.last_attempt n attempt).
Qed.


Lemma underlying_attempt_transient fos n attempt r :
  transient_error r ->
  MarketData.underlying_attempt n fos attempt r
  = if MarketData.last_attempt n attempt then Return (Ret None)
    else Continue (MarketData.backoff attempt).
Proof.
  intros (f & d & msg & -> & He & Hm & Ht).
  unfold MarketData.underlying_attempt, MarketData.on_error. rewrite He, Hm, Ht.
  now destruct (MarketData.last_attempt n attempt).
Qed.


Lemma retry_loop_S {A : Type} (body : nat -> quote_response -> turn A)
  (quotes : nat -> quote_response) (dflt : A) (attempt remaining : nat) :
  MarketData.retry_loop body quotes dflt attempt (S remaining)
  = match body attempt (quotes attempt) with
    | Return v => mkFetch v [] 1
    | Continue pause =>
        let f := MarketData.retry_loop body quotes dflt (S attempt) remaining in
        mkFetch (fetched f) (pause :: pauses f) (S (calls f))
    end.
Proof. reflexivity. Qed.


Lemma get_quote_rest ws quotes :
  no_ws_price ws ->
  MarketData.get_quote ws quotes
  = let f := MarketData.retry_loop (MarketData.quote_attempt 3) quotes None 0 3 in
    mkFetch (Ret (fetched f)) (pauses f) (calls f).
Proof.
  unfold no_ws_price, MarketData.get_quote, Py.truthy_opt.
  destruct ws as [p|]; [|reflexivity]. now intros ->.
Qed.

Lemma get_underlying_rest fos n ws quotes :
  no_ws_price ws ->
  MarketData.get_underlying_price fos n ws quotes
  = let f := MarketData.retry_loop (MarketData.underlying_attempt n fos)
               quotes (Ret None) 0 n in
    mkFetch (match fetched f with Ret v => Ret v | Raise _ => Ret None end)
            (pauses f) (calls f).
Proof.
  unfold no_ws_price, MarketData.get_underlying_price, Py.truthy_opt.
  destruct ws as [p|]; [|reflexivity]. now intros ->.
Qed.




End QuoteFacts.

(** ** Leaving the WAITING state *)

Module WaitingFacts.

(** The exit time, or the strategy end time of the day when the leg has
    none, is reached. *)
Definition exit_time_passed (end_hour end_minute : Z) (leg : LegState)
  (now : datetime) : bool :=
  match exit_time leg with
  | None => Clock.ge now (Clock.replace_time now end_hour end_minute 0)
  | Some t => Clock.ge now t
  end.

(** After the wait the leg is skipped when its exit time has passed. *)
Lemma skipped_after_exit_time end_hour end_minute leg now now' :
  exit_time_passed end_hour end_minute leg now = true ->
  Waiting.leave_waiting end_hour end_minute leg now now' = Waiting.SkipExitTimePassed.
Proof.
  unfold exit_time_passed, Waiting.leave_waiting. now intros ->.
Qed.

(** C9, on the code.  After the wait a leg whose exit time (or the
    strategy end time) has passed is skipped.  The market-hours check
    never skips a leg: [is_market_open] returns True before its test of
    the weekday and of the hours 09:15 to 15:30, so a leg whose exit time
    has not passed goes on to the breakout check at any time; on
    Saturday at 10:00 and on a Tuesday at 08:00 the market-hours test
    says closed and the leg goes on. *)
Theorem waiting_ignores_market_hours :
  (forall end_hour end_minute leg now now',
     exit_time_passed end_hour end_minute leg now = true ->
     Waiting.leave_waiting end_hour end_minute leg now now' = Waiting.SkipExitTimePassed)
  /\ (forall end_hour end_minute leg now now',
     exit_time_passed end_hour end_minute leg now = false ->
     Waiting.leave_waiting end_hour end_minute leg now now' = Waiting.CheckBreakout)
  /\ (let leg := Example.fresh_leg ∅ PyNone 7%float in
      Waiting.market_hours_test (Example.saturday 10 0) = false
      /\ Waiting.leave_waiting 15 0 leg (Example.saturday 10 0) (Example.saturday 10 0)
         = Waiting.CheckBreakout
      /\ Waiting.market_hours_test (Example.tuesday 8 0) = false
      /\ Waiting.leave_waiting 15 0 leg (Example.tuesday 8 0) (Example.tuesday 8 0)
         = Waiting.CheckBreakout
      /\ Waiting.market_hours_test (Example.tuesday 10 0) = true).
Proof.
  split; [|split].
  - intros. now apply skipped_after_exit_time.
  - intros end_hour end_minute leg now now' H.
    unfold exit_time_passed in H. unfold Waiting.leave_waiting. now rewrite H.
  - vm_compute. repeat split; reflexivity.
Qed.

(** The theorem at a leg without an exit time, at 15:05 and at 10:00 of
    a Tuesday, with the strategy ending at 15:00. *)
Lemma waiting_ignores_market_hours_witness :
  let leg := Example.fresh_leg ∅ PyNone 7%float in
  Waiting.leave_waiting 15 0 leg (Example.tuesday 15 5) (Example.tuesday 15 5)
  = Waiting.SkipExitTimePassed
  /\ Waiting.leave_waiting 15 0 leg (Example.tuesday 10 0) (Example.tuesday 10 0)
     = Waiting.CheckBreakout.
Proof.
  split.
  - apply (proj1 waiting_ignores_market_hours 15%Z 0%Z). reflexivity.
  - apply (proj1 (proj2 waiting_ignores_market_hours) 15%Z 0%Z). reflexivity.
Defined.

End WaitingFacts.

(** ** The risk manager of a leg *)

Module EngineFacts.
Local Open Scope float_scope.

(** The leg's own configuration leaves a parameter unset: the key is
    absent or holds a null. *)
Definition own_unset (leg : LegState) (key : string) : Prop :=
  Strategy.get_param leg key PyNone false = PyNone.

Section Engine.
Variable fos : string -> option float.
Variable env : Env.

(** The broker reports the leg's stop order as complete, filled or
    executed. *)
Definition broker_filled (leg : LegState) : bool :=
  Py.truthy (sl_order_id leg)
  && match status ← env_check_order_status env (sl_order_id leg);
           Strategy.is_filled_status status with
     | Ret b => b
     | Raise _ => false
     end.

Lemma safe_float_none : Strategy.safe_float fos PyNone = None.
Proof. reflexivity. Qed.

(** X1.  Profit rules are not inherited.  A leg whose own configuration
    sets none of [auto_close_profit_pct], [first_lock_pct] and
    [lock_profit_pct] (the key is absent or holds a null) and whose
    trailing stop is off is left as it is by the risk manager, and
    nothing is asked of the broker, whatever the strategy-level defaults
    say for the profit rules and whatever the profit is. *)
Theorem profit_rules_not_inherited leg current_price pnl_pct :
  Strategy.get_param leg "sl_trail_trigger_pct" PyNone true = PyNone ->
  own_unset leg "auto_close_profit_pct" ->
  own_unset leg "first_lock_pct" ->
  own_unset leg "lock_profit_pct" ->
  Strategy.manage_position_unified fos env current_price pnl_pct leg = (leg, [], Ret tt).
Proof.
  unfold own_unset. intros Ht Ha Hf Hl.
  unfold Strategy.manage_position_unified, Strategy.trail_stop_loss,
    Strategy.profit_management.
  unfold mbind, M_bind, mret, M_ret, get.
  cbn -[Strategy.get_param Strategy.safe_float].
  rewrite Ht, safe_float_none. cbn -[Strategy.get_param Strategy.safe_float].
  rewrite Ha, safe_float_none. cbn -[Strategy.get_param Strategy.safe_float].
  rewrite Hf, Hl, safe_float_none.
  repeat (case_match; cbn -[Strategy.get_param Strategy.safe_float]); reflexivity.
Qed.

(** The trailing-stop step, once the broker has accepted the new stop. *)
Lemma trail_modify_raises leg pnl_pct id p :
  In (ModifySL id p) (trace_of (Strategy.trail_stop_loss fos env pnl_pct leg)) ->
  env_modify_sl_order env id p = true ->
  Strategy.trail_stop_loss fos env pnl_pct leg
  = (set_last_sl_trail_level pnl_pct (set_current_sl (Some p) leg),
     [ModifySL id p], Raise NameError).
Proof.
  unfold Strategy.trail_stop_loss. run_m. unfold trace_of.
  repeat (case_match; simpl; try tauto).
  all: intros Hin Hm;
    repeat (destruct Hin as [Hin | Hin]; try discriminate); try contradiction.
  all: inversion Hin; subst; try reflexivity; congruence.
Qed.

(** X2.  A trailing stop the broker accepts ends in NameError.  When the
    trailing-stop step sends a modification of the stop order and the
    broker accepts it, the log line that follows reads the undefined name
    [sl_order_id]: the risk manager raises NameError.  The leg keeps the
    new stop and trail level, the modification is the only request made,
    the trailing is not written to the audit store, and the auto-close
    and profit rules are not looked at for this price. *)
Theorem accepted_trailing_stop_raises leg current_price pnl_pct id p :
  In (ModifySL id p) (trace_of (Strategy.trail_stop_loss fos env pnl_pct leg)) ->
  env_modify_sl_order env id p = true ->
  Strategy.manage_position_unified fos env current_price pnl_pct leg
  = (set_last_sl_trail_level pnl_pct (set_current_sl (Some p) leg),
     [ModifySL id p], Raise NameError).
Proof.
  intros Hin Hm. unfold Strategy.manage_position_unified, mbind, M_bind.
  now rewrite (trail_modify_raises leg pnl_pct id p Hin Hm).
Qed.

(** The stop-breach branch on an open leg. *)
Lemma stop_breached_shape leg p :
  is_active leg = true -> exiting leg = false ->
  let x := Strategy.stop_breached fos env p leg in
  outcome_of x = Ret tt
  /\ is_active (leg_of x) = false
  /\ exit_price (leg_of x) = PyFloat p
  /\ exit_reason (leg_of x)
     = Some (if broker_filled leg then SL_EXECUTED_ON_BROKER else SL_BREACH)
  /\ Attempts.count Monitor.is_order (trace_of x)
     = (if broker_filled leg then 0 else 1)%nat
  /\ current_sl (leg_of x) = current_sl leg
  /\ config (leg_of x) = config leg
  /\ profit_exit_target (leg_of x) = profit_exit_target leg.
Proof.
  intros Ha He. cbv zeta.
  destruct (ExitFacts.calculate_pnl_returns fos leg (PyFloat p)) as [pnl Hpnl].
  unfold Strategy.stop_breached, Strategy.exit_leg_position, broker_filled.
  run_m. unfold leg_of, trace_of, outcome_of.
  destruct (Py.truthy (sl_order_id leg)) eqn:Hs; simpl.
  - destruct (env_check_order_status env (sl_order_id leg)) as [status|e]; simpl.
    + destruct (Strategy.is_filled_status status) as [[|]|e]; simpl;
        rewrite ?Ha, ?He, ?Hpnl; simpl; rewrite ?Hs; simpl;
        destruct (Py.truthy (profit_target_order_id leg)), (env_persistence env);
        simpl; rewrite ?Hpnl; simpl; try on_summary; repeat split; reflexivity.
    + rewrite ?Ha, ?He, ?Hpnl; simpl; rewrite ?Hs; simpl;
        destruct (Py.truthy (profit_target_order_id leg)), (env_persistence env);
        simpl; try on_summary; repeat split; reflexivity.
  - rewrite ?Ha, ?He, ?Hpnl; simpl; rewrite ?Hs; simpl;
      destruct (Py.truthy (profit_target_order_id leg)), (env_persistence env);
      simpl; try on_summary; repeat split; reflexivity.
Qed.

(** At or below the stop, the update of an open leg is the stop-breach
    branch, run on the leg with its peak brought up to date. *)
Lemma handle_at_or_below_stop leg stop highest p :
  is_active leg = true -> exiting leg = false ->
  current_sl leg = Some stop -> highest_price leg = Some highest ->
  Py.truthy_float p = true -> PrimFloat.leb p stop = true ->
  Strategy.handle_price_update fos env p leg
  = Strategy.stop_breached fos env p
      (if Py.gt p highest then set_highest_price (Some p) leg else leg).
Proof.
  intros Ha He Hs Hh Hp Hle.
  destruct (ExitFacts.calculate_pnl_returns fos leg (PyFloat p)) as [pnl Hpnl].
  unfold Strategy.handle_price_update. run_m.
  rewrite Ha, He, Hp, Hs, Hh. simpl.
  destruct (Py.gt p highest); simpl; rewrite Hpnl; simpl; rewrite Hle;
    match goal with
    | |- context [Strategy.stop_breached fos env p ?s] =>
        destruct (Strategy.stop_breached fos env p s) as [[l t] out]
    end; reflexivity.
Qed.

(** X3.  The stop comes before every profit rule.  On an open leg, any
    price that is a number other than zero and at or below the stop
    closes the leg at that price, and the update returns normally.  The
    leg is closed as SL_EXECUTED_ON_BROKER without an order when the
    broker reports the stop order complete, filled or executed, and as
    SL_BREACH with one order otherwise.  The stop, the profit target and
    the configuration are as before: no trailing or profit rule has run. *)
Theorem breach_precedes_rules leg stop highest p :
  is_active leg = true -> exiting leg = false ->
  current_sl leg = Some stop -> highest_price leg = Some highest ->
  Py.truthy_float p = true -> PrimFloat.leb p stop = true ->
  let x := Strategy.handle_price_update fos env p leg in
  outcome_of x = Ret tt
  /\ is_active (leg_of x) = false
  /\ exit_price (leg_of x) = PyFloat p
  /\ exit_reason (leg_of x)
     = Some (if broker_filled leg then SL_EXECUTED_ON_BROKER else SL_BREACH)
  /\ Attempts.count Monitor.is_order (trace_of x)
     = (if broker_filled leg then 0 else 1)%nat
  /\ current_sl (leg_of x) = Some stop
  /\ config (leg_of x) = config leg
  /\ profit_exit_target (leg_of x) = profit_exit_target leg.
Proof.
  intros Ha He Hs Hh Hp Hle. cbv zeta.
  rewrite (handle_at_or_below_stop leg stop highest p Ha He Hs Hh Hp Hle).
  rewrite <- Hs.
  destruct (Py.gt p highest).
  - exact (stop_breached_shape (set_highest_price (Some p) leg) p Ha He).
  - exact (stop_breached_shape leg p Ha He).
Qed.

(** X5.  The trailing-stop step never lowers the stop.  It leaves the
    stop as it is, or replaces it by a strictly higher one, and the
    latter only while the profit is positive. *)
Theorem trailing_never_lowers_stop leg pnl_pct :
  let x := Strategy.trail_stop_loss fos env pnl_pct leg in
  current_sl (leg_of x) = current_sl leg
  \/ exists old new,
       current_sl leg = Some old /\ current_sl (leg_of x) = Some new
       /\ Py.gt new old = true /\ Py.gt pnl_pct 0 = true.
Proof.
  cbv zeta. unfold Strategy.trail_stop_loss. run_m. unfold leg_of.
  repeat (case_match; simpl; auto).
  all: right; do 2 eexists; repeat split; try eassumption.
  all: repeat match goal with
         | H : _ && _ = true |- _ => apply andb_prop in H; destruct H
         end; assumption.
Qed.

End Engine.

(** The opted-out leg at 10% profit, under strategy defaults that lock
    at 2% and close at 5%. *)
Lemma profit_rules_not_inherited_witness :
  strategy_defaults Example2.opted_out_leg !! "auto_close_profit_pct" = Some (PyInt 5)
  /\ Strategy.manage_position_unified Example.no_parse (Example.broker true 100 100)
       110 10 Example2.opted_out_leg
     = (Example2.opted_out_leg, [], Ret tt).
Proof.
  split; [reflexivity|].
  apply (profit_rules_not_inherited Example.no_parse (Example.broker true 100 100)
           Example2.opted_out_leg 110 10); reflexivity.
Defined.

(** A leg entered at 100 with the stop at 93 and a trailing stop of 1%
    for every 2% of profit, at 4% profit: the stop goes up by 2%. *)
Lemma accepted_trailing_stop_raises_witness :
  outcome_of (Strategy.manage_position_unified Example.no_parse Example2.accepting_broker
                104 4 (Example.entered_leg Example.trail_cfg 7 100 100))
  = Raise NameError.
Proof.
  rewrite (accepted_trailing_stop_raises Example.no_parse Example2.accepting_broker
             (Example.entered_leg Example.trail_cfg 7 100 100) 104 4
             (PyStr "SL-1") (93 * (1 + 1 * 2 / 100))).
  - reflexivity.
  - vm_compute. left. reflexivity.
  - reflexivity.
Defined.

(** A leg entered at 100 with the stop at 93 and a profit lock, at a
    price of 90.  The broker still shows the stop order as open. *)
Lemma breach_precedes_rules_witness :
  let x := Strategy.handle_price_update Example.no_parse (Example.broker true 100 100) 90
             (Example.entered_leg Example.lock_trail_cfg 7 100 100) in
  is_active (leg_of x) = false
  /\ exit_reason (leg_of x) = Some SL_BREACH
  /\ Attempts.count Monitor.is_order (trace_of x) = 1%nat.
Proof.
  cbv zeta.
  destruct (breach_precedes_rules Example.no_parse (Example.broker true 100 100)
              (Example.entered_leg Example.lock_trail_cfg 7 100 100) 93 100 90
              eq_refl eq_refl eq_refl eq_refl eq_refl eq_refl)
    as (_ & Ha & _ & Hr & Hc & _).
  repeat split; assumption.
Defined.

End EngineFacts.

(** ** One closing order per leg *)

Module OnceFacts.
Local Open Scope float_scope.

Lemma count_app f (a b : list event) :
  Attempts.count f (a ++ b)%list = (Attempts.count f a + Attempts.count f b)%nat.
Proof. induction a as [|e a IH]; simpl; [reflexivity | rewrite IH; lia]. Qed.

Section Quiet.
(** The events counted: closing orders, or exit records. *)
Variable f : event -> bool.

(** Code that emits no counted event and leaves the two flags of the
    leg, [is_active] and [_exiting], as they are. *)
Definition quiet {A : Type} (m : M A) : Prop :=
  forall s, Attempts.count f (trace_of (m s)) = 0%nat
            /\ is_active (leg_of (m s)) = is_active s
            /\ exiting (leg_of (m s)) = exiting s.

(** Code that does the same, or emits at most one counted event and
    leaves the leg closing or closed. *)
Definition at_most_once {A : Type} (m : M A) : Prop :=
  forall s,
    (Attempts.count f (trace_of (m s)) = 0%nat
     /\ is_active (leg_of (m s)) = is_active s
     /\ exiting (leg_of (m s)) = exiting s)
    \/ ((Attempts.count f (trace_of (m s)) <= 1)%nat /\ ExitFacts.closed (leg_of (m s))).

Lemma quiet_once {A : Type} (m : M A) : quiet m -> at_most_once m.
Proof. intros H s. left. apply H. Qed.

Lemma quiet_ret {A : Type} (a : A) : quiet (mret a).
Proof. intros s. repeat split. Qed.

Lemma quiet_get : quiet get.
Proof. intros s. repeat split. Qed.

Lemma quiet_lift {A : Type} (r : result A) : quiet (lift r).
Proof. intros s. repeat split. Qed.

Lemma quiet_raise {A : Type} (e : exn) : quiet (@raise A e).
Proof. intros s. repeat split. Qed.

Lemma quiet_emit (e : event) : f e = false -> quiet (emit e).
Proof. intros H s. unfold emit, trace_of, leg_of. simpl. rewrite H. repeat split. Qed.

Lemma quiet_modify (g : LegState -> LegState) :
  (forall s, is_active (g s) = is_active s /\ exiting (g s) = exiting s) ->
  quiet (modify g).
Proof. intros H s. unfold modify, trace_of, leg_of. simpl. destruct (H s). repeat split; assumption. Qed.

Lemma quiet_bind {A B : Type} (m : M A) (k : A -> M B) :
  quiet m -> (forall a, quiet (k a)) -> quiet (mbind k m).
Proof.
  intros Hm Hk s. specialize (Hm s). unfold mbind, M_bind.
  unfold trace_of, leg_of in *.
  destruct (m s) as [[s1 t1] [a|e]]; simpl in *; [|exact Hm].
  specialize (Hk a s1). unfold trace_of, leg_of in *.
  destruct (k a s1) as [[s2 t2] r]; simpl in *.
  rewrite count_app. destruct Hm as (-> & <- & <-), Hk as (-> & -> & ->). repeat split.
Qed.

Lemma once_bind {A B : Type} (m : M A) (k : A -> M B) :
  quiet m -> (forall a, at_most_once (k a)) -> at_most_once (mbind k m).
Proof.
  intros Hm Hk s. specialize (Hm s). unfold mbind, M_bind.
  unfold trace_of, leg_of in *.
  destruct (m s) as [[s1 t1] [a|e]]; simpl in *; [|left; exact Hm].
  specialize (Hk a s1). unfold trace_of, leg_of in *.
  destruct (k a s1) as [[s2 t2] r]; simpl in *.
  rewrite count_app. destruct Hm as (-> & <- & <-). exact Hk.
Qed.

Variable fos : string -> option float.
Variable env : Env.

(** [f] picks out closing orders or exit records, and the exit routine
    emits at most one such event. *)
Hypothesis f_only : forall e, f e = true ->
  match e with
  | PlaceOrder _ _ _ | RecordLegExit _ _ _ _ _ => True
  | _ => False
  end.
Hypothesis f_exit : forall p r s,
  (Attempts.count f (trace_of (Strategy.exit_leg_position fos env p r s)) <= 1)%nat.

Ltac f_false :=
  match goal with
  | |- f ?e = false =>
      let E := fresh in
      destruct (f e) eqn:E; [apply f_only in E; contradiction | reflexivity]
  end.

Ltac quiet_step :=
  lazymatch goal with
  | |- quiet (mbind _ _) => apply quiet_bind; [|intros ?]
  | |- quiet (mret _) => apply quiet_ret
  | |- quiet (modify _) => apply quiet_modify; intros ?; split; reflexivity
  | |- quiet (emit _) => apply quiet_emit; f_false
  | |- quiet (lift _) => apply quiet_lift
  | |- quiet (raise _) => apply quiet_raise
  | |- quiet get => apply quiet_get
  | |- quiet (match ?x with _ => _ end) => destruct x
  | |- quiet (let _ := _ in _) => cbv zeta
  end.

Lemma quiet_trail_stop_loss pnl_pct : quiet (Strategy.trail_stop_loss fos env pnl_pct).
Proof. unfold Strategy.trail_stop_loss. repeat quiet_step. Qed.

Lemma quiet_trail_exit_target pnl_pct a b target :
  quiet (Strategy.trail_exit_target env pnl_pct a b target).
Proof. unfold Strategy.trail_exit_target. repeat quiet_step. Qed.

Lemma once_exit p r : at_most_once (Strategy.exit_leg_position fos env p r).
Proof.
  intros s. destruct (ExitFacts.closed_or_open s) as [H | [Ha He]].
  - rewrite (ExitFacts.exit_closed fos env p r s H). left. repeat split.
  - right. split; [apply f_exit|].
    destruct (ExitFacts.exit_open fos env p r s Ha He) as (leg' & t & Hx & Hi & Hc & _).
    rewrite Hx. now left.
Qed.

Ltac once_step :=
  lazymatch goal with
  | |- at_most_once (mbind _ _) => apply once_bind; [repeat quiet_step | intros ?]
  | |- at_most_once (Strategy.exit_leg_position _ _ _ _) => apply once_exit
  | |- at_most_once (match ?x with _ => _ end) => destruct x
  | |- at_most_once (let _ := _ in _) => cbv zeta
  | |- at_most_once _ => apply quiet_once; repeat quiet_step
  end.

Lemma once_lock_then_trail price pnl_pct a b c :
  at_most_once (Strategy.lock_then_trail fos env price pnl_pct a b c).
Proof.
  unfold Strategy.lock_then_trail. repeat once_step.
  all: apply quiet_trail_exit_target.
Qed.

Lemma once_progressive_lock price pnl_pct a b c :
  at_most_once (Strategy.progressive_lock fos env price pnl_pct a b c).
Proof. unfold Strategy.progressive_lock. repeat once_step. Qed.

Lemma once_profit_management price pnl_pct :
  at_most_once (Strategy.profit_management fos env price pnl_pct).
Proof.
  unfold Strategy.profit_management. apply once_bind; [apply quiet_get | intros leg].
  cbv zeta.
  repeat first
    [ apply once_lock_then_trail
    | apply once_progressive_lock
    | once_step ].
Qed.

Lemma once_manage price pnl_pct :
  at_most_once (Strategy.manage_position_unified fos env price pnl_pct).
Proof.
  unfold Strategy.manage_position_unified.
  apply once_bind; [apply quiet_trail_stop_loss | intros _].
  apply once_bind; [apply quiet_get | intros leg].
  repeat first [ apply once_profit_management | once_step ].
Qed.

Lemma once_stop_breached price :
  at_most_once (Strategy.stop_breached fos env price).
Proof.
  unfold Strategy.stop_breached.
  apply once_bind; [apply quiet_get | intros leg].
  apply once_bind; [repeat quiet_step | intros filled].
  destruct filled; [|apply once_exit].
  intros s. right.
  destruct (ExitFacts.calculate_pnl_returns fos leg (PyFloat price)) as [pnl Hpnl].
  run_m. unfold trace_of, leg_of, ExitFacts.closed.
  destruct (env_persistence env); simpl; [rewrite Hpnl; simpl|].
  - split; [destruct (f _); simpl; lia | now left].
  - split; [simpl; lia | now left].
Qed.

Lemma once_handle price :
  at_most_once (Strategy.handle_price_update fos env price).
Proof.
  unfold Strategy.handle_price_update.
  apply once_bind; [apply quiet_get | intros leg].
  repeat first [ apply once_stop_breached | apply once_manage | once_step ].
Qed.

Lemma once_serve_one q : at_most_once (Monitor.serve_one fos env q).
Proof. destruct q; [apply once_handle | apply once_exit]. Qed.

Lemma serve_one_closed q s :
  ExitFacts.closed s -> Monitor.serve_one fos env q s = (s, [], Ret tt).
Proof.
  intros H. destruct q as [p | p r]; simpl.
  - unfold Strategy.handle_price_update. run_m.
    destruct H as [H | H]; rewrite H; simpl.
    + now destruct (negb (is_active s) || negb (Py.truthy_float p)).
    + reflexivity.
  - now apply ExitFacts.exit_closed.
Qed.

Lemma serve_closed reqs s :
  ExitFacts.closed s -> Monitor.serve fos env reqs s = (s, []).
Proof.
  intros H. induction reqs as [|q rest IH]; [reflexivity|].
  simpl. rewrite (serve_one_closed q s H). unfold leg_of, trace_of. simpl.
  now rewrite IH.
Qed.

Lemma serve_at_most_once reqs s :
  (Attempts.count f (snd (Monitor.serve fos env reqs s)) <= 1)%nat.
Proof.
  revert s. induction reqs as [|q rest IH]; intros s; [simpl; lia|].
  cbn [Monitor.serve snd]. rewrite count_app.
  destruct (once_serve_one q s) as [(H0 & _) | (H1 & Hc)].
  - rewrite H0. apply IH.
  - rewrite (serve_closed rest _ Hc). simpl. lia.
Qed.

End Quiet.

(** The exit routine sends at most one order and writes at most one
    exit record. *)
Lemma exit_one_order fos env p r s :
  (Attempts.count Monitor.is_order
     (trace_of (Strategy.exit_leg_position fos env p r s)) <= 1)%nat.
Proof.
  destruct (ExitFacts.calculate_pnl_returns fos s p) as [pnl Hpnl].
  unfold Strategy.exit_leg_position. run_m. unfold trace_of.
  destruct (exiting s || negb (is_active s)); simpl; [lia|].
  rewrite Hpnl. simpl.
  destruct (Py.truthy (sl_order_id s)), (Py.truthy (profit_target_order_id s)),
    (env_persistence env); simpl; on_summary; lia.
Qed.

Lemma exit_one_record fos env p r s :
  (Attempts.count Attempts.is_pnl_record
     (trace_of (Strategy.exit_leg_position fos env p r s)) <= 1)%nat.
Proof.
  destruct (ExitFacts.calculate_pnl_returns fos s p) as [pnl Hpnl].
  unfold Strategy.exit_leg_position. run_m. unfold trace_of.
  destruct (exiting s || negb (is_active s)); simpl; [lia|].
  rewrite Hpnl. simpl.
  destruct (Py.truthy (sl_order_id s)), (Py.truthy (profit_target_order_id s)),
    (env_persistence env); simpl; on_summary; lia.
Qed.

(** X4.  One closing order per leg.  However many price updates and
    exit requests are served on a leg, one after another and in any
    order, and whatever they raise, the engine sends at most one order
    and writes at most one exit record to the audit store; and once the
    leg is closing or closed, every further call leaves it as it is and
    asks nothing of the broker or the audit store. *)
Theorem one_closing_order fos env (reqs : list request) (leg : LegState) :
  let x := Monitor.serve fos env reqs leg in
  (Attempts.count Monitor.is_order (snd x) <= 1)%nat
  /\ (Attempts.count Attempts.is_pnl_record (snd x) <= 1)%nat
  /\ (ExitFacts.closed leg -> x = (leg, [])).
Proof.
  cbv zeta. split; [|split].
  - apply serve_at_most_once.
    + intros e He. destruct e; simpl in He; try discriminate; exact I.
    + apply exit_one_order.
  - apply serve_at_most_once.
    + intros e He. destruct e; simpl in He; try discriminate; exact I.
    + apply exit_one_record.
  - apply serve_closed.
Qed.

(** A leg entered at 100 with the stop at 93: a price at the stop, the
    exit-time request, and two more prices; then a late price on the
    leg they leave. *)
Lemma one_closing_order_witness :
  let env := Example.broker true 100 100 in
  let x := Monitor.serve Example.no_parse env
             [PriceUpdate 93; ExitRequest (PyFloat 95) TIME_EXIT; PriceUpdate 120; PriceUpdate 80]
             (Example.entered_leg ∅ 7 100 100) in
  (Attempts.count Monitor.is_order (snd x) <= 1)%nat
  /\ (Attempts.count Attempts.is_pnl_record (snd x) <= 1)%nat
  /\ Monitor.serve Example.no_parse env [PriceUpdate 120] (fst x) = (fst x, []).
Proof.
  cbv zeta.
  destruct (one_closing_order Example.no_parse (Example.broker true 100 100)
              [PriceUpdate 93; ExitRequest (PyFloat 95) TIME_EXIT; PriceUpdate 120; PriceUpdate 80]
              (Example.entered_leg ∅ 7 100 100)) as (H1 & H2 & _).
  split; [exact H1|]. split; [exact H2|].
  apply (one_closing_order Example.no_parse (Example.broker true 100 100)
           [PriceUpdate 120]).
  right. reflexivity.
Defined.

End OnceFacts.

(** ** Order status *)

Module OrderBookFacts.
Local Open Scope float_scope.

(** The order is simulated: the manager runs in test mode, or the id
    carries the prefix of a simulated order. *)
Definition simulated_order (cfg : OrderConfig) (order_id : pyval) : Prop :=
  test_mode cfg = true
  \/ exists id, order_id = PyStr id
       /\ (String.prefix "TEST_" id = true \/ String.prefix "SIM_" id = true).

Lemma simulated_not_empty id : bool_decide (OrderBook.simulated id = ∅) = false.
Proof.
  apply bool_decide_eq_false. unfold OrderBook.simulated.
  apply insert_non_empty.
Qed.

Lemma check_simulated id :
  OrderManager.py_or
    (OrderManager.py_or
       (OrderManager.py_or (OrderManager.dget (OrderBook.simulated id) "order_status")
                           (OrderManager.dget (OrderBook.simulated id) "orderstatus"))
       (OrderManager.dget (OrderBook.simulated id) "status"))
    (OrderManager.dget (OrderBook.simulated id) "Status") = PyStr "COMPLETE".
Proof.
  unfold OrderManager.dget, OrderBook.simulated.
  rewrite !lookup_insert_ne by done. rewrite lookup_singleton_ne by done.
  rewrite lookup_insert. reflexivity.
Qed.

Lemma get_simulated cfg ob id :
  simulated_order cfg id ->
  OrderBook.get_order_status cfg ob id = (Some (OrderBook.simulated id), []).
Proof.
  unfold OrderBook.get_order_status.
  intros [-> | (s & -> & H)]; [reflexivity|].
  destruct (test_mode cfg); [reflexivity|].
  now destruct H as [-> | ->]; rewrite ?orb_true_r.
Qed.

Lemma check_simulated_complete cfg ob id :
  simulated_order cfg id ->
  OrderBook.check_order_status cfg ob id = (PyStr "COMPLETE", []).
Proof.
  intros H. unfold OrderBook.check_order_status.
  now rewrite (get_simulated cfg ob id H), simulated_not_empty, check_simulated.
Qed.

Section Wired.
Variable fos : string -> option float.
Variable env : Env.

(** X6.  Simulated orders read as filled.  In test mode, and for every
    order id that starts with TEST_ or SIM_, the status check answers
    COMPLETE without asking the broker.  An engine that gets this answer
    for the stop order of an open leg therefore closes the leg on a stop
    breach as SL_EXECUTED_ON_BROKER and sends no closing order, not even
    a simulated one. *)
Theorem simulated_order_reads_filled cfg ob leg stop highest p :
  simulated_order cfg (sl_order_id leg) ->
  Py.truthy (sl_order_id leg) = true ->
  env_check_order_status env (sl_order_id leg)
    = Ret (fst (OrderBook.check_order_status cfg ob (sl_order_id leg))) ->
  is_active leg = true -> exiting leg = false ->
  current_sl leg = Some stop -> highest_price leg = Some highest ->
  Py.truthy_float p = true -> PrimFloat.leb p stop = true ->
  OrderBook.check_order_status cfg ob (sl_order_id leg) = (PyStr "COMPLETE", [])
  /\ (let x := Strategy.handle_price_update fos env p leg in
      is_active (leg_of x) = false
      /\ exit_reason (leg_of x) = Some SL_EXECUTED_ON_BROKER
      /\ Attempts.count Monitor.is_order (trace_of x) = 0%nat).
Proof.
  intros Hsim Hid Hw Ha He Hs Hh Hp Hle.
  pose proof (check_simulated_complete cfg ob (sl_order_id leg) Hsim) as Hc.
  split; [exact Hc|]. cbv zeta.
  assert (EngineFacts.broker_filled env leg = true) as Hf.
  { unfold EngineFacts.broker_filled. now rewrite Hid, Hw, Hc. }
  rewrite (EngineFacts.handle_at_or_below_stop fos env leg stop highest p
             Ha He Hs Hh Hp Hle).
  destruct (Py.gt p highest).
  - destruct (EngineFacts.stop_breached_shape fos env
                (set_highest_price (Some p) leg) p Ha He)
      as (_ & Hi & _ & Hr & Hn & _).
    change (EngineFacts.broker_filled env (set_highest_price (Some p) leg))
      with (EngineFacts.broker_filled env leg) in Hr, Hn.
    rewrite Hf in Hr, Hn. auto.
  - destruct (EngineFacts.stop_breached_shape fos env leg p Ha He)
      as (_ & Hi & _ & Hr & Hn & _).
    rewrite Hf in Hr, Hn. auto.
Qed.

End Wired.

(** The row is a dict that carries the id asked for. *)
Definition matches (id : string) (order : gmap string pyval) : bool :=
  OrderManager.eq_str (OrderManager.dget order "orderid") id
  || OrderManager.eq_str (OrderManager.dget order "order_id") id.

Definition no_match (id : string) (r : ob_row) : Prop :=
  match r with
  | RowDict order => matches id order = false
  | RowOther => True
  end.

Lemma find_order_first id rows order :
  OrderBook.find_order id rows = Some order
  <-> exists pre post,
        rows = (pre ++ RowDict order :: post)%list
        /\ matches id order = true /\ Forall (no_match id) pre.
Proof.
  split.
  - induction rows as [|[o|] rest IH]; simpl; [discriminate| |].
    + fold (matches id o). destruct (matches id o) eqn:Hm.
      * intros H. inversion H; subst. exists [], rest. repeat split; auto.
      * intros H. destruct (IH H) as (pre & post & -> & Hmo & Hpre).
        exists (RowDict o :: pre), post. repeat split; auto.
    + intros H. destruct (IH H) as (pre & post & -> & Hmo & Hpre).
      exists (RowOther :: pre), post. repeat split; auto. constructor; simpl; auto.
  - intros (pre & post & -> & Hm & Hpre).
    induction Hpre as [|[o|] pre Hr _ IH]; simpl in *.
    + fold (matches id order). now rewrite Hm.
    + fold (matches id o). now rewrite Hr.
    + exact IH.
Qed.

(** X10.  The order looked up is the first row that carries the id.
    Outside test mode and for an id without the TEST_ or SIM_ prefix,
    [get_order_status] returns an order exactly when the order book
    answers with success and its list of rows holds a dict whose
    [orderid] or [order_id] equals the id; the order returned is the
    first such row, rows that are no dicts are passed over, and the order
    book has been asked once. *)
Theorem order_lookup_first_match cfg ob id order t :
  test_mode cfg = false ->
  String.prefix "TEST_" id = false -> String.prefix "SIM_" id = false ->
  OrderBook.get_order_status cfg ob (PyStr id) = (Some order, t)
  <-> t = [CallOrderBook]
      /\ exists data pre post,
           ob = Answered (ObAnswer (PyStr "success") data)
           /\ OrderBook.orders_of data = Some (pre ++ RowDict order :: post)%list
           /\ matches id order = true /\ Forall (no_match id) pre.
Proof.
  intros Ht H1 H2. unfold OrderBook.get_order_status. rewrite Ht, H1, H2. simpl.
  split.
  - destruct ob as [[|status data]|]; try discriminate.
    destruct status as [| | | |s]; simpl; try discriminate.
    destruct (String.eqb s "success") eqn:Hs; [|discriminate].
    apply String.eqb_eq in Hs. subst s.
    destruct (OrderBook.orders_of data) as [rows|] eqn:Hr; [|discriminate].
    intros H. inversion H as [[Hf Htr]]. split; [reflexivity|].
    apply find_order_first in Hf. destruct Hf as (pre & post & -> & Hm & Hp).
    exists data, pre, post. auto.
  - intros (-> & data & pre & post & -> & Hr & Hm & Hp). simpl. rewrite Hr.
    f_equal. apply find_order_first. eauto.
Qed.

(** The stop order of the example book is found behind a row that is
    no dict and the entry order. *)
Lemma order_lookup_first_match_witness :
  OrderBook.get_order_status Example.live_cfg Example2.order_book (PyStr "SL-1")
  = (Some (<["order_id" := PyStr "SL-1"]> {["status" := PyStr "trigger pending"]}),
     [CallOrderBook]).
Proof.
  apply (order_lookup_first_match Example.live_cfg Example2.order_book "SL-1");
    try reflexivity.
  split; [reflexivity|].
  exists (ObDict (Some (OrdersList Example2.order_rows))),
    [RowOther;
     RowDict (<["orderid" := PyStr "ORD-1"]> {["order_status" := PyStr "complete"]})],
    [].
  repeat split; try reflexivity.
  repeat constructor.
Defined.

(** A leg entered at 100 with the stop at 93, run by an engine whose
    order manager is in test mode, at a price of 90. *)
Lemma simulated_order_reads_filled_witness :
  let x := Strategy.handle_price_update Example.no_parse Example2.paper_broker 90
             (Example.entered_leg ∅ 7 100 100) in
  exit_reason (leg_of x) = Some SL_EXECUTED_ON_BROKER
  /\ Attempts.count Monitor.is_order (trace_of x) = 0%nat.
Proof.
  cbv zeta.
  destruct (simulated_order_reads_filled Example.no_parse Example2.paper_broker
              Example2.test_cfg Failed (Example.entered_leg ∅ 7 100 100) 93 100 90)
    as (_ & _ & Hr & Hn);
    [left; reflexivity | reflexivity .. | split; assumption].
Defined.

End OrderBookFacts.

(** ** The order gateway on paper and for real *)

Module GuardFacts.
Local Open Scope float_scope.

Section Guard.
Variable ios : string -> option Z.

Lemma scan_false_absent symbol data :
  OrderManager.scan_positions ios symbol data = Ret false ->
  Forall (GatewayFacts.not_held ios symbol) data.
Proof.
  induction data as [|p rest IH]; intros H; [constructor|].
  simpl in H. destruct (OrderManager.pos_quantity ios p) as [q|e] eqn:Hq;
    simpl in H; [|discriminate].
  destruct (OrderManager.eq_str (OrderManager.pos_symbol p) symbol) eqn:Hs;
    simpl in H.
  - destruct (q =? 0)%Z eqn:Hz; simpl in H; [|discriminate].
    constructor; [|now apply IH].
    exists q. split; [exact Hq|]. right. now apply Z.eqb_eq.
  - constructor; [|now apply IH]. exists q. split; [exact Hq | now left].
Qed.

(** X8.  An exit order is refused only for a position the book does
    not show.  The position check answers False exactly when the order
    manager trades for real, the position book answers with success, and
    no row of it is an open position in the symbol (every row is for
    another symbol or has quantity zero).  In every other case (paper
    trading, a failed query, a row that cannot be read, a row that holds
    the symbol) the check answers True and the exit order goes out. *)
Theorem exit_refused_only_when_absent cfg c symbol :
  fst (OrderManager.verify_position_exists ios cfg c symbol) = false
  <-> GatewayFacts.live cfg
      /\ exists data,
           positionbook c = Answered (PbDict (PyStr "success") data)
           /\ Forall (GatewayFacts.not_held ios symbol) data.
Proof.
  split.
  - unfold OrderManager.verify_position_exists, GatewayFacts.live.
    destruct (test_mode cfg), (auto_place_orders cfg); simpl; try discriminate.
    destruct (positionbook c) as [[|status data]|]; simpl; try discriminate.
    destruct status as [| | | |s]; simpl; try discriminate.
    destruct (String.eqb s "success") eqn:Hs; simpl; [|discriminate].
    apply String.eqb_eq in Hs. subst s.
    intros H. split; [auto|]. exists data. split; [reflexivity|].
    destruct data as [|p rest]; [constructor|].
    destruct (OrderManager.scan_positions ios symbol (p :: rest)) as [b|e] eqn:Hscan;
      simpl in H; [|discriminate].
    subst b. now apply scan_false_absent.
  - intros (Hl & data & Hb & Hd).
    now rewrite (GatewayFacts.verify_absent ios cfg c symbol data Hl Hb Hd).
Qed.

(** X9.  An order id comes from the broker.  When the order manager
    trades for real, [place_order] returns an id only if the broker was
    asked to place that order and answered with the status success, and
    the id is the [orderid] of that answer. *)
Theorem order_id_comes_from_broker cfg c symbol qty action id t :
  GatewayFacts.live cfg ->
  OrderManager.place_order ios cfg c symbol qty action = (id, t) ->
  id <> PyNone ->
  exists f,
    placeorder c symbol qty action = Answered (OrDict f)
    /\ OrderManager.eq_str (OrderManager.dget f "status") "success" = true
    /\ id = OrderManager.dget f "orderid"
    /\ In (CallPlaceOrder symbol qty action) t.
Proof.
  intros [Ht Ha]. unfold OrderManager.place_order. rewrite Ht, Ha. simpl.
  destruct (if String.eqb action (exit_action cfg)
            then OrderManager.verify_position_exists ios cfg c symbol
            else (true, [])) as [ok t0].
  destruct ok; simpl; [|intros H; inversion H; congruence].
  destruct (placeorder c symbol qty action) as [[|f]|];
    try (intros H; inversion H; congruence).
  destruct (OrderManager.eq_str (OrderManager.dget f "status") "success") eqn:Hs;
    intros H; inversion H; subst; [|congruence].
  intros _. exists f. repeat split; try assumption.
  apply in_or_app. right. now left.
Qed.

(** The order manager trades on paper: in test mode, or with order
    placement switched off. *)
Definition paper (cfg : OrderConfig) : Prop :=
  test_mode cfg = true \/ auto_place_orders cfg = false.

(** X7.  Paper trading never reaches the broker.  In test mode, or
    with order placement switched off, the position check, the placing
    of an order and of a stop order, and the modification and the
    cancellation of a stop order ask nothing of the broker; an order is
    always reported as placed; and the ids handed out for the order and
    for the stop order are answered by the status lookup without a look
    at the broker's order book. *)
Theorem paper_trading_never_reaches_broker cfg c place_stop ob symbol qty action id stop :
  paper cfg ->
  let placed := OrderManager.place_order ios cfg c symbol qty action in
  let stop_placed := OrderBook.place_sl_order cfg (clock_stamp c) place_stop symbol qty stop in
  snd (OrderManager.verify_position_exists ios cfg c symbol) = []
  /\ snd placed = []
  /\ Py.truthy (fst placed) = true
  /\ snd stop_placed = []
  /\ snd (OrderManager.modify_sl_order cfg c id stop) = []
  /\ snd (OrderManager.cancel_sl_order cfg c id) = []
  /\ snd (OrderBook.get_order_status cfg ob (fst placed)) = []
  /\ snd (OrderBook.get_order_status cfg ob (fst stop_placed)) = [].
Proof.
  intros H. cbv zeta.
  unfold OrderManager.place_order, OrderManager.verify_position_exists,
    OrderBook.place_sl_order, OrderManager.modify_sl_order,
    OrderManager.cancel_sl_order, OrderBook.get_order_status.
  destruct H as [-> | ->].
  - destruct (String.eqb action (exit_action cfg)), (auto_place_orders cfg),
      (place_sl_order_enabled cfg), (Py.truthy id); simpl; repeat split.
  - destruct (String.eqb action (exit_action cfg)), (test_mode cfg),
      (place_sl_order_enabled cfg), (Py.truthy id); simpl; repeat split.
Qed.

End Guard.


(** Test mode. *)
Lemma paper_trading_never_reaches_broker_witness :
  OrderManager.place_order Example.no_int Example2.test_cfg
    (Example.client_with Failed "") "NIFTY02DEC2524500CE" 75 "SELL"
  = (PyStr "TEST_ORDER_NIFTY02DEC2524500CE_1764649800", []).
Proof.
  destruct (paper_trading_never_reaches_broker Example.no_int Example2.test_cfg
              (Example.client_with Failed "") (fun _ _ _ _ _ => Failed) Failed
              "NIFTY02DEC2524500CE" 75 "SELL" (PyStr "SL-1") 93 (or_introl eq_refl))
    as (_ & Hp & _).
  reflexivity.
Defined.

(** The book of the example holds another symbol and a closed row of
    ours: the exit order is refused. *)
Lemma exit_refused_only_when_absent_witness :
  fst (OrderManager.verify_position_exists Example.no_int Example.live_cfg
         (Example.client_with (Answered (PbDict (PyStr "success") Example.book_without_us)) "")
         "NIFTY02DEC2524500CE") = false.
Proof.
  apply (proj2 (exit_refused_only_when_absent Example.no_int Example.live_cfg
           (Example.client_with (Answered (PbDict (PyStr "success") Example.book_without_us)) "")
           "NIFTY02DEC2524500CE")).
  split; [split; reflexivity|].
  exists Example.book_without_us. split; [reflexivity|].
  repeat constructor.
  - exists 75%Z. split; [reflexivity | now left].
  - exists 0%Z. split; [reflexivity | now right].
Defined.

(** An entry order the broker accepts as ORD-7. *)
Lemma order_id_comes_from_broker_witness :
  exists f,
    placeorder (Example.client_with Failed "") "NIFTY02DEC2524500CE" 75 "BUY"
    = Answered (OrDict f)
    /\ PyStr "ORD-7" = OrderManager.dget f "orderid".
Proof.
  destruct (order_id_comes_from_broker Example.no_int Example.live_cfg
              (Example.client_with Failed "") "NIFTY02DEC2524500CE" 75 "BUY"
              (PyStr "ORD-7") [CallPlaceOrder "NIFTY02DEC2524500CE" 75 "BUY"]
              (conj eq_refl eq_refl) eq_refl) as (f & Hf & _ & Hid & _);
    [discriminate|].
  exists f. split; assumption.
Defined.

End GuardFacts.

(** ** Quote fetches: bounds and recovery *)

Module FetchFacts.
Local Open Scope float_scope.

Section Loop.
Context {A : Type}.
Variable body : nat -> quote_response -> turn A.
Variable quotes : nat -> quote_response.
Variable dflt : A.

(** The loop makes at most one call per attempt and sleeps at most once
    per call. *)
Lemma retry_loop_calls remaining attempt :
  let f := MarketData.retry_loop body quotes dflt attempt remaining in
  (calls f <= remaining)%nat /\ (length (pauses f) <= calls f)%nat.
Proof.
  cbv zeta. revert attempt. induction remaining as [|remaining IH]; intros attempt.
  - simpl. lia.
  - rewrite QuoteFacts.retry_loop_S.
    destruct (body attempt (quotes attempt)); simpl; [lia|].
    destruct (IH (S attempt)). lia.
Qed.

(** Every pause of the loop is one its body asked for. *)
Lemma retry_loop_pauses (P : float -> Prop) remaining attempt :
  (forall a pause, (attempt <= a < attempt + remaining)%nat ->
     body a (quotes a) = Continue pause -> P pause) ->
  Forall P (pauses (MarketData.retry_loop body quotes dflt attempt remaining)).
Proof.
  revert attempt. induction remaining as [|remaining IH]; intros attempt H.
  - constructor.
  - rewrite QuoteFacts.retry_loop_S.
    destruct (body attempt (quotes attempt)) as [v|pause] eqn:E; simpl.
    + constructor.
    + constructor.
      * apply (H attempt); [lia | exact E].
      * apply IH. intros a p Ha. apply H. lia.
Qed.

(** A body that returns on the last attempt never sleeps after it. *)
Lemma retry_loop_no_last_pause n remaining attempt :
  (forall a pause, body a (quotes a) = Continue pause -> (S a < n)%nat) ->
  (attempt + remaining = n)%nat ->
  (length (pauses (MarketData.retry_loop body quotes dflt attempt remaining))
   <= remaining - 1)%nat.
Proof.
  intros H. revert attempt. induction remaining as [|remaining IH]; intros attempt Hn.
  - simpl. lia.
  - rewrite QuoteFacts.retry_loop_S.
    destruct (body attempt (quotes attempt)) as [v|pause] eqn:E; simpl; [lia|].
    specialize (H _ _ E). specialize (IH (S attempt)). lia.
Qed.

(** The loop ends at the first attempt whose pass returns. *)
Lemma retry_loop_recovers v k :
  forall attempt remaining, (k < remaining)%nat ->
    (forall a, (attempt <= a < attempt + k)%nat ->
       body a (quotes a) = Continue (MarketData.backoff a)) ->
    body (attempt + k)%nat (quotes (attempt + k)%nat) = Return v ->
    MarketData.retry_loop body quotes dflt attempt remaining
    = mkFetch v (map MarketData.backoff (seq attempt k)) (S k).
Proof.
  induction k as [|k IH]; intros attempt remaining Hk Hc Hr;
    (destruct remaining as [|remaining]; [lia|]); rewrite QuoteFacts.retry_loop_S.
  - rewrite Nat.add_0_r in Hr. now rewrite Hr.
  - rewrite Hc by lia.
    rewrite (IH (S attempt) remaining); try lia.
    + reflexivity.
    + intros a Ha. apply Hc. lia.
    + replace (S attempt + k)%nat with (attempt + S k)%nat by lia. exact Hr.
Qed.

End Loop.

Lemma quote_attempt_continue n a r pause :
  MarketData.quote_attempt n a r = Continue pause ->
  MarketData.last_attempt n a = false
  /\ (pause = 0.5 \/ pause = MarketData.backoff a).
Proof.
  unfold MarketData.quote_attempt, MarketData.on_error.
  cbv zeta beta.
  destruct (MarketData.last_attempt n a);
    repeat (case_match; try (intros; discriminate));
    intros H; inversion H; auto.
Qed.

Lemma underlying_attempt_continue fos n a r pause :
  MarketData.underlying_attempt n fos a r = Continue pause ->
  MarketData.last_attempt n a = false
  /\ (pause = 0.5 \/ pause = MarketData.backoff a).
Proof.
  unfold MarketData.underlying_attempt, MarketData.on_error.
  cbv zeta beta.
  destruct (MarketData.last_attempt n a);
    repeat (case_match; try (intros; discriminate));
    intros H; inversion H; auto.
Qed.

Lemma not_last n a : MarketData.last_attempt n a = false -> (S a < n)%nat.
Proof.
  unfold MarketData.last_attempt. intros H.
  apply negb_false_iff, Nat.ltb_lt in H. lia.
Qed.

(** X11.  Both quote fetches are bounded.  Whatever the REST client
    answers or raises, a quote fetch makes at most three calls and sleeps
    at most twice, each time for 0.5 s or 1 s; the fetch of the
    underlying price makes at most [max_retries] calls and sleeps at
    most [max_retries - 1] times, each time for 0.5 s or for the backoff
    of an attempt before the last.  Neither sleeps after its last
    attempt, and neither asks the REST client at all when the websocket
    path has a price. *)
Theorem quote_fetches_bounded :
  (forall ws quotes,
     let f := MarketData.get_quote ws quotes in
     (calls f <= 3)%nat
     /\ (length (pauses f) <= 2)%nat
     /\ Forall (fun p => p = 0.5 \/ p = 1) (pauses f)
     /\ (Py.truthy_opt ws = true -> calls f = 0%nat))
  /\ (forall fos n ws quotes,
     let f := MarketData.get_underlying_price fos n ws quotes in
     (calls f <= n)%nat
     /\ (length (pauses f) <= n - 1)%nat
     /\ Forall (fun p => p = 0.5
                         \/ exists a, (S a < n)%nat /\ p = MarketData.backoff a) (pauses f)
     /\ (Py.truthy_opt ws = true -> calls f = 0%nat)).
Proof.
  split.
  - intros ws quotes.
      cbv zeta.
      pose proof (retry_loop_calls (MarketData.quote_attempt 3) quotes None 3 0) as [Hc _].
      pose proof (retry_loop_no_last_pause (MarketData.quote_attempt 3) quotes None 3 3 0) as Hl.
      pose proof (retry_loop_pauses (MarketData.quote_attempt 3) quotes None
                    (fun p => p = 0.5 \/ p = 1) 3 0) as Hp.
      assert (Forall (fun p => p = 0.5 \/ p = 1)
                (pauses (MarketData.retry_loop (MarketData.quote_attempt 3) quotes None 0 3)))
        as Hp'.
      { apply Hp. intros a pause Ha E.
        destruct (quote_attempt_continue _ _ _ _ E) as [Hn [-> | ->]]; [now left|].
        apply not_last in Hn.
        destruct a as [|[|a]]; [left | right | lia]; reflexivity. }
      assert (length (pauses (MarketData.retry_loop (MarketData.quote_attempt 3) quotes None 0 3))
              <= 2)%nat as Hl'.
      { apply Hl; [|reflexivity]. intros a pause E.
        now apply not_last, (quote_attempt_continue _ _ _ _ E). }
      unfold MarketData.get_quote, Py.truthy_opt.
      destruct ws as [p|]; [destruct (Py.truthy_float p)|]; simpl;
        repeat split; auto; try lia; discriminate.
  - intros fos n ws quotes.
      cbv zeta.
      pose proof (retry_loop_calls (MarketData.underlying_attempt n fos) quotes (Ret None) n 0)
        as [Hc _].
      assert (Forall (fun p => p = 0.5
                               \/ exists a, (S a < n)%nat /\ p = MarketData.backoff a)
                (pauses (MarketData.retry_loop (MarketData.underlying_attempt n fos)
                           quotes (Ret None) 0 n))) as Hp.
      { apply retry_loop_pauses. intros a pause Ha E.
        destruct (underlying_attempt_continue _ _ _ _ _ E) as [Hn [-> | ->]]; [now left|].
        right. exists a. split; [now apply not_last | reflexivity]. }
      assert (length (pauses (MarketData.retry_loop (MarketData.underlying_attempt n fos)
                                quotes (Ret None) 0 n)) <= n - 1)%nat as Hl.
      { apply (retry_loop_no_last_pause _ _ _ n); [|reflexivity]. intros a pause E.
        now apply not_last, (underlying_attempt_continue _ _ _ _ _ E). }
      unfold MarketData.get_underlying_price, Py.truthy_opt.
      destruct ws as [p|]; [destruct (Py.truthy_float p)|]; simpl;
        repeat split; auto; try lia; discriminate.
Qed.

(** X12.  A fetch recovers from transient errors.  When the websocket
    gives no price, the first k answers (k below the number of attempts)
    are errors classified as transient and the next answer is a quote
    whose data holds a last traded price, the quote fetch returns that
    data after k + 1 calls, having slept the backoff after each of the k
    failures; the fetch of the underlying price returns the price as a
    float in the same way. *)
Theorem quote_fetch_recovers ws quotes k fields d :
  QuoteFacts.no_ws_price ws -> (k < 3)%nat ->
  (forall a, (a < k)%nat -> QuoteFacts.transient_error (quotes a)) ->
  quotes k = QDict fields (DataDict d) ->
  MarketData.is_error fields = false ->
  is_Some (d !! "ltp") ->
  MarketData.get_quote ws quotes
  = mkFetch (Ret (Some d)) (map MarketData.backoff (seq 0 k)) (S k)
  /\ forall fos n price,
       (k < n)%nat ->
       Py.truthy (OrderManager.dget d "ltp") = true ->
       Py.to_float fos (OrderManager.dget d "ltp") = Ret price ->
       MarketData.get_underlying_price fos n ws quotes
       = mkFetch (Ret (Some price)) (map MarketData.backoff (seq 0 k)) (S k).
Proof.
  intros Hws Hk Ht Hq He Hd. split.
  - rewrite (QuoteFacts.get_quote_rest ws quotes Hws). cbv zeta.
    rewrite (retry_loop_recovers (MarketData.quote_attempt 3) quotes None (Some d) k 0 3 Hk).
    + reflexivity.
    + intros a Ha. rewrite (QuoteFacts.quote_attempt_transient 3 a _ (Ht a ltac:(lia))).
      unfold MarketData.last_attempt.
      replace (a <? 3 - 1)%nat with true by (symmetry; apply Nat.ltb_lt; lia).
      reflexivity.
    + simpl. rewrite Hq. unfold MarketData.quote_attempt. rewrite He.
      now rewrite (bool_decide_eq_true_2 _ Hd).
  - intros fos n price Hn Htr Hf.
    rewrite (QuoteFacts.get_underlying_rest fos n ws quotes Hws). cbv zeta.
    rewrite (retry_loop_recovers (MarketData.underlying_attempt n fos) quotes (Ret None)
               (Ret (Some price)) k 0 n Hn).
    + reflexivity.
    + intros a Ha.
      rewrite (QuoteFacts.underlying_attempt_transient fos n a _ (Ht a ltac:(lia))).
      unfold MarketData.last_attempt.
      replace (a <? n - 1)%nat with true by (symmetry; apply Nat.ltb_lt; lia).
      reflexivity.
    + simpl. rewrite Hq. unfold MarketData.underlying_attempt, MarketData.ltp_of.
      now rewrite He, Htr, Hf.
Qed.

(** One HTTP 500, then a quote at 101.5. *)
Lemma quote_fetch_recovers_witness :
  let quotes := fun a : nat =>
    match a with
    | O => Example.failing_quotes "HTTP 500 Internal Server Error" a
    | _ => QDict ∅ (DataDict {["ltp" := PyFloat 101.5]})
    end in
  MarketData.get_quote None quotes
  = mkFetch (Ret (Some {["ltp" := PyFloat 101.5]})) [0.5] 2.
Proof.
  cbv zeta.
  refine (proj1 (quote_fetch_recovers None _ 1 ∅ {["ltp" := PyFloat 101.5]}
                   eq_refl _ _ eq_refl eq_refl _)).
  - lia.
  - intros a Ha. destruct a; [|lia]. do 3 eexists. repeat split; reflexivity.
  - now exists (PyFloat 101.5).
Defined.

End FetchFacts.

(** ** Wait and trade: what a confirmation rests on *)

Module ConfirmFacts.
Local Open Scope float_scope.

(** The state a run over some ticks has reached. *)
Definition last_state (o : wt_outcome) : option WtState :=
  match o with
  | Confirmed st => Some st
  | Rejected st => st
  | StillWaiting st => Some st
  end.

Section Confirmation.
Variable fos : string -> option float.
Variable cfg : WtConfig.

(** The target is the threshold above the reference. *)
Definition anchored (st : WtState) : Prop :=
  target_price st = reference_price st * (1 + threshold_pct cfg / 100).

(** No reset is configured: the reset is switched off, or the drop
    percentage is missing or zero. *)
Definition reset_off : Prop :=
  match (if reset_enabled cfg then reset_drop_pct cfg else None) with
  | Some drop_pct => Py.truthy_float drop_pct = false
  | None => True
  end.

(** The tick delivers a price the loop looks at. *)
Definition priced (t : Tick) (p : float) : Prop :=
  WaitTrade.poll_price fos t = Ret (Some p) /\ Py.truthy_float p = true.

Lemma observe_anchored st p st' b :
  WaitTrade.observe cfg st p = Ret (st', b) ->
  (anchored st -> anchored st')
  /\ (b = true -> target_price st' = target_price st
                  /\ Py.ge p (target_price st') = true)
  /\ (reset_off ->
      reference_price st' = reference_price st
      /\ target_price st' = target_price st
      /\ reset_count st' = reset_count st).
Proof.
  unfold WaitTrade.observe, anchored, reset_off, mbind, result_bind.
  destruct (Py.truediv (p - reference_price st) (reference_price st));
    [|discriminate].
  destruct (Py.ge p (target_price st)) eqn:Hg.
  - intros H. inversion H; subst; simpl. auto.
  - destruct (if reset_enabled cfg then reset_drop_pct cfg else None) as [d|].
    + destruct (Py.truthy_float d).
      * repeat (case_match; simpl; try (intros; discriminate));
          intros H; inversion H; subst; simpl;
          repeat split; intros; auto; try discriminate.
      * intros H; inversion H; subst; simpl.
        repeat split; intros; auto; try discriminate.
    + intros H; inversion H; subst; simpl.
      repeat split; intros; auto; try discriminate.
Qed.

Lemma step_anchored st t st' v :
  WaitTrade.step fos cfg st t = Ret (st', v) ->
  (anchored st -> anchored st')
  /\ (v = Reached -> exists p, priced t p /\ Py.ge p (target_price st') = true)
  /\ (reset_off ->
      reference_price st' = reference_price st
      /\ target_price st' = target_price st
      /\ reset_count st' = reset_count st)
  /\ ((forall p, ~ priced t p) -> st' = st /\ v <> Reached).
Proof.
  unfold WaitTrade.step, priced, mbind, result_bind.
  destruct (WaitTrade.poll_price fos t) as [[p|]|e]; try discriminate.
  - destruct (Py.truthy_float p) eqn:Hp.
    + destruct (WaitTrade.observe cfg st p) as [[st1 b]|e] eqn:Ho; [|discriminate].
      destruct (observe_anchored st p st1 b Ho) as (Ha & Hb & Hr).
      destruct b, (timed_out t); simpl; intros H; inversion H; subst;
        repeat split; intros; auto; try discriminate; try (now apply Hr);
        try (exists p; destruct (Hb eq_refl); now auto);
        try (exfalso; match goal with H0 : forall _, ~ _ |- _ => apply (H0 p) end;
             now auto).
    + destruct (timed_out t); simpl; intros H; inversion H; subst;
        repeat split; intros; auto; discriminate.
  - destruct (timed_out t); simpl; intros H; inversion H; subst;
      repeat split; intros; auto; discriminate.
Qed.

Lemma run_anchored ticks : forall st o,
  WaitTrade.run fos cfg st ticks = Ret o ->
  exists st', last_state o = Some st'
    /\ (anchored st -> anchored st')
    /\ (forall c, o = Confirmed c ->
          exists t p, In t ticks /\ priced t p /\ Py.ge p (target_price c) = true)
    /\ (reset_off ->
        reference_price st' = reference_price st
        /\ target_price st' = target_price st
        /\ reset_count st' = reset_count st)
    /\ ((forall t p, In t ticks -> ~ priced t p) ->
        st' = st /\ forall c, o <> Confirmed c).
Proof.
  induction ticks as [|t rest IH]; intros st o; cbn [WaitTrade.run].
  - intros H; inversion H; subst. exists st. simpl.
    repeat split; intros; auto; discriminate.
  - unfold mbind, result_bind.
    destruct (WaitTrade.step fos cfg st t) as [[st1 v]|e] eqn:Hs; [|discriminate].
    destruct (step_anchored st t st1 v Hs) as (Ha & Hv & Hr & Hn).
    cbn [fst snd].
    destruct v.
    + intros H; inversion H; subst. exists st1. simpl.
      split; [reflexivity|]. split; [exact Ha|]. split; [|split].
      * intros c Hc. inversion Hc; subst.
        destruct (Hv eq_refl) as (p & Hp & Hg). exists t, p. auto.
      * exact Hr.
      * intros Hno. destruct Hn as [_ Hn]; [intros p; apply (Hno t p); now left|].
        now contradiction Hn.
    + intros H; inversion H; subst. exists st1. simpl.
      split; [reflexivity|]. split; [exact Ha|]. split; [|split].
      * discriminate.
      * exact Hr.
      * intros Hno. destruct Hn as [-> _]; [intros p; apply (Hno t p); now left|].
        split; [reflexivity | discriminate].
    + intros H. destruct (IH st1 o H) as (st' & Hl & Ha' & Hc & Hr' & Hn').
      exists st'. split; [exact Hl|]. split; [auto|]. split; [|split].
      * intros c Ho. destruct (Hc c Ho) as (t' & p & Hin & Hp & Hg).
        exists t', p. split; [now right | auto].
      * intros He. destruct (Hr He) as (H1 & H2 & H3), (Hr' He) as (H4 & H5 & H6).
        repeat split; congruence.
      * intros Hno.
        destruct Hn as [-> _]; [intros p; apply (Hno t p); now left|].
        apply Hn'. intros t' p Hin. apply Hno. now right.
Qed.

(** X13.  A confirmation is backed by a price.  When the wait for the
    trade confirmation returns True, one of the polls has delivered a
    price (a number other than zero) at or above the target the loop
    held at that moment, and that target is the threshold percentage
    above the reference the loop held: the initial price, or the price
    of the last reset.  Without such a price there is no confirmation. *)
Theorem confirmation_is_sound initial_quote ticks c :
  WaitTrade.wait_for_trade_confirmation fos cfg initial_quote ticks = Ret (Confirmed c) ->
  target_price c = reference_price c * (1 + threshold_pct cfg / 100)
  /\ exists t p,
       In t ticks /\ WaitTrade.poll_price fos t = Ret (Some p)
       /\ Py.truthy_float p = true /\ Py.ge p (target_price c) = true.
Proof.
  unfold WaitTrade.wait_for_trade_confirmation, mbind, result_bind.
  destruct (WaitTrade.start fos cfg initial_quote) as [[st|]|e] eqn:Hs;
    try discriminate.
  intros H. destruct (run_anchored ticks st _ H) as (st' & Hl & Ha & Hc & _).
  simpl in Hl. inversion Hl; subst st'. split.
  - apply Ha. unfold WaitTrade.start, mbind, result_bind in Hs.
    destruct initial_quote as [q|]; [|discriminate].
    destruct (q !! "ltp") as [v|]; [|discriminate].
    destruct (Py.to_float fos v); inversion Hs; subst. reflexivity.
  - destruct (Hc c eq_refl) as (t & p & Hin & [Hp Ht] & Hg). eauto 10.
Qed.

(** X14.  Without a reset rule the reference never moves.  When the
    reset is switched off, or its drop percentage is missing or zero,
    the loop keeps the reference and the target of the initial quote and
    counts no reset, whatever prices it sees and however it ends. *)
Theorem reference_fixed_without_reset initial_quote ticks st o :
  reset_off ->
  WaitTrade.start fos cfg initial_quote = Ret (Some st) ->
  WaitTrade.wait_for_trade_confirmation fos cfg initial_quote ticks = Ret o ->
  exists st', last_state o = Some st'
    /\ reference_price st' = reference_price st
    /\ target_price st' = target_price st
    /\ reset_count st' = 0%nat.
Proof.
  intros Hoff Hs. unfold WaitTrade.wait_for_trade_confirmation, mbind, result_bind.
  rewrite Hs. intros H.
  destruct (run_anchored ticks st o H) as (st' & Hl & _ & _ & Hr & _).
  destruct (Hr Hoff) as (H1 & H2 & H3).
  exists st'. repeat split; auto. rewrite H3.
  unfold WaitTrade.start, mbind, result_bind in Hs.
  destruct initial_quote as [q|]; [|discriminate].
  destruct (q !! "ltp") as [v|]; [|discriminate].
  destruct (Py.to_float fos v); inversion Hs; subst. reflexivity.
Qed.

End Confirmation.

(** Reference 100 and a threshold of 3%: the prices 102 and 103.5. *)
Lemma confirmation_is_sound_witness :
  exists t p,
    In t [Example.rest_tick 102; Example.rest_tick 103.5]
    /\ WaitTrade.poll_price Example.no_parse t = Ret (Some p)
    /\ Py.truthy_float p = true /\ Py.ge p (100 * (1 + 3 / 100)) = true.
Proof.
  apply (confirmation_is_sound Example.no_parse Example.wt_cfg
           (Some {["ltp" := PyFloat 100]})
           [Example.rest_tick 102; Example.rest_tick 103.5]
           {| reference_price := 100; target_price := 100 * (1 + 3 / 100);
              highest_since_reference := 103.5; reset_count := 0 |}).
  vm_compute. reflexivity.
Defined.

(** The prices 102, 99.5 and 102.6 with the reset switched off: the
    reference stays at 100, and 102.6 does not confirm. *)
Lemma reference_fixed_without_reset_witness :
  let cfg := {| threshold_pct := 3; reset_enabled := false; reset_drop_pct := Some 2 |} in
  let o := StillWaiting {| reference_price := 100; target_price := 100 * (1 + 3 / 100);
                           highest_since_reference := 102.6; reset_count := 0 |} in
  WaitTrade.wait_for_trade_confirmation Example.no_parse cfg
    (Some {["ltp" := PyFloat 100]})
    [Example.rest_tick 102; Example.rest_tick 99.5; Example.rest_tick 102.6] = Ret o
  /\ exists st', last_state o = Some st' /\ reference_price st' = 100.
Proof.
  cbv zeta. split; [vm_compute; reflexivity|].
  destruct (reference_fixed_without_reset Example.no_parse
              {| threshold_pct := 3; reset_enabled := false; reset_drop_pct := Some 2 |}
              (Some {["ltp" := PyFloat 100]})
              [Example.rest_tick 102; Example.rest_tick 99.5; Example.rest_tick 102.6]
              {| reference_price := 100; target_price := 100 * (1 + 3 / 100);
                 highest_since_reference := 100; reset_count := 0 |}
              (StillWaiting {| reference_price := 100; target_price := 100 * (1 + 3 / 100);
                               highest_since_reference := 102.6; reset_count := 0 |}))
    as (st' & Hl & Hr & _).
  - exact I.
  - reflexivity.
  - vm_compute. reflexivity.
  - exists st'. split; [exact Hl | exact Hr].
Defined.

End ConfirmFacts.

(** ** The strike ladder *)

Module StrikeFacts.
Local Open Scope Z_scope.

(** A string of decimal digits. *)
Definition is_digit (c : ascii) : bool :=
  (Nat.leb 48 (nat_of_ascii c) && Nat.leb (nat_of_ascii c) 57)%bool.

Fixpoint digits (s : string) : bool :=
  match s with
  | EmptyString => true
  | String c r => is_digit c && digits r
  end.

Lemma upper_ascii_digit c : is_digit c = true -> PyStr.upper_ascii c = c.
Proof.
  unfold is_digit, PyStr.upper_ascii. intros H.
  apply andb_prop in H. destruct H as [H1 H2].
  apply Nat.leb_le in H1, H2.
  replace (Nat.leb 97 (nat_of_ascii c)) with false
    by (symmetry; apply Nat.leb_gt; lia).
  reflexivity.
Qed.

Lemma upper_digits d : digits d = true -> PyStr.upper d = d.
Proof.
  induction d as [|c d IH]; simpl; [reflexivity|].
  intros H. apply andb_prop in H. destruct H as [Hc Hd].
  now rewrite (upper_ascii_digit c Hc), IH.
Qed.

Lemma upper_idem s : PyStr.upper (PyStr.upper s) = PyStr.upper s.
Proof.
  induction s as [|c s IH]; simpl; [reflexivity|]. rewrite IH. f_equal.
  unfold PyStr.upper_ascii.
  destruct (Nat.leb 97 (nat_of_ascii c) && Nat.leb (nat_of_ascii c) 122)%bool eqn:E.
  - apply andb_prop in E. destruct E as [H1 H2]. apply Nat.leb_le in H1, H2.
    rewrite nat_ascii_embedding by lia.
    replace (Nat.leb 97 (nat_of_ascii c - 32)) with false
      by (symmetry; apply Nat.leb_gt; lia).
    reflexivity.
  - now rewrite E.
Qed.

(** A tag of three capital letters is no prefix of a digit string, and
    removing it changes nothing. *)
Lemma remove_digits tag d :
  (exists a b c, tag = String a (String b (String c EmptyString))
                 /\ is_digit a = false) ->
  digits d = true -> PyStr.remove_from tag d 0 = d.
Proof.
  intros (a & b & c & -> & Ha). induction d as [|x d IH]; [reflexivity|].
  intros H. simpl in H. apply andb_prop in H. destruct H as [Hx Hd].
  cbn [PyStr.remove_from].
  assert (String.prefix (String a (String b (String c EmptyString))) (String x d) = false)
    as ->.
  { cbn [String.prefix]. destruct (ascii_dec a x) as [->|]; [congruence | reflexivity]. }
  now rewrite IH.
Qed.

Lemma upper_tagged a b c d :
  digits d = true ->
  PyStr.upper (String a (String b (String c d)))
  = String (PyStr.upper_ascii a) (String (PyStr.upper_ascii b)
      (String (PyStr.upper_ascii c) d)).
Proof. intros H. cbn [PyStr.upper]. now rewrite (upper_digits d H). Qed.

Section Strike.
Variable ios : string -> option Z.

Lemma strike_itm spot sd dir d level :
  digits d = true -> ios d = Some level ->
  Entry.calculate_strike_from_type ios spot sd dir (String "I" (String "T" (String "M" d)))
  = (atm ← Entry.calculate_strike_from_type ios spot sd dir "ATM";
     Ret (if String.eqb dir "CE" then atm - level * sd else atm + level * sd)).
Proof.
  intros Hd Hl. unfold Entry.calculate_strike_from_type.
  destruct spot as [spot|]; [|reflexivity].
  destruct (Py.truthy_float spot); [|reflexivity]. cbn [negb].
  rewrite (upper_tagged _ _ _ d Hd).
  change (PyStr.upper "ATM") with "ATM"%string.
  change (PyStr.upper_ascii "I") with "I"%char.
  change (PyStr.upper_ascii "T") with "T"%char.
  change (PyStr.upper_ascii "M") with "M"%char.
  change (String.eqb (String "I" (String "T" (String "M" d))) "ATM") with false.
  change (String.eqb "ATM" "ATM") with true.
  change (String.prefix "ITM" (String "I" (String "T" (String "M" d))))
    with (String.prefix "" d).
  replace (String.prefix "" d) with true by (now destruct d).
  cbv iota.
  assert (PyStr.remove "ITM" (String "I" (String "T" (String "M" d))) = d) as ->.
  { unfold PyStr.remove. cbn [PyStr.remove_from].
    change (String.prefix "ITM" (String "I" (String "T" (String "M" d))))
      with (String.prefix "" d).
    replace (String.prefix "" d) with true by (now destruct d).
    cbn [String.length Nat.sub PyStr.remove_from].
    apply remove_digits; [|exact Hd]. do 3 eexists. split; reflexivity. }
  cbn [OrderManager.to_int]. rewrite Hl. reflexivity.
Qed.

Lemma strike_otm spot sd dir d level :
  digits d = true -> ios d = Some level ->
  Entry.calculate_strike_from_type ios spot sd dir (String "O" (String "T" (String "M" d)))
  = (atm ← Entry.calculate_strike_from_type ios spot sd dir "ATM";
     Ret (if String.eqb dir "CE" then atm + level * sd else atm - level * sd)).
Proof.
  intros Hd Hl. unfold Entry.calculate_strike_from_type.
  destruct spot as [spot|]; [|reflexivity].
  destruct (Py.truthy_float spot); [|reflexivity]. cbn [negb].
  rewrite (upper_tagged _ _ _ d Hd).
  change (PyStr.upper "ATM") with "ATM"%string.
  change (PyStr.upper_ascii "O") with "O"%char.
  change (PyStr.upper_ascii "T") with "T"%char.
  change (PyStr.upper_ascii "M") with "M"%char.
  change (String.eqb (String "O" (String "T" (String "M" d))) "ATM") with false.
  change (String.eqb "ATM" "ATM") with true.
  change (String.prefix "ITM" (String "O" (String "T" (String "M" d)))) with false.
  change (String.prefix "OTM" (String "O" (String "T" (String "M" d))))
    with (String.prefix "" d).
  replace (String.prefix "" d) with true by (now destruct d).
  cbv iota.
  assert (PyStr.remove "OTM" (String "O" (String "T" (String "M" d))) = d) as ->.
  { unfold PyStr.remove. cbn [PyStr.remove_from].
    change (String.prefix "OTM" (String "O" (String "T" (String "M" d))))
      with (String.prefix "" d).
    replace (String.prefix "" d) with true by (now destruct d).
    cbn [String.length Nat.sub PyStr.remove_from].
    apply remove_digits; [|exact Hd]. do 3 eexists. split; reflexivity. }
  cbn [OrderManager.to_int]. rewrite Hl. reflexivity.
Qed.

Lemma strike_multiple spot sd dir st k :
  Entry.calculate_strike_from_type ios spot sd dir st = Ret k -> (sd | k).
Proof.
  unfold Entry.calculate_strike_from_type, Entry.nearest_strike, mbind, result_bind.
  repeat (case_match; try discriminate);
    intros H; inversion H; subst;
    try (apply Z.divide_sub_r); try (apply Z.divide_add_r);
    apply Z.divide_factor_r.
Qed.

Lemma strike_upper spot sd dir st :
  Entry.calculate_strike_from_type ios spot sd dir (PyStr.upper st)
  = Entry.calculate_strike_from_type ios spot sd dir st.
Proof. unfold Entry.calculate_strike_from_type. now rewrite upper_idem. Qed.

(** X17.  The strikes form a ladder around the nearest strike.  For a
    strike type made of ITM or OTM and a decimal level k that [int]
    reads, the strike is the ATM strike, round(spot / strike_diff) *
    strike_diff, moved by k strike differences: down for a call in the
    money and for a put out of the money, up for a put in the money and
    for a call out of the money, so ITMk of the one side is OTMk of the
    other; where the ATM strike raises, these raise the same.  The ATM
    strike is the same for both sides.  Every strike returned is a
    multiple of the strike difference, and the strike type is read
    without regard to letter case. *)
Theorem strike_ladder spot sd d level :
  digits d = true -> ios d = Some level ->
  let strike := Entry.calculate_strike_from_type ios spot sd in
  strike "CE" ("ITM" ++ d)%string = (atm ← strike "CE" "ATM"; Ret (atm - level * sd))
  /\ strike "PE" ("ITM" ++ d)%string = (atm ← strike "PE" "ATM"; Ret (atm + level * sd))
  /\ strike "CE" ("OTM" ++ d)%string = strike "PE" ("ITM" ++ d)%string
  /\ strike "PE" ("OTM" ++ d)%string = strike "CE" ("ITM" ++ d)%string
  /\ strike "CE" "ATM" = strike "PE" "ATM"
  /\ (forall dir st k, strike dir st = Ret k -> (sd | k))
  /\ (forall dir st, strike dir (PyStr.upper st) = strike dir st).
Proof.
  intros Hd Hl. cbv zeta.
  change ("ITM" ++ d)%string with (String "I" (String "T" (String "M" d))).
  change ("OTM" ++ d)%string with (String "O" (String "T" (String "M" d))).
  rewrite !(strike_itm spot sd _ d level Hd Hl), !(strike_otm spot sd _ d level Hd Hl).
  change (String.eqb "CE" "CE") with true. change (String.eqb "PE" "CE") with false.
  cbv iota.
  repeat split; try reflexivity.
  - intros dir st k. apply strike_multiple.
  - intros dir st. apply strike_upper.
Qed.

End Strike.

(** Spot 24512.3 with strikes 50 apart: ATM is 24500, ITM3 of the call
    is 24350. *)
Lemma strike_ladder_witness :
  Entry.calculate_strike_from_type Example2.decimal (Some 24512.3%float) 50 "CE" "ITM3"
  = Ret 24350.
Proof.
  destruct (strike_ladder Example2.decimal (Some 24512.3%float) 50 "3" 3 eq_refl eq_refl)
    as (H & _).
  etransitivity; [exact H|]. vm_compute. reflexivity.
Defined.

End StrikeFacts.

(** ** The entry of a leg *)

Module EntryFacts.
Local Open Scope float_scope.

(** A stop order sent to the broker. *)
Definition is_stop_order (e : event) : bool :=
  match e with PlaceSL _ _ _ => true | _ => false end.

Section Entry.
Variable fos : string -> option float.
Variable env : Env.

(** X15.  What an entry leaves behind.  The entry routine never raises.
    When it returns False the leg is as active as before, its stop and
    its stop-order id are untouched, no stop order has been asked for and
    at most one order has been sent.  When it returns True the leg is
    active, exactly one order and exactly one stop order have been asked
    for, and the stop order is for the leg's symbol and quantity at the
    stop the leg now holds. *)
Theorem entry_outcome leg :
  let x := Strategy.enter_leg_position fos env leg in
  (outcome_of x = Ret false
   /\ is_active (leg_of x) = is_active leg
   /\ current_sl (leg_of x) = current_sl leg
   /\ sl_order_id (leg_of x) = sl_order_id leg
   /\ Attempts.count is_stop_order (trace_of x) = 0%nat
   /\ (Attempts.count Monitor.is_order (trace_of x) <= 1)%nat)
  \/ (outcome_of x = Ret true
      /\ is_active (leg_of x) = true
      /\ Attempts.count Monitor.is_order (trace_of x) = 1%nat
      /\ Attempts.count is_stop_order (trace_of x) = 1%nat
      /\ exists stop,
           current_sl (leg_of x) = Some stop
           /\ In (PlaceSL (symbol leg) (quantity leg) stop) (trace_of x)).
Proof.
  cbv zeta. unfold Strategy.enter_leg_position. run_m.
  unfold outcome_of, leg_of, trace_of.
  repeat (case_match; simpl; auto 10);
    try (left; repeat split; auto; lia);
    right; repeat split; auto; eexists; split; try reflexivity; simpl; auto 10.
Qed.

(** X16.  An order can go out and the entry still fail.  When the
    quote used for the entry carries a last traded price of zero, the
    broker accepts the entry order and reports a positive fill price,
    the slippage percentage divides by zero: the routine returns False
    after the order has been sent.  The leg keeps the order id and the
    quoted price, and is not activated; no stop is set and no stop order
    is placed for the position the broker now holds. *)
Theorem order_placed_entry_failed leg sym quote v ltp order_id actual :
  symbol leg = Some sym -> String.eqb sym "" = false ->
  env_get_quote env sym = Some quote -> quote !! "ltp" = Some v ->
  Py.to_float fos v = Ret ltp -> PrimFloat.eqb ltp 0 = true ->
  env_place_order env (Some sym) (quantity leg) (env_entry_action env) = order_id ->
  Py.truthy order_id = true ->
  env_get_fill_price env order_id = Some actual ->
  Py.truthy_float actual = true -> Py.gt actual 0 = true ->
  Strategy.enter_leg_position fos env leg
  = (set_entry_order_id order_id (set_entry_price (PyFloat ltp) leg),
     [PlaceOrder (Some sym) (quantity leg) (env_entry_action env);
      GetFillPrice order_id],
     Ret false).
Proof.
  intros Hs Hn Hq Hv Hl Hz Ho Ht Hf Ha Hg.
  unfold Strategy.enter_leg_position. run_m.
  rewrite Hs, Hn, Hq, Hv, Hl. simpl. rewrite Ho, Ht. simpl.
  rewrite Hf, Ha, Hg. simpl. unfold Py.truediv. rewrite Hz. simpl. reflexivity.
Qed.

End Entry.

(** A quote of 0 and a fill at 100. *)
Lemma order_placed_entry_failed_witness :
  let leg := set_symbol (Some "NIFTY02DEC2524500CE") (Example.fresh_leg ∅ PyNone 7) in
  let x := Strategy.enter_leg_position Example.no_parse (Example.broker true 0 100) leg in
  outcome_of x = Ret false
  /\ is_active (leg_of x) = false
  /\ trace_of x = [PlaceOrder (Some "NIFTY02DEC2524500CE") 75 "BUY";
                   GetFillPrice (PyStr "ORD-1")].
Proof.
  cbv zeta.
  rewrite (order_placed_entry_failed Example.no_parse (Example.broker true 0 100)
             (set_symbol (Some "NIFTY02DEC2524500CE") (Example.fresh_leg ∅ PyNone 7))
             "NIFTY02DEC2524500CE" {["ltp" := PyFloat 0]} (PyFloat 0) 0
             (PyStr "ORD-1") 100); try reflexivity.
  repeat split.
Defined.

End EntryFacts.

(** ** What monitoring leaves alone *)

Module BasisFacts.
Local Open Scope float_scope.

(** What the P&L of a leg is computed from, and what identifies the
    position at the broker. *)
Definition basis (s : LegState) : Z * option string * pyval * Z * float * pyval :=
  (leg_num s, symbol s, entry_price s, quantity s, initial_sl_pct s, entry_order_id s).

(** Code that leaves the basis of the leg as it is. *)
Definition keeps {A : Type} (m : M A) : Prop :=
  forall s, basis (leg_of (m s)) = basis s.

Lemma keeps_ret {A : Type} (a : A) : keeps (mret a).
Proof. intros s. reflexivity. Qed.

Lemma keeps_get : keeps get.
Proof. intros s. reflexivity. Qed.

Lemma keeps_lift {A : Type} (r : result A) : keeps (lift r).
Proof. intros s. reflexivity. Qed.

Lemma keeps_raise {A : Type} (e : exn) : keeps (@raise A e).
Proof. intros s. reflexivity. Qed.

Lemma keeps_emit (e : event) : keeps (emit e).
Proof. intros s. reflexivity. Qed.

Lemma keeps_modify (g : LegState -> LegState) :
  (forall s, basis (g s) = basis s) -> keeps (modify g).
Proof. intros H s. apply H. Qed.

Lemma keeps_bind {A B : Type} (m : M A) (k : A -> M B) :
  keeps m -> (forall a, keeps (k a)) -> keeps (mbind k m).
Proof.
  intros Hm Hk s. specialize (Hm s). unfold mbind, M_bind, leg_of in *.
  destruct (m s) as [[s1 t1] [a|e]]; simpl in *; [|exact Hm].
  specialize (Hk a s1). unfold leg_of in Hk.
  destruct (k a s1) as [[s2 t2] r]; simpl in *. congruence.
Qed.

Lemma keeps_catch {A : Type} (m : M A) (h : exn -> M A) :
  keeps m -> (forall e, keeps (h e)) -> keeps (catch m h).
Proof.
  intros Hm Hh s. specialize (Hm s). unfold catch, leg_of in *.
  destruct (m s) as [[s1 t1] [a|e]]; simpl in *; [exact Hm|].
  specialize (Hh e s1). unfold leg_of in Hh.
  destruct (h e s1) as [[s2 t2] r]; simpl in *. congruence.
Qed.

Section Engine.
Variable fos : string -> option float.
Variable env : Env.

Ltac keeps_step :=
  lazymatch goal with
  | |- keeps (mbind _ _) => apply keeps_bind; [|intros ?]
  | |- keeps (catch _ _) => apply keeps_catch; [|intros ?]
  | |- keeps (mret _) => apply keeps_ret
  | |- keeps (modify _) => apply keeps_modify; intros ?; reflexivity
  | |- keeps (emit _) => apply keeps_emit
  | |- keeps (lift _) => apply keeps_lift
  | |- keeps (raise _) => apply keeps_raise
  | |- keeps get => apply keeps_get
  | |- keeps (match ?x with _ => _ end) => destruct x
  | |- keeps (let _ := _ in _) => cbv zeta
  end.

Lemma keeps_exit p r : keeps (Strategy.exit_leg_position fos env p r).
Proof. unfold Strategy.exit_leg_position. repeat keeps_step. Qed.

Lemma keeps_trail_stop_loss pnl : keeps (Strategy.trail_stop_loss fos env pnl).
Proof. unfold Strategy.trail_stop_loss. repeat keeps_step. Qed.

Lemma keeps_trail_exit_target pnl a b c : keeps (Strategy.trail_exit_target env pnl a b c).
Proof. unfold Strategy.trail_exit_target. repeat keeps_step. Qed.

Lemma keeps_lock_then_trail p pnl a b c :
  keeps (Strategy.lock_then_trail fos env p pnl a b c).
Proof.
  unfold Strategy.lock_then_trail.
  repeat first [apply keeps_exit | apply keeps_trail_exit_target | keeps_step].
Qed.

Lemma keeps_progressive_lock p pnl a b c :
  keeps (Strategy.progressive_lock fos env p pnl a b c).
Proof.
  unfold Strategy.progressive_lock. repeat first [apply keeps_exit | keeps_step].
Qed.

Lemma keeps_profit_management p pnl : keeps (Strategy.profit_management fos env p pnl).
Proof.
  unfold Strategy.profit_management.
  apply keeps_bind; [apply keeps_get | intros leg]. cbv zeta.
  repeat first [apply keeps_exit | apply keeps_lock_then_trail
               | apply keeps_progressive_lock | keeps_step].
Qed.

Lemma keeps_manage p pnl : keeps (Strategy.manage_position_unified fos env p pnl).
Proof.
  unfold Strategy.manage_position_unified.
  repeat first [apply keeps_exit | apply keeps_trail_stop_loss
               | apply keeps_profit_management | keeps_step].
Qed.

Lemma keeps_stop_breached p : keeps (Strategy.stop_breached fos env p).
Proof.
  unfold Strategy.stop_breached. repeat first [apply keeps_exit | keeps_step].
Qed.

Lemma keeps_handle p : keeps (Strategy.handle_price_update fos env p).
Proof.
  unfold Strategy.handle_price_update.
  repeat first [apply keeps_stop_breached | apply keeps_manage | keeps_step].
Qed.

(** X21.  Monitoring never changes what the P&L is computed from.
    However many price updates and exit requests are served on a leg,
    and whatever they raise, the leg keeps its number, symbol, entry
    price, quantity, initial stop percentage and entry order id. *)
Theorem basis_is_fixed (reqs : list request) (leg : LegState) :
  let leg' := fst (Monitor.serve fos env reqs leg) in
  leg_num leg' = leg_num leg /\ symbol leg' = symbol leg
  /\ entry_price leg' = entry_price leg /\ quantity leg' = quantity leg
  /\ initial_sl_pct leg' = initial_sl_pct leg
  /\ entry_order_id leg' = entry_order_id leg.
Proof.
  cbv zeta.
  assert (basis (fst (Monitor.serve fos env reqs leg)) = basis leg) as H.
  { revert leg. induction reqs as [|q rest IH]; intros leg; [reflexivity|].
    cbn [Monitor.serve fst]. rewrite IH.
    destruct q; [apply keeps_handle | apply keeps_exit]. }
  unfold basis in H. inversion H. auto 10.
Qed.

End Engine.
End BasisFacts.

(** ** The two P&L calculations *)

Module PnlAgreement.
Local Open Scope float_scope.

(** X19.  The two P&L calculations agree on long positions.  For a
    position and a leg with the same entry price and quantity, bought
    to open and with an entry price other than zero, the position's
    [calculate_pnl] returns what the leg's does.  At an entry price of
    zero the leg's returns a percentage of 0 where the position's raises
    ZeroDivisionError; for any other opening side the position's
    measures the fall of the price instead of its rise. *)
Theorem pnl_functions_agree fos (leg : LegState) (lp : LegPosition) (price : float) :
  entry_price leg = PyFloat (lp_entry_price lp) ->
  quantity leg = lp_quantity lp ->
  (PrimFloat.eqb (lp_entry_price lp) 0 = false ->
   Position.calculate_pnl lp price "BUY" = Leg.calculate_pnl fos leg (PyFloat price))
  /\ (PrimFloat.eqb (lp_entry_price lp) 0 = true ->
      Position.calculate_pnl lp price "BUY" = Raise ZeroDivisionError
      /\ Leg.calculate_pnl fos leg (PyFloat price)
         = Ret ((price - lp_entry_price lp) * Py.float_of_int (lp_quantity lp), 0))
  /\ (forall side, String.eqb side "BUY" = false ->
      PrimFloat.eqb (lp_entry_price lp) 0 = false ->
      Position.calculate_pnl lp price side
      = Ret ((lp_entry_price lp - price) * Py.float_of_int (lp_quantity lp),
             (lp_entry_price lp - price) / lp_entry_price lp * 100)).
Proof.
  intros He Hq.
  unfold Position.calculate_pnl, Leg.calculate_pnl, Py.truediv, mbind, result_bind.
  rewrite He, Hq. simpl.
  split; [|split].
  - intros ->. reflexivity.
  - intros ->. split; reflexivity.
  - intros side -> ->. reflexivity.
Qed.

(** Entered at 100 with 75 units, now at 105. *)
Lemma pnl_functions_agree_witness :
  Position.calculate_pnl Example.position 105 "BUY"
  = Leg.calculate_pnl Example.no_parse (Example.fresh_leg ∅ (PyFloat 100) 7) (PyFloat 105).
Proof.
  apply (proj1 (pnl_functions_agree Example.no_parse
                  (Example.fresh_leg ∅ (PyFloat 100) 7) Example.position 105
                  eq_refl eq_refl)).
  reflexivity.
Defined.

End PnlAgreement.

(** ** The progressive lock *)

Module ProgressiveFacts.
Local Open Scope float_scope.

Section Engine.
Variable fos : string -> option float.
Variable env : Env.

Lemma exit_frame p r leg leg' t out :
  Strategy.exit_leg_position fos env p r leg = (leg', t, out) ->
  config leg' = config leg
  /\ profit_level_for_lock_increase leg' = profit_level_for_lock_increase leg.
Proof.
  unfold Strategy.exit_leg_position. run_m.
  repeat (case_match; simpl; auto);
    intros H; inversion H; subst; simpl; auto.
Qed.

(** The progressive lock once the level and the lock to test are known. *)
Lemma exit_if_reached leg price pnl_pct lock :
  is_active leg = true -> exiting leg = false ->
  let x := (if Py.ge pnl_pct lock
            then Strategy.exit_leg_position fos env (PyFloat price) PROFIT_LOCK
            else mret tt) leg in
  is_active (leg_of x) = negb (Py.ge pnl_pct lock)
  /\ config (leg_of x) = config leg
  /\ profit_level_for_lock_increase (leg_of x) = profit_level_for_lock_increase leg
  /\ (Py.ge pnl_pct lock = true ->
      exit_reason (leg_of x) = Some PROFIT_LOCK /\ exit_price (leg_of x) = PyFloat price).
Proof.
  intros Ha He. cbv zeta. destruct (Py.ge pnl_pct lock); simpl.
  - destruct (ExitFacts.exit_open fos env (PyFloat price) PROFIT_LOCK leg Ha He)
      as (leg' & t & Hx & Hi & _ & Hp & Hr & _).
    destruct (exit_frame (PyFloat price) PROFIT_LOCK leg leg' t (Ret tt) Hx) as [Hc Hl].
    rewrite Hx. unfold leg_of. simpl. repeat split; intros; auto.
  - unfold leg_of. simpl. repeat split; intros; auto; discriminate.
Qed.

Ltac settle_lock price pnl_pct Ha He :=
  match goal with
  | |- context [(if Py.ge pnl_pct ?k then ?m1 else ?m2) ?s] =>
      let K := fresh "K" in
      pose proof (exit_if_reached s price pnl_pct k Ha He) as K;
      cbv zeta in K; unfold mret, M_ret, leg_of in *;
      destruct ((if Py.ge pnl_pct k then m1 else m2) s) as [[? ?] ?];
      cbn [fst snd] in *;
      let Ka := fresh "Ka" in let Kb := fresh "Kb" in
      let Kc := fresh "Kc" in let Kd := fresh "Kd" in
      destruct K as (Ka & Kb & Kc & Kd);
      (split; [exact Ka|]);
      (split; [first [intros _; exact Kd | intros; discriminate] |]);
      first [intros _; rewrite Kb, Kc; simpl; split; [reflexivity | rewrite lookup_insert; reflexivity]
            | intros; discriminate]
  end.

(** X20.  The rule of the progressive lock.  On an open leg, with the
    escalation level the leg holds (lock + threshold on the first call):
    below the level the leg is closed as PROFIT_LOCK exactly when the
    profit is at or above the lock percentage; at or above the level the
    lock is raised by the step and written to the leg's configuration,
    the level is raised by the threshold, and the leg is closed exactly
    when the profit is at or above the raised lock.  So a profit that
    reaches the lock without reaching the level closes the leg at once:
    the lock escalates only on a profit that jumps past the level. *)
Theorem progressive_lock_rule leg price pnl_pct lock step threshold :
  is_active leg = true -> exiting leg = false ->
  let level := default (lock + threshold) (profit_level_for_lock_increase leg) in
  let x := Strategy.progressive_lock fos env price pnl_pct lock step threshold leg in
  is_active (leg_of x)
  = negb (if Py.ge pnl_pct level then Py.ge pnl_pct (lock + step) else Py.ge pnl_pct lock)
  /\ (Py.ge pnl_pct level = false -> Py.ge pnl_pct lock = true ->
      exit_reason (leg_of x) = Some PROFIT_LOCK /\ exit_price (leg_of x) = PyFloat price)
  /\ (Py.ge pnl_pct level = true ->
      profit_level_for_lock_increase (leg_of x) = Some (level + threshold)
      /\ config (leg_of x) !! "lock_profit_pct" = Some (PyFloat (lock + step))).
Proof.
  intros Ha He. cbv zeta.
  unfold Strategy.progressive_lock. run_m.
  destruct (profit_level_for_lock_increase leg) as [l|] eqn:Hl; simpl;
    rewrite ?Hl; simpl.
  - destruct (Py.ge pnl_pct l) eqn:Hg; simpl; settle_lock price pnl_pct Ha He.
  - destruct (Py.ge pnl_pct (lock + threshold)) eqn:Hg; simpl;
      settle_lock price pnl_pct Ha He.
Qed.

End Engine.

(** Lock 2%, step 1%, threshold 2%: a profit of 3% closes the leg. *)
Lemma progressive_lock_rule_witness :
  is_active (leg_of (Strategy.progressive_lock Example.no_parse (Example.broker true 100 100)
                       103 3 2 1 2 (Example.entered_leg ∅ 7 100 100))) = false.
Proof.
  destruct (progressive_lock_rule Example.no_parse (Example.broker true 100 100)
              (Example.entered_leg ∅ 7 100 100) 103 3 2 1 2 eq_refl eq_refl) as [H _].
  rewrite H. vm_compute. reflexivity.
Defined.

End ProgressiveFacts.

(** ** The strategy state *)

Module StateFacts.
Local Open Scope float_scope.

Lemma get_set_same {V : Type} (d : list (Z * V)) k v :
  PyDict.get (PyDict.set d k v) k = Some v.
Proof.
  induction d as [|[k' v'] rest IH]; simpl.
  - now rewrite Z.eqb_refl.
  - destruct (k =? k')%Z eqn:E; simpl; rewrite E; [reflexivity | exact IH].
Qed.

Lemma get_set_other {V : Type} (d : list (Z * V)) k m v :
  m <> k -> PyDict.get (PyDict.set d k v) m = PyDict.get d m.
Proof.
  intros Hm. induction d as [|[k' v'] rest IH]; simpl.
  - destruct (m =? k)%Z eqn:E; [apply Z.eqb_eq in E; contradiction | reflexivity].
  - destruct (k =? k')%Z eqn:E; simpl.
    + apply Z.eqb_eq in E. subst k'. 
      destruct (m =? k)%Z eqn:E'; [apply Z.eqb_eq in E'; contradiction | reflexivity].
    + now rewrite IH.
Qed.

Lemma keys_set {V : Type} (d : list (Z * V)) k v :
  List.NoDup (map fst d) -> List.NoDup (map fst (PyDict.set d k v))
  /\ forall m, In m (map fst (PyDict.set d k v)) <-> m = k \/ In m (map fst d).
Proof.
  induction d as [|[k' v'] rest IH]; simpl; intros H.
  - split; [constructor; [simpl; tauto | constructor]|]. intros m. intuition.
  - inversion H as [|? ? Hn Hr]; subst.
    destruct (k =? k')%Z eqn:E; simpl.
    + apply Z.eqb_eq in E. subst k'. split; [exact H|]. intros m. intuition.
    + destruct (IH Hr) as [Hd Hin]. split.
      * constructor; [|exact Hd]. rewrite Hin. intros [-> | Hm]; [|contradiction].
        now rewrite Z.eqb_refl in E.
      * intros m. rewrite Hin. intuition.
Qed.

(** Replacing a position that is not closed by an active one leaves
    the sums as they are. *)
Lemma sum_closed_set d k p : forall a b,
  lp_is_active p = true ->
  match PyDict.get d k with
  | Some (Some old) => lp_is_active old = true
  | _ => True
  end ->
  State.sum_closed (PyDict.set d k (Some p)) a b = State.sum_closed d a b.
Proof.
  induction d as [|[k' v'] rest IH]; simpl; intros a b Hp Hold.
  - now rewrite Hp.
  - destruct (k =? k')%Z eqn:E; simpl.
    + rewrite Hp. simpl. destruct v' as [old|]; [now rewrite Hold | reflexivity].
    + destruct v' as [old|]; [destruct (lp_is_active old)|]; simpl; now apply IH.
Qed.

Lemma active_items_in d m q :
  In (m, q) (State.active_items d) <-> In (m, Some q) d /\ lp_is_active q = true.
Proof.
  induction d as [|[k [pos|]] rest IH]; simpl.
  - tauto.
  - destruct (lp_is_active pos) eqn:E; simpl; rewrite IH; split.
    + intros [H | H]; [inversion H; subst; auto | tauto].
    + intros [[H | H] Ha]; [inversion H; subst; auto | tauto].
    + tauto.
    + intros [[H | H] Ha]; [inversion H; subst; congruence | tauto].
  - rewrite IH. split; [tauto|]. intros [[H | H] Ha]; [discriminate | tauto].
Qed.

Lemma in_set {V : Type} (d : list (Z * V)) k v : In (k, v) (PyDict.set d k v).
Proof.
  induction d as [|[k' v'] rest IH]; simpl; [now left|].
  destruct (k =? k')%Z eqn:E; simpl; [|now right].
  apply Z.eqb_eq in E. subst. now left.
Qed.

(** X18.  Positions are stored and found by leg number.  After
    [set_position] the position is the one [get_position] returns for
    that leg, and the leg counts as entered; every other leg is as
    before.  Leg numbers stay unique in the dict.  The position is
    listed among the active ones exactly when it is active, and storing
    an active position over nothing, or over one that was not closed,
    leaves the P&L totals as they are: only closed positions are summed. *)
Theorem position_round_trip (s : StrategyState) (n : Z) (p : LegPosition) :
  let s' := State.set_position s n p in
  State.get_position s' n = Some p
  /\ State.is_leg_entered s' n = true
  /\ (forall m, m <> n ->
        State.get_position s' m = State.get_position s m
        /\ State.is_leg_entered s' m = State.is_leg_entered s m)
  /\ (List.NoDup (map fst (leg_positions s)) ->
      List.NoDup (map fst (leg_positions s')))
  /\ (In (n, p) (State.get_all_active_positions s') <-> lp_is_active p = true)
  /\ (lp_is_active p = true ->
      (forall old, State.get_position s n = Some old -> lp_is_active old = true) ->
      State.get_total_pnl s' = State.get_total_pnl s).
Proof.
  cbv zeta. unfold State.get_position, State.is_leg_entered,
    State.get_all_active_positions, State.get_total_pnl, State.set_position.
  cbn [leg_positions legs_entered].
  split; [now rewrite get_set_same|]. split; [now rewrite get_set_same|].
  split; [intros m Hm; now rewrite !get_set_other by exact Hm|].
  split; [intros H; now apply keys_set|].
  split.
  - rewrite active_items_in. split; [tauto|]. intros H. split; [apply in_set | exact H].
  - intros Hp Hold. apply sum_closed_set; [exact Hp|].
    destruct (PyDict.get (leg_positions s) n) as [[old|]|]; auto.
Qed.

End StateFacts.
